(** * SAFES configuration loader ([src/utils/config.py])

    A shallow embedding of [ConfigLoader]: the singleton constructor, the
    loading methods, [get], [get_section], [_convert_type] and [reload],
    over an explicit Python object store, so that the aliasing between the
    loader's tree and the values it hands out is visible. *)

From Stdlib Require Import ZArith String Ascii.
From Stdlib Require Import Floats.SpecFloat.
From stdpp Require Import gmap strings list fin_maps.

Local Open Scope Z_scope.

(** ** Strings

    A Python [str] is modelled by [string].  The two characters the loader
    treats specially, ['.'] and ['_'], are ASCII, so [replace] and [split]
    act on the characters one by one. *)

(** [s.replace(old, new)] for one-character [old] and [new]. *)
Fixpoint str_replace (old new : ascii) (s : string) : string :=
  match s with
  | EmptyString => EmptyString
  | String c s' =>
      String (if decide (c = old) then new else c) (str_replace old new s')
  end.

(** [s.split(sep)] for a one-character [sep]: never empty, one more piece
    than there are separators. *)
Fixpoint str_split (sep : ascii) (s : string) : list string :=
  match s with
  | EmptyString => [EmptyString]
  | String c s' =>
      if decide (c = sep) then EmptyString :: str_split sep s'
      else match str_split sep s' with
           | [] => [String c EmptyString]
           | piece :: pieces => String c piece :: pieces
           end
  end.

Definition newline : string := String (ascii_of_nat 10) EmptyString.

(** The built-ins whose behaviour is fixed by CPython and its Unicode
    tables rather than by this repository: [str.upper], [str.lower],
    [int(str)] and [float(str)].  The last two answer [None] where Python
    raises [ValueError]. *)
Class PyBuiltins := {
  str_upper : string → string;
  str_lower : string → string;
  int_of_str : string → option Z;
  float_of_str : string → option spec_float;
}.

(** ** The built-ins on ASCII text *)

Module AsciiText.

Definition is_upper (c : ascii) : bool :=
  let n := nat_of_ascii c in ((65 <=? n) && (n <=? 90))%nat.
Definition is_lower (c : ascii) : bool :=
  let n := nat_of_ascii c in ((97 <=? n) && (n <=? 122))%nat.
Definition is_digit (c : ascii) : bool :=
  let n := nat_of_ascii c in ((48 <=? n) && (n <=? 57))%nat.
(** [Py_ISSPACE], the blanks [int] and [float] skip around the text:
    tab to carriage return, and the space. *)
Definition is_space (c : ascii) : bool :=
  let n := nat_of_ascii c in
  (((9 <=? n) && (n <=? 13)) || (n =? 32))%nat.

Definition upper_char (c : ascii) : ascii :=
  if is_lower c then ascii_of_nat (nat_of_ascii c - 32) else c.
Definition lower_char (c : ascii) : ascii :=
  if is_upper c then ascii_of_nat (nat_of_ascii c + 32) else c.

Fixpoint map_chars (f : ascii → ascii) (s : string) : string :=
  match s with
  | EmptyString => EmptyString
  | String c s' => String (f c) (map_chars f s')
  end.

Definition upper : string → string := map_chars upper_char.
Definition lower : string → string := map_chars lower_char.

Definition digit_val (c : ascii) : Z := Z.of_nat (nat_of_ascii c - 48).

Fixpoint drop_spaces (cs : list ascii) : list ascii :=
  match cs with
  | c :: cs' => if is_space c then drop_spaces cs' else cs
  | [] => []
  end.

Definition strip (cs : list ascii) : list ascii :=
  rev (drop_spaces (rev (drop_spaces cs))).

(** An optional sign; [true] is minus. *)
Definition read_sign (cs : list ascii) : bool * list ascii :=
  match cs with
  | c :: cs' =>
      if decide (c = "-"%char) then (true, cs')
      else if decide (c = "+"%char) then (false, cs')
      else (false, cs)
  | [] => (false, [])
  end.

(** A digit part: digits, single underscores allowed between two
    digits.  Returns the digits read and what follows them. *)
Fixpoint read_digits (cs : list ascii) : list Z * list ascii :=
  match cs with
  | c :: cs' =>
      if is_digit c then
        match cs' with
        | u :: ((d :: _) as cs'') =>
            if bool_decide (u = "_"%char) && is_digit d
            then let '(ds, rest) := read_digits cs'' in (digit_val c :: ds, rest)
            else let '(ds, rest) := read_digits cs' in (digit_val c :: ds, rest)
        | _ => let '(ds, rest) := read_digits cs' in (digit_val c :: ds, rest)
        end
      else ([], cs)
  | [] => ([], [])
  end.

Definition decimal (ds : list Z) : Z := foldl (λ acc d, 10 * acc + d) 0 ds.

Definition signed (minus : bool) (n : Z) : Z := if minus then - n else n.

(** [int(s)]: surrounding blanks, a sign, a digit part and nothing else. *)
Definition to_int (s : string) : option Z :=
  let '(minus, cs) := read_sign (strip (list_ascii_of_string s)) in
  match read_digits cs with
  | ((_ :: _) as ds, []) => Some (signed minus (decimal ds))
  | _ => None
  end.

(** [m * 10^e] rounded to the nearest double, ties to even. *)
Definition scale10 (minus : bool) (m e : Z) : spec_float :=
  match m with
  | Zpos p =>
      if 0 <=? e then binary_normalize 53 1024 (signed minus (m * 10 ^ e)) 0 false
      else SFdiv 53 1024 (S754_finite minus p 0)
                         (S754_finite false (Z.to_pos (10 ^ (- e))) 0)
  | _ => S754_zero minus
  end.

(** The exponent part of a float literal: nothing, or [e], a sign and a
    digit part, up to the end of the text. *)
Definition read_exponent (cs : list ascii) : option Z :=
  match cs with
  | [] => Some 0
  | c :: cs' =>
      if decide (lower_char c = "e"%char) then
        let '(minus, cs'') := read_sign cs' in
        match read_digits cs'' with
        | ((_ :: _) as ds, []) => Some (signed minus (decimal ds))
        | _ => None
        end
      else None
  end.

(** [float(s)]: surrounding blanks, a sign, then [inf], [infinity],
    [nan] in any case, or a decimal literal with at least one digit. *)
Definition to_float (s : string) : option spec_float :=
  let '(minus, cs) := read_sign (strip (list_ascii_of_string s)) in
  let word := lower (string_of_list_ascii cs) in
  if decide (word = "inf" ∨ word = "infinity") then Some (S754_infinity minus)
  else if decide (word = "nan") then Some S754_nan
  else
    let '(ip, r1) := read_digits cs in
    let '(fp, r2) :=
      match r1 with
      | c :: r1' => if decide (c = "."%char) then read_digits r1' else ([], r1)
      | [] => ([], [])
      end in
    match ip ++ fp with
    | [] => None
    | ds =>
        match read_exponent r2 with
        | Some e => Some (scale10 minus (decimal ds) (e - Z.of_nat (length fp)))
        | None => None
        end
    end.

#[export] Instance builtins : PyBuiltins :=
  {| str_upper := upper; str_lower := lower;
     int_of_str := to_int; float_of_str := to_float |}.

End AsciiText.

(** ** Python values and the object store

    Scalars are immutable and carried by value; a [dict] or a [list] is an
    object of the store and a value only refers to it, so that two
    references to one mapping see each other's updates.  Mappings have
    string keys, as the annotation [Dict[str, Any]] on [_config] says. *)

#[global] Instance spec_float_eq_dec : EqDecision spec_float.
Proof. solve_decision. Defined.

Inductive val :=
| VNone
| VBool (b : bool)
| VInt (n : Z)
| VFloat (f : spec_float)
| VStr (s : string)
| VRef (l : nat).

#[global] Instance value_eq_dec : EqDecision val.
Proof. solve_decision. Defined.

Inductive obj :=
| ODict (d : gmap string val)
| OList (xs : list val).

#[global] Instance obj_eq_dec : EqDecision obj.
Proof. solve_decision. Defined.

(** The store: object [l] is the [l]-th entry.  Objects are never freed. *)
Abbreviation heap := (list obj).

(** What [yaml.safe_load] hands back, before it is laid out in the store. *)
#[warnings="-register-all"]
Inductive yaml :=
| YNull
| YBool (b : bool)
| YInt (n : Z)
| YFloat (f : spec_float)
| YStr (s : string)
| YSeq (items : list yaml)
| YMap (entries : list (string * yaml)).

Abbreviation path := string.

(** [a / b] on [pathlib.Path]. *)
Definition path_join (a b : path) : path := a +:+ "/" +:+ b.

(** Opening and parsing the document at a path that exists. *)
Inductive load_result :=
| Loaded (doc : yaml)
| YAMLError (e : string)
| OtherError (e : string).

(** Everything outside the process that the loader consults: where the
    module file lives, which paths exist, what the YAML and [.env] files
    hold, and whether [src.utils.logger] can be imported. *)
Record world := World {
  w_project_root : path;
  w_exists : path → bool;
  w_yaml : path → load_result;
  w_dotenv : path → gmap string string;
  w_logger : bool;
}.

Inductive exn :=
| ConfigurationError (msg : string)
| MissingConfigError (msg : string)
| AttributeError
| TypeError
| KeyError.

(** [MissingConfigError] is a subclass of [ConfigurationError]. *)
Definition is_ConfigurationError (e : exn) : bool :=
  match e with
  | ConfigurationError _ | MissingConfigError _ => true
  | _ => false
  end.

(** What the process does to the outside, in order. *)
Inductive event :=
| EvLoadDotenv (p : path)
| EvSafeLoad (p : path)
| EvLoggerWarning (msg : string)
| EvPrint (line : string).

(** The attributes of a [ConfigLoader] object; [None] before [__init__]
    has assigned them. *)
Record loader := Loader {
  _project_root : option path;
  _config_path : option path;
  _config : option val;
  _env_loaded : option bool;
}.

Definition blank_loader : loader := Loader None None None None.

Record state := State {
  st_heap : heap;
  st_environ : gmap string string;
  st_loaders : list loader;
  _instance : option nat;
  _initialized : bool;
  st_trace : list event;
}.

(** A process that has just started, with the given environment. *)
Definition fresh_process (env : gmap string string) : state :=
  State [] env [] None false [].

(** ** Computations: state threaded through, exceptions as results.
    The state reached when an exception is raised is kept: what was
    assigned before the [raise] stays assigned. *)

Inductive result (A : Type) :=
| Ok (a : A)
| Raise (e : exn).
Arguments Ok {A} a.
Arguments Raise {A} e.

Definition M (A : Type) : Type := state → result A * state.

#[global] Instance M_ret : MRet M := λ A a σ, (Ok a, σ).
#[global] Instance M_bind : MBind M := λ A B f m σ,
  match m σ with
  | (Ok a, σ') => f a σ'
  | (Raise e, σ') => (Raise e, σ')
  end.

Definition raise {A} (e : exn) : M A := λ σ, (Raise e, σ).
Definition gets {A} (f : state → A) : M A := λ σ, (Ok (f σ), σ).
Definition modify (f : state → state) : M unit := λ σ, (Ok (), f σ).

Definition with_heap (f : heap → heap) (σ : state) : state :=
  State (f (st_heap σ)) (st_environ σ) (st_loaders σ)
        (_instance σ) (_initialized σ) (st_trace σ).
Definition with_environ (f : gmap string string → gmap string string)
    (σ : state) : state :=
  State (st_heap σ) (f (st_environ σ)) (st_loaders σ)
        (_instance σ) (_initialized σ) (st_trace σ).
Definition with_loaders (f : list loader → list loader) (σ : state) : state :=
  State (st_heap σ) (st_environ σ) (f (st_loaders σ))
        (_instance σ) (_initialized σ) (st_trace σ).
Definition set_instance (i : option nat) (σ : state) : state :=
  State (st_heap σ) (st_environ σ) (st_loaders σ)
        i (_initialized σ) (st_trace σ).
Definition set_initialized (b : bool) (σ : state) : state :=
  State (st_heap σ) (st_environ σ) (st_loaders σ)
        (_instance σ) b (st_trace σ).
Definition emit (e : event) : M unit := modify (λ σ,
  State (st_heap σ) (st_environ σ) (st_loaders σ)
        (_instance σ) (_initialized σ) (st_trace σ ++ [e])).

(** Unfolding the plumbing of [M] in a goal. *)
Ltac unfold_M :=
  unfold mbind, M_bind, mret, M_ret, raise, gets, modify; simpl.

(** [os.getenv(name)] *)
Definition getenv (name : string) : M (option string) :=
  gets (λ σ, st_environ σ !! name).

(** Creating an object: it gets the next free place of the store. *)
Definition alloc (o : obj) : M val := λ σ,
  (Ok (VRef (length (st_heap σ))), with_heap (λ h, h ++ [o]) σ).

(** Reading an attribute of [self]; an attribute never assigned raises. *)
Definition read_attr {A} (field : loader → option A) (self : nat) (σ : state)
    : option A :=
  match st_loaders σ !! self with
  | Some o => field o
  | None => None
  end.

Definition attr {A} (field : loader → option A) (self : nat) : M A := λ σ,
  match read_attr field self σ with
  | Some a => (Ok a, σ)
  | None => (Raise AttributeError, σ)
  end.

Definition set_project_root (self : nat) (p : path) : M unit :=
  modify (with_loaders (alter (λ o,
    Loader (Some p) (_config_path o) (_config o) (_env_loaded o)) self)).
Definition set_config_path (self : nat) (p : path) : M unit :=
  modify (with_loaders (alter (λ o,
    Loader (_project_root o) (Some p) (_config o) (_env_loaded o)) self)).
Definition set_config (self : nat) (v : val) : M unit :=
  modify (with_loaders (alter (λ o,
    Loader (_project_root o) (_config_path o) (Some v) (_env_loaded o)) self)).
Definition set_env_loaded (self : nat) (b : bool) : M unit :=
  modify (with_loaders (alter (λ o,
    Loader (_project_root o) (_config_path o) (_config o) (Some b)) self)).

(** ** [yaml.safe_load]: laying a parsed document out in the store

    Every mapping and sequence of the document becomes a new object.  A key
    written twice keeps its last value. *)

Section BuildChildren.
Variable build : yaml → heap → val * heap.

(** The items of a sequence, left to right. *)
Fixpoint build_items (ts : list yaml) (h : heap) : list val * heap :=
  match ts with
  | [] => ([], h)
  | t :: ts' =>
      let '(v, h1) := build t h in
      let '(vs, h2) := build_items ts' h1 in
      (v :: vs, h2)
  end.

(** The entries of a mapping, in order, into the mapping built so far. *)
Fixpoint build_entries (es : list (string * yaml)) (d : gmap string val)
    (h : heap) : gmap string val * heap :=
  match es with
  | [] => (d, h)
  | (k, t) :: es' =>
      let '(v, h1) := build t h in
      build_entries es' (<[k := v]> d) h1
  end.
End BuildChildren.

Fixpoint build (t : yaml) (h : heap) {struct t} : val * heap :=
  match t with
  | YNull => (VNone, h)
  | YBool b => (VBool b, h)
  | YInt n => (VInt n, h)
  | YFloat f => (VFloat f, h)
  | YStr s => (VStr s, h)
  | YSeq items =>
      let '(xs, h1) := build_items build items h in
      (VRef (length h1), h1 ++ [OList xs])
  | YMap entries =>
      let '(d, h1) := build_entries build entries ∅ h in
      (VRef (length h1), h1 ++ [ODict d])
  end.

Definition safe_load (t : yaml) : M val := λ σ,
  let '(v, h) := build t (st_heap σ) in (Ok v, with_heap (λ _, h) σ).

(** Python truthiness, as [x or {}] tests it. *)
Definition truthy (h : heap) (v : val) : bool :=
  match v with
  | VNone => false
  | VBool b => b
  | VInt n => negb (n =? 0)
  | VFloat (S754_zero _) => false
  | VFloat _ => true
  | VStr s => negb (bool_decide (s = ""))
  | VRef l =>
      match h !! l with
      | Some (ODict d) => negb (bool_decide (d = ∅))
      | Some (OList xs) => negb (bool_decide (xs = []))
      | None => true
      end
  end.

(** ** The loader *)

Section ConfigLoader.
Context `{PyBuiltins}.

(** *** Loading methods *)

(** [load_dotenv(env_path)]: variables already set are kept. *)
Definition load_dotenv (w : world) (env_path : path) : M unit :=
  emit (EvLoadDotenv env_path);;
  modify (with_environ (λ env, env ∪ w_dotenv w env_path)).

(** The [for env_path in env_paths] loop, left at the first file found. *)
Fixpoint _load_env_loop (w : world) (self : nat) (env_paths : list path)
    : M unit :=
  match env_paths with
  | [] => mret ()
  | env_path :: rest =>
      if w_exists w env_path then
        load_dotenv w env_path;;
        set_env_loaded self true
      else _load_env_loop w self rest
  end.

Definition _load_env (w : world) (self : nat) : M unit :=
  root ← attr _project_root self;
  let env_paths := [ path_join (path_join root "configs") ".env";
                     path_join root ".env" ] in
  _load_env_loop w self env_paths.

Definition msg_not_found (p : path) : string :=
  "Configuration file not found: " +:+ p +:+ newline +:+
  "Please ensure 'configs/config.yaml' exists.".
Definition msg_invalid_yaml (p : path) (e : string) : string :=
  "Invalid YAML in configuration file: " +:+ p +:+ newline +:+
  "Error: " +:+ e.
Definition msg_failed (p : path) (e : string) : string :=
  "Failed to load configuration file: " +:+ p +:+ newline +:+
  "Error: " +:+ e.

Definition _load_config (w : world) (self : nat) : M unit :=
  p ← attr _config_path self;
  if negb (w_exists w p) then raise (ConfigurationError (msg_not_found p))
  else
    emit (EvSafeLoad p);;
    match w_yaml w p with
    | Loaded doc =>
        v ← safe_load doc;
        h ← gets st_heap;
        cfg ← (if truthy h v then mret v else alloc (ODict ∅));
        set_config self cfg
    | YAMLError e => raise (ConfigurationError (msg_invalid_yaml p e))
    | OtherError e => raise (ConfigurationError (msg_failed p e))
    end.

(** The [openai_api_key] property. *)
Definition openai_api_key (self : nat) : M (option string) :=
  getenv "OPENAI_API_KEY".

Definition msg_no_api_key : string :=
  "OPENAI_API_KEY not set. LLM features will not work." +:+ newline +:+
  "Set it in configs/.env or as an environment variable.".

(** [not x] on an [Optional[str]]. *)
Definition falsy_str (x : option string) : bool :=
  match x with
  | None => true
  | Some s => bool_decide (s = "")
  end.

Fixpoint emit_all (es : list event) : M unit :=
  match es with
  | [] => mret ()
  | e :: es' => emit e;; emit_all es'
  end.

Definition _validate_required (w : world) (self : nat) : M unit :=
  key ← openai_api_key self;
  let warnings := if falsy_str key then [msg_no_api_key] else [] in
  match warnings with
  | [] => mret ()
  | _ =>
      if w_logger w then emit_all (EvLoggerWarning <$> warnings)
      else emit_all ((λ warning, EvPrint ("WARNING: " +:+ warning)) <$> warnings)
  end.

(** *** Construction *)

Definition __new__ (config_path : option string) : M nat :=
  inst ← gets _instance;
  match inst with
  | None =>
      n ← gets (λ σ, length (st_loaders σ));
      modify (with_loaders (λ os, os ++ [blank_loader]));;
      modify (set_instance (Some n));;
      mret n
  | Some self => mret self
  end.

Definition __init__ (w : world) (self : nat) (config_path : option string)
    : M unit :=
  initialized ← gets _initialized;
  if (initialized : bool) then mret ()
  else
    set_project_root self (w_project_root w);;
    root ← attr _project_root self;
    (match config_path with
     | Some p =>
         if bool_decide (p = "") then
           set_config_path self
             (path_join (path_join root "configs") "config.yaml")
         else set_config_path self p
     | None =>
         set_config_path self
           (path_join (path_join root "configs") "config.yaml")
     end);;
    empty ← alloc (ODict ∅);
    set_config self empty;;
    set_env_loaded self false;;
    _load_env w self;;
    _load_config w self;;
    _validate_required w self;;
    modify (set_initialized true).

(** The call [ConfigLoader(config_path)]. *)
Definition ConfigLoader (w : world) (config_path : option string) : M nat :=
  self ← __new__ config_path;
  __init__ w self config_path;;
  mret self.

Definition get_config (w : world) (config_path : option string) : M nat :=
  ConfigLoader w config_path.

Definition reload (w : world) (self : nat) : M unit :=
  _load_env w self;;
  _load_config w self.

(** *** Access methods *)

Definition _convert_type (value : string) : val :=
  if bool_decide (str_lower value ∈ ["true"; "yes"; "1"; "on"]) then VBool true
  else if bool_decide (str_lower value ∈ ["false"; "no"; "0"; "off"]) then VBool false
  else match int_of_str value with
       | Some n => VInt n
       | None =>
           match float_of_str value with
           | Some f => VFloat f
           | None => VStr value
           end
       end.

(** [value[k]] when [isinstance(value, dict) and k in value]. *)
Definition dict_item (h : heap) (value : val) (k : string) : option val :=
  match value with
  | VRef l =>
      match h !! l with
      | Some (ODict d) => d !! k
      | _ => None
      end
  | _ => None
  end.

Definition msg_key_not_found (key : string) : string :=
  "Required configuration key not found: '" +:+ key +:+ "'".

(** The [for k in keys] loop of [get], from the node reached so far. *)
Fixpoint get_loop (h : heap) (key : string) (default : val)
    (required : bool) (value : val) (keys : list string) : result val :=
  match keys with
  | [] => Ok value
  | k :: keys' =>
      match dict_item h value k with
      | Some value' => get_loop h key default required value' keys'
      | None =>
          if required then Raise (MissingConfigError (msg_key_not_found key))
          else Ok default
      end
  end.

Definition env_key (key : string) : string :=
  str_replace "." "_" (str_upper key).

Definition get (self : nat) (key : string) (default : val)
    (required : bool) : M val :=
  env_value ← getenv (env_key key);
  match env_value with
  | Some env_value => mret (_convert_type env_value)
  | None =>
      let keys := str_split "." key in
      value ← attr _config self;
      h ← gets st_heap;
      match get_loop h key default required value keys with
      | Ok v => mret v
      | Raise e => raise e
      end
  end.

Definition msg_section_not_found (section : string) : string :=
  "Configuration section not found: '" +:+ section +:+ "'".

(** [x in container] for a string [x]: a key of a mapping, an element
    of a sequence, a substring of a string; any other container is not
    iterable. *)
Definition contains (container : val) (x : string) : M bool :=
  match container with
  | VRef l =>
      h ← gets st_heap;
      match h !! l with
      | Some (ODict d) => mret (bool_decide (is_Some (d !! x)))
      | Some (OList xs) => mret (bool_decide (VStr x ∈ xs))
      | None => raise TypeError
      end
  | VStr s => mret (bool_decide (is_Some (String.index 0 x s)))
  | _ => raise TypeError
  end.

(** [container[x]] for a string [x]: only a mapping can be indexed by a
    string. *)
Definition getitem (container : val) (x : string) : M val :=
  match container with
  | VRef l =>
      h ← gets st_heap;
      match h !! l with
      | Some (ODict d) =>
          match d !! x with
          | Some v => mret v
          | None => raise KeyError
          end
      | _ => raise TypeError
      end
  | _ => raise TypeError
  end.

(** [v.copy()]: [dict] and [list] have the method and give a new object
    with the same entries; the scalars do not have it. *)
Definition copy (v : val) : M val :=
  match v with
  | VRef l =>
      h ← gets st_heap;
      match h !! l with
      | Some o => alloc o
      | None => raise AttributeError
      end
  | _ => raise AttributeError
  end.

Definition get_section (self : nat) (section : string) : M val :=
  config ← attr _config self;
  present ← contains config section;
  if negb present then
    raise (MissingConfigError (msg_section_not_found section))
  else
    item ← getitem config section;
    copy item.

Definition get_all (self : nat) : M val :=
  config ← attr _config self;
  copy config.

(** *** What a caller can do to a mapping it holds *)

Inductive mutation :=
| SetItem (k : string) (v : val)
| DelItem (k : string)
| Clear.

Definition mutate_dict (m : mutation) (d : gmap string val)
    : gmap string val :=
  match m with
  | SetItem k v => <[k := v]> d
  | DelItem k => delete k d
  | Clear => ∅
  end.

(** [target[k] = v], [del target[k]], [target.clear()], on a mapping. *)
Definition mutate (target : val) (m : mutation) : M unit :=
  match target with
  | VRef l =>
      h ← gets st_heap;
      match h !! l, m with
      | Some (ODict d), DelItem k =>
          if bool_decide (is_Some (d !! k))
          then modify (with_heap (<[l := ODict (mutate_dict m d)]>))
          else raise KeyError
      | Some (ODict d), _ =>
          modify (with_heap (<[l := ODict (mutate_dict m d)]>))
      | _, _ => raise TypeError
      end
  | _ => raise TypeError
  end.

Fixpoint mutate_all (target : val) (ms : list mutation) : M unit :=
  match ms with
  | [] => mret ()
  | m :: ms' => mutate target m;; mutate_all target ms'
  end.
End ConfigLoader.

(** ** The specification's vocabulary

    The coercion order, navigation through the tree and the view of a
    store value as a document are stated here as the specification words
    them, independently of the loops above. *)

Section Vocabulary.
Context `{PyBuiltins}.

Definition true_words : list string := ["true"; "yes"; "1"; "on"].
Definition false_words : list string := ["false"; "no"; "0"; "off"].

(** The fixed coercion order, first match wins. *)
Inductive coerced (s : string) : val → Prop :=
| coerced_true :
    str_lower s ∈ true_words → coerced s (VBool true)
| coerced_false :
    str_lower s ∉ true_words → str_lower s ∈ false_words →
    coerced s (VBool false)
| coerced_int n :
    str_lower s ∉ true_words → str_lower s ∉ false_words →
    int_of_str s = Some n → coerced s (VInt n)
| coerced_float f :
    str_lower s ∉ true_words → str_lower s ∉ false_words →
    int_of_str s = None → float_of_str s = Some f → coerced s (VFloat f)
| coerced_str :
    str_lower s ∉ true_words → str_lower s ∉ false_words →
    int_of_str s = None → float_of_str s = None → coerced s (VStr s).

(** Navigation succeeds: every segment is found in a mapping. *)
Inductive located (h : heap) : val → list string → val → Prop :=
| located_here v : located h v [] v
| located_step l d k v ks v' :
    h !! l = Some (ODict d) → d !! k = Some v →
    located h v ks v' → located h (VRef l) (k :: ks) v'.

(** Navigation fails: the node reached is not a mapping, or the next
    segment is absent from it, here or further down. *)
Inductive unlocatable (h : heap) : val → list string → Prop :=
| not_a_mapping v k ks :
    (∀ l d, v = VRef l → h !! l ≠ Some (ODict d)) →
    unlocatable h v (k :: ks)
| segment_absent l d k ks :
    h !! l = Some (ODict d) → d !! k = None →
    unlocatable h (VRef l) (k :: ks)
| unlocatable_below l d k v ks :
    h !! l = Some (ODict d) → d !! k = Some v →
    unlocatable h v ks → unlocatable h (VRef l) (k :: ks).
End Vocabulary.


(** A store is closed when every reference held by one of its objects
    points inside it: no object refers to one that does not exist yet. *)
Definition closed_val (n : nat) (v : val) : Prop :=
  match v with
  | VRef l => (l < n)%nat
  | _ => True
  end.

Definition closed_obj (n : nat) (o : obj) : Prop :=
  match o with
  | ODict d => map_Forall (λ _ v, closed_val n v) d
  | OList xs => Forall (closed_val n) xs
  end.

Definition closed_heap (h : heap) : Prop := Forall (closed_obj (length h)) h.

#[global] Instance closed_val_dec n v : Decision (closed_val n v).
Proof. destruct v; simpl; apply _. Defined.
#[global] Instance closed_obj_dec n o : Decision (closed_obj n o).
Proof. destruct o; simpl; apply _. Defined.
#[global] Instance closed_heap_dec h : Decision (closed_heap h).
Proof. unfold closed_heap. apply _. Defined.

Definition is_scalar (v : val) : Prop :=
  match v with
  | VRef _ => False
  | _ => True
  end.

(** What a call handed back, seen through the store it left: the object
    behind a returned reference, or the exception. *)
Definition returned_object (out : result val * state) : result (option obj) :=
  match out.1 with
  | Ok (VRef r) => Ok (st_heap out.2 !! r)
  | Ok _ => Ok None
  | Raise e => Raise e
  end.

(** *** Documents

    The document as the parser read it, against which the tree laid out
    in the store is compared. *)

(** The value a key has in a mapping of the document: its last binding. *)
Fixpoint last_binding (k : string) (es : list (string * yaml)) : option yaml :=
  match es with
  | [] => None
  | (k', t) :: es' =>
      match last_binding k es' with
      | Some t' => Some t'
      | None => if decide (k = k') then Some t else None
      end
  end.

(** Following a dot-path in the document. *)
Fixpoint yaml_locate (t : yaml) (ks : list string) : option yaml :=
  match ks with
  | [] => Some t
  | k :: ks' =>
      match t with
      | YMap es =>
          match last_binding k es with
          | Some t' => yaml_locate t' ks'
          | None => None
          end
      | _ => None
      end
  end.

Definition yaml_truthy (t : yaml) : bool :=
  match t with
  | YNull => false
  | YBool b => b
  | YInt n => negb (n =? 0)
  | YFloat (S754_zero _) => false
  | YFloat _ => true
  | YStr s => negb (bool_decide (s = ""))
  | YSeq items => negb (bool_decide (items = []))
  | YMap es => negb (bool_decide (es = []))
  end.

(** The document the loader serves: an empty mapping stands in for a
    document that is empty or otherwise falsy. *)
Definition served_document (t : yaml) : yaml :=
  if yaml_truthy t then t else YMap [].

(** A value of the store represents a document. *)
#[warnings="-register-all"]
Inductive represents (h : heap) : yaml → val → Prop :=
| rep_null : represents h YNull VNone
| rep_bool b : represents h (YBool b) (VBool b)
| rep_int n : represents h (YInt n) (VInt n)
| rep_float f : represents h (YFloat f) (VFloat f)
| rep_str s : represents h (YStr s) (VStr s)
| rep_seq items l xs :
    h !! l = Some (OList xs) →
    Forall2 (represents h) items xs →
    represents h (YSeq items) (VRef l)
| rep_map es l d :
    h !! l = Some (ODict d) →
    (∀ k, last_binding k es = None → d !! k = None) →
    (∀ k t, last_binding k es = Some t →
            ∃ v, d !! k = Some v ∧ represents h t v) →
    represents h (YMap es) (VRef l).

(** *** Where the loader looks *)

Definition default_config_path (root : path) : path :=
  path_join (path_join root "configs") "config.yaml".

(** The document path a construction call resolves to. *)
Definition document_path (w : world) (config_path : option string) : path :=
  match config_path with
  | Some p => if bool_decide (p = "") then default_config_path (w_project_root w) else p
  | None => default_config_path (w_project_root w)
  end.

Definition env_candidates (root : path) : list path :=
  [path_join (path_join root "configs") ".env"; path_join root ".env"].

(** The override file that is loaded: the first candidate that exists. *)
Definition env_file (w : world) (root : path) : option path :=
  List.find (w_exists w) (env_candidates root).

Definition dotenv_events (w : world) (root : path) : list event :=
  match env_file w root with
  | Some p => [EvLoadDotenv p]
  | None => []
  end.

Definition environ_after_dotenv (w : world) (root : path)
    (env : gmap string string) : gmap string string :=
  match env_file w root with
  | Some p => env ∪ w_dotenv w p
  | None => env
  end.

Definition warning_event (w : world) : event :=
  if w_logger w then EvLoggerWarning msg_no_api_key
  else EvPrint ("WARNING: " +:+ msg_no_api_key).

Definition is_warning (e : event) : bool :=
  match e with
  | EvLoggerWarning _ | EvPrint _ => true
  | _ => false
  end.

(** *** Runs of a process

    What the code around the loader can do, one call at a time. *)

Inductive call :=
| CallConfigLoader (w : world) (config_path : option string)
| CallGet (self : nat) (key : string) (default : val) (required : bool)
| CallGetSection (self : nat) (section : string)
| CallGetAll (self : nat)
| CallReload (w : world) (self : nat)
| CallMutate (target : val) (m : mutation).

Section Runs.
Context `{PyBuiltins}.

Definition discard {A} (m : M A) : M unit := λ σ, (Ok (), (m σ).2).

Definition exec (c : call) : M unit :=
  match c with
  | CallConfigLoader w config_path => discard (ConfigLoader w config_path)
  | CallGet self key default required => discard (get self key default required)
  | CallGetSection self section => discard (get_section self section)
  | CallGetAll self => discard (get_all self)
  | CallReload w self => discard (reload w self)
  | CallMutate target m => discard (mutate target m)
  end.

(** [steps σ σ']: some sequence of calls leads from [σ] to [σ']. *)
Inductive steps (σ : state) : state → Prop :=
| steps_refl : steps σ σ
| steps_call σ' c : steps σ σ' → steps σ ((exec c σ').2).
End Runs.

(** *** The loading steps as functions of the state

    What each loading step leaves behind when it goes through, written
    out directly; the methods above are shown to compute exactly these. *)

Definition with_env_loaded (b : bool) (o : loader) : loader :=
  Loader (_project_root o) (_config_path o) (_config o) (Some b).
Definition with_config (v : val) (o : loader) : loader :=
  Loader (_project_root o) (_config_path o) (Some v) (_env_loaded o).

(** After [_load_env]: the first candidate found is loaded, and variables
    already set win over the file's. *)
Definition env_loaded (w : world) (self : nat) (root : path) (σ : state) : state :=
  match env_file w root with
  | Some p =>
      State (st_heap σ) (st_environ σ ∪ w_dotenv w p)
            (alter (with_env_loaded true) self (st_loaders σ))
            (_instance σ) (_initialized σ) (st_trace σ ++ [EvLoadDotenv p])
  | None => σ
  end.

(** After a [_load_config] that parsed [doc]: the tree is laid out in new
    objects and [_config] is rebound to it, or to a new empty mapping when
    the document is falsy. *)
Definition config_loaded (self : nat) (p : path) (doc : yaml) (σ : state) : state :=
  let '(v, h) := build doc (st_heap σ) in
  let '(cfg, h') :=
    if truthy h v then (v, h) else (VRef (length h), h ++ [ODict ∅]) in
  State h' (st_environ σ) (alter (with_config cfg) self (st_loaders σ))
        (_instance σ) (_initialized σ) (st_trace σ ++ [EvSafeLoad p]).

(** After the assignments that open [__init__]. *)
Definition attrs_assigned (w : world) (self : nat) (config_path : option string)
    (σ : state) : state :=
  State (st_heap σ ++ [ODict ∅]) (st_environ σ)
        (alter (λ _, Loader (Some (w_project_root w))
                            (Some (document_path w config_path))
                            (Some (VRef (length (st_heap σ))))
                            (Some false)) self (st_loaders σ))
        (_instance σ) (_initialized σ) (st_trace σ).

(** The warnings of [_validate_required]. *)
Definition validation_events (w : world) (env : gmap string string) : list event :=
  if falsy_str (env !! "OPENAI_API_KEY") then [warning_event w] else [].

Definition validated (w : world) (σ : state) : state :=
  State (st_heap σ) (st_environ σ) (st_loaders σ) (_instance σ)
        (_initialized σ) (st_trace σ ++ validation_events w (st_environ σ)).

(** After [__new__]: a blank object is created only when there is none. *)
Definition instance_made (σ : state) : nat * state :=
  match _instance σ with
  | Some self => (self, σ)
  | None =>
      (length (st_loaders σ),
       State (st_heap σ) (st_environ σ) (st_loaders σ ++ [blank_loader])
             (Some (length (st_loaders σ))) (_initialized σ) (st_trace σ))
  end.

(** The class attribute [_instance] names an object that exists. *)
Definition instance_exists (σ : state) : Prop :=
  match _instance σ with
  | Some self => is_Some (st_loaders σ !! self)
  | None => True
  end.

#[global] Instance instance_exists_dec σ : Decision (instance_exists σ).
Proof. unfold instance_exists. destruct (_instance σ); apply _. Defined.

(** A computation keeps a relation between the state it starts in and
    the state it leaves, however it ends. *)
Definition keeps {A} (R : state → state → Prop) (m : M A) : Prop :=
  ∀ σ, R σ (m σ).2.

(** The class attributes are untouched. *)
Definition same_class (σ σ' : state) : Prop :=
  _instance σ' = _instance σ ∧ _initialized σ' = _initialized σ.

(** The singleton is untouched. *)
Definition same_instance (σ σ' : state) : Prop := _instance σ' = _instance σ.

(** ** A small deployment to evaluate the loader on *)

Module Demo.
Import AsciiText.

Definition document : yaml :=
  YMap [ ("app", YMap [("debug", YBool false); ("owner", YNull)]);
         ("document_processing",
            YMap [ ("chunk_size", YInt 500);
                   ("chunk_overlap", YInt 50);
                   ("limits", YMap [("max_pages", YInt 40)]) ]);
         ("allowed_extensions", YSeq [YStr ".pdf"; YStr ".md"]);
         ("version", YInt 2) ].

(** The same file after an edit. *)
Definition edited : yaml :=
  YMap [ ("document_processing", YMap [("chunk_size", YInt 800)]) ].

Definition config_yaml : path := "/srv/safes/configs/config.yaml".

(** Only [configs/config.yaml] exists and it holds [doc]; there is no
    [.env] file; the logger can be imported. *)
Definition files (doc : yaml) : world :=
  World "/srv/safes" (λ p, bool_decide (p = config_yaml))
        (λ _, Loaded doc) (λ _, ∅) true.

(** A deployment whose document is missing, and one whose document is
    not valid YAML, with a [.env] file at the project root. *)
Definition no_document : world :=
  World "/srv/safes" (λ _, false) (λ _, OtherError "") (λ _, ∅) true.
Definition bad_document : world :=
  World "/srv/safes"
        (λ p, bool_decide (p = config_yaml ∨ p = "/srv/safes/.env"))
        (λ _, YAMLError "mapping values are not allowed here")
        (λ _, {["DEBUG" := "true"]}) false.
Definition no_logger : world :=
  World "/srv/safes" (λ p, bool_decide (p = config_yaml))
        (λ _, Loaded document) (λ _, ∅) false.

(** The process after [config = get_config()] at import time. *)
Definition started (env : gmap string string) : state :=
  (get_config (files document) None (fresh_process env)).2.

Definition plain : state := Eval vm_compute in started ∅.
Definition overridden : state :=
  Eval vm_compute in started {["DOCUMENT_PROCESSING_CHUNK_SIZE" := "800"]}.

(** The root mapping of the tree of [plain]. *)
Definition root_of (σ : state) : gmap string val :=
  match read_attr _config 0%nat σ with
  | Some (VRef c) =>
      match st_heap σ !! c with
      | Some (ODict d) => d
      | _ => ∅
      end
  | _ => ∅
  end.
End Demo.

(** The class attributes only ever gain: a registered instance stays the
    registered instance, an initialized process stays initialized. *)
Definition class_monotone (σ σ' : state) : Prop :=
  (∀ a, _instance σ = Some a → _instance σ' = Some a)
  ∧ (_initialized σ = true → _initialized σ' = true).

(** ** The rest of [ConfigLoader]: containment and the named accessors *)

Section Accessors.
Context `{PyBuiltins}.

(** [key in config]: only [MissingConfigError] is caught. *)
Definition __contains__ (self : nat) (key : string) : M bool := λ σ,
  match get self key VNone true σ with
  | (Ok _, σ') => (Ok true, σ')
  | (Raise (MissingConfigError _), σ') => (Ok false, σ')
  | (Raise e, σ') => (Raise e, σ')
  end.

(** The [is_debug] property. *)
Definition is_debug (self : nat) : M val :=
  debug_env ← getenv "DEBUG";
  match debug_env with
  | Some debug_env =>
      mret (VBool (bool_decide (str_lower debug_env ∈ ["true"; "1"; "yes"; "on"])))
  | None => get self "app.debug" (VBool false) false
  end.

(** [v.upper()]: only a [str] has the method. *)
Definition upper_method (v : val) : M val :=
  match v with
  | VStr s => mret (VStr (str_upper s))
  | _ => raise AttributeError
  end.

(** [os.getenv(name, fallback)], the fallback already evaluated. *)
Definition getenv_or (name : string) (fallback : val) : M val :=
  x ← getenv name;
  mret (match x with Some s => VStr s | None => fallback end).

(** The [log_level] property.  The fallback is an argument of
    [os.getenv], so [self.get] runs before the variable is read. *)
Definition log_level (self : nat) : M val :=
  fallback ← get self "logging.level" (VStr "INFO") false;
  level ← getenv_or "LOG_LEVEL" fallback;
  upper_method level.

(** The [api_host] property. *)
Definition api_host (self : nat) : M val :=
  fallback ← get self "api.host" (VStr "0.0.0.0") false;
  getenv_or "API_HOST" fallback.

(** The doubles nearest to the literals [0.3] and [0.7]. *)
Definition float_0_3 : spec_float := S754_finite false 5404319552844595 (-54).
Definition float_0_7 : spec_float := S754_finite false 6305039478318694 (-53).

Definition llm_model (self : nat) : M val :=
  get self "llm.model" (VStr "gpt-3.5-turbo") false.
Definition llm_temperature (self : nat) : M val :=
  get self "llm.temperature" (VFloat float_0_3) false.
Definition llm_max_tokens (self : nat) : M val :=
  get self "llm.max_tokens" (VInt 1500) false.
Definition chunk_size (self : nat) : M val :=
  get self "document_processing.chunk_size" (VInt 500) false.
Definition chunk_overlap (self : nat) : M val :=
  get self "document_processing.chunk_overlap" (VInt 50) false.
Definition max_file_size_mb (self : nat) : M val :=
  get self "document_processing.max_file_size_mb" (VInt 50) false.
Definition retrieval_top_k (self : nat) : M val :=
  get self "retrieval.top_k" (VInt 5) false.
Definition similarity_threshold (self : nat) : M val :=
  get self "retrieval.similarity_threshold" (VFloat float_0_7) false.

(** The [allowed_extensions] property: the default list is built on
    every call, before [get] runs. *)
Definition allowed_extensions (self : nat) : M val :=
  fallback ← alloc (OList [VStr ".pdf"; VStr ".docx"; VStr ".txt"; VStr ".md"]);
  get self "document_processing.allowed_extensions" fallback false.

(** The segments of the key of [allowed_extensions]. *)
Definition extensions_path : list string :=
  ["document_processing"; "allowed_extensions"].

(** The accessors that are one call of [get] with a scalar default. *)
Definition scalar_accessors : list (nat → M val) :=
  [ llm_model; llm_temperature; llm_max_tokens; chunk_size; chunk_overlap;
    max_file_size_mb; retrieval_top_k; similarity_threshold ].

(** [xs.append(v)] on a list held by a caller. *)
Definition list_append (target : val) (v : val) : M unit :=
  match target with
  | VRef l =>
      h ← gets st_heap;
      match h !! l with
      | Some (OList xs) => modify (with_heap (<[l := OList (xs ++ [v])]>))
      | _ => raise AttributeError
      end
  | _ => raise AttributeError
  end.
End Accessors.

(** ** The setup check ([scripts/verify_setup.py])

    The checks that only look at the file system, at the environment and
    at which packages can be imported.  [print] is an event of the trace. *)

Module VerifySetup.

(** [s * n] *)
Fixpoint str_repeat (s : string) (n : nat) : string :=
  match n with
  | O => ""
  | S n' => s +:+ str_repeat s n'
  end.

Definition print (line : string) : M unit := emit (EvPrint line).

Definition print_header (title : string) : M unit :=
  print (newline +:+ str_repeat "=" 60);;
  print (" " +:+ title);;
  print (str_repeat "=" 60).

(** [version] is [""] when the caller leaves it out. *)
Definition status_line (name : string) (status : bool) (version : string)
    : string :=
  let icon := if status then "[OK]" else "[FAIL]" in
  let version_str :=
    if bool_decide (version = "") then "" else " (v" +:+ version +:+ ")" in
  "  " +:+ icon +:+ " " +:+ name +:+ version_str.

Definition print_status (name : string) (status : bool) (version : string)
    : M unit :=
  print (status_line name status version).

(** [__import__(module)]: the module, with its [__version__] string when
    it has one, or the message of the [ImportError]. *)
Inductive import_result :=
| Imported (version : option string)
| ImportError (e : string).

(** The loop shared by [check_core_imports], [check_document_processing]
    and [check_utilities]; [fallback] is the third argument of [getattr]. *)
Fixpoint check_libraries (imports : string → import_result) (fallback : string)
    (libraries : list (string * string)) (all_ok : bool) : M bool :=
  match libraries with
  | [] => mret all_ok
  | (module, name) :: rest =>
      match imports module with
      | Imported version =>
          print_status name true (default fallback version);;
          check_libraries imports fallback rest all_ok
      | ImportError e =>
          print_status (name +:+ " - " +:+ e) false "";;
          check_libraries imports fallback rest false
      end
  end.

Definition core_libraries : list (string * string) :=
  [ ("fastapi", "FastAPI"); ("uvicorn", "Uvicorn"); ("streamlit", "Streamlit");
    ("pydantic", "Pydantic"); ("yaml", "PyYAML") ].
Definition document_libraries : list (string * string) :=
  [ ("pypdf", "PyPDF"); ("pdfplumber", "PDFPlumber"); ("docx", "python-docx") ].
Definition utility_libraries : list (string * string) :=
  [ ("loguru", "Loguru"); ("tenacity", "Tenacity");
    ("dotenv", "python-dotenv"); ("httpx", "HTTPX") ].

Definition check_core_imports (imports : string → import_result) : M bool :=
  print_header "CORE LIBRARY IMPORTS";;
  check_libraries imports "unknown" core_libraries true.

Definition check_document_processing (imports : string → import_result)
    : M bool :=
  print_header "DOCUMENT PROCESSING";;
  check_libraries imports "unknown" document_libraries true.

Definition check_utilities (imports : string → import_result) : M bool :=
  print_header "UTILITIES";;
  check_libraries imports "installed" utility_libraries true.

Definition directories : list string :=
  [ "src"; "src/api"; "src/core"; "src/services"; "src/models"; "src/utils";
    "frontend"; "configs"; "data/uploads"; "data/processed"; "data/vectordb";
    "logs"; "tests" ].

(** The [for dir_name in directories] loop. *)
Fixpoint check_directories_loop (w : world) (project_root : path)
    (dirs : list string) (all_ok : bool) : M bool :=
  match dirs with
  | [] => mret all_ok
  | dir_name :: rest =>
      if w_exists w (path_join project_root dir_name) then
        print_status dir_name true "";;
        check_directories_loop w project_root rest all_ok
      else
        print_status (dir_name +:+ " - missing") false "";;
        check_directories_loop w project_root rest false
  end.

Definition check_directories (w : world) (project_root : path) : M bool :=
  print_header "DIRECTORY STRUCTURE";;
  check_directories_loop w project_root directories true.

(** [api_key[:8] + "..." + api_key[-4:] if len(api_key) > 12 else "***"] *)
Definition masked (api_key : string) : string :=
  if (12 <? String.length api_key)%nat then
    substring 0 8 api_key +:+ "..."
    +:+ substring (String.length api_key - 4) 4 api_key
  else "***".

Definition check_openai_api_key : M bool :=
  print_header "API KEY CHECK";;
  api_key ← getenv "OPENAI_API_KEY";
  if falsy_str api_key then
    print_status "OPENAI_API_KEY not set" false "";;
    print "    Set it in configs/.env or as environment variable";;
    print "    LLM features will not work without it";;
    mret false
  else
    print_status
      ("OPENAI_API_KEY is set (" +:+ masked (default "" api_key) +:+ ")")
      true "";;
    mret true.

(** *** What the checks print, line by line *)

(** The state after printing [lines]. *)
Definition printing (lines : list string) (σ : state) : state :=
  State (st_heap σ) (st_environ σ) (st_loaders σ) (_instance σ)
        (_initialized σ) (st_trace σ ++ (EvPrint <$> lines)).

Definition header_lines (title : string) : list string :=
  [newline +:+ str_repeat "=" 60; " " +:+ title; str_repeat "=" 60].

(** The status line of one directory. *)
Definition directory_line (w : world) (project_root : path) (dir_name : string)
    : string :=
  if w_exists w (path_join project_root dir_name)
  then status_line dir_name true ""
  else status_line (dir_name +:+ " - missing") false "".

(** The status line of one library. *)
Definition library_line (imports : string → import_result) (fallback : string)
    (library : string * string) : string :=
  match imports library.1 with
  | Imported version => status_line library.2 true (default fallback version)
  | ImportError e => status_line (library.2 +:+ " - " +:+ e) false ""
  end.

Definition importable (imports : string → import_result)
    (library : string * string) : bool :=
  match imports library.1 with
  | Imported _ => true
  | ImportError _ => false
  end.

End VerifySetup.

(** ** More deployments to evaluate on *)

Module Sample.
Import AsciiText.

Definition document : yaml :=
  YMap [ ("logging", YMap [("level", YStr "debug"); ("rotation", YInt 10)]);
         ("document_processing",
            YMap [("allowed_extensions", YSeq [YStr ".pdf"; YStr ".txt"])]) ].

(** The process after import, with [document] as [configs/config.yaml]. *)
Definition started (env : gmap string string) : state :=
  (get_config (Demo.files document) None (fresh_process env)).2.

Definition plain : state := Eval vm_compute in started ∅.

(** A process whose document is a sequence at the top level. *)
Definition listed : state :=
  Eval vm_compute in
    (get_config (Demo.files (YSeq [YStr "llm"])) None (fresh_process ∅)).2.

(** Both [.env] files exist, and they disagree about [DEBUG]. *)
Definition two_env_files : world :=
  World "/srv/safes"
        (λ p, bool_decide (p ∈ [Demo.config_yaml; "/srv/safes/configs/.env";
                                "/srv/safes/.env"]))
        (λ _, Loaded Demo.document)
        (λ p, if bool_decide (p = "/srv/safes/configs/.env")
              then {["DEBUG" := "yes"; "LOG_LEVEL" := "warning"]}
              else {["DEBUG" := "no"]})
        true.

(** The process after a construction that found no document. *)
Definition failed : state :=
  Eval vm_compute in
    (get_config Demo.no_document None (fresh_process ∅)).2.

(** The document is found at [/etc/safes.yaml] only. *)
Definition relocated : world :=
  World "/srv/safes" (λ p, bool_decide (p = "/etc/safes.yaml"))
        (λ _, Loaded Demo.document) (λ _, ∅) true.

(** A process started with [LOG_LEVEL] set. *)
Definition leveled : state :=
  Eval vm_compute in started {["LOG_LEVEL" := "warning"]}.
End Sample.
(** * Properties *)

(** ** The built-ins on ASCII text, on examples *)

Example ascii_upper_ex :
  AsciiText.upper "document_processing.chunk_size" = "DOCUMENT_PROCESSING.CHUNK_SIZE".
Proof. reflexivity. Qed.
Example ascii_int_ex :
  map AsciiText.to_int [" 800 "; "-1_000"; "1__0"; "8.5"; ""; "+ 1"; "0012"]
  = [Some 800; Some (-1000); None; None; None; None; Some 12].
Proof. vm_compute. reflexivity. Qed.
Example ascii_float_ex :
  map AsciiText.to_float ["0.5"; "1e3"; "."; "1_.5"; "abc"; "-INF"; ".5e"; "1."]
  = [Some (S754_finite false 4503599627370496 (-53));
     Some (S754_finite false 8796093022208000 (-43));
     None; None; None; Some (S754_infinity true); None;
     Some (S754_finite false 4503599627370496 (-52))].
Proof. vm_compute. reflexivity. Qed.
Example str_split_ex :
  map (str_split ".") ["a.b.c"; ""; "a."; ".a"; "llm"]
  = [["a"; "b"; "c"]; [""]; ["a"; ""]; [""; "a"]; ["llm"]].
Proof. reflexivity. Qed.

(** ** Lookups *)

Section GetProperties.
Context `{PyBuiltins}.
Implicit Types (σ : state) (h : heap) (v : val) (ks : list string).

Lemma convert_type_coerced s : coerced s (_convert_type s).
Proof.
  unfold _convert_type.
  case_bool_decide as Ht; [by constructor|].
  case_bool_decide as Hf; [by constructor|].
  destruct (int_of_str s) as [n|] eqn:Hi; [by constructor|].
  destruct (float_of_str s) as [f|] eqn:Hfl; by constructor.
Qed.

Lemma coerced_functional s v1 v2 : coerced s v1 → coerced s v2 → v1 = v2.
Proof. destruct 1; destruct 1; congruence. Qed.

Lemma get_override σ self key default required s :
  st_environ σ !! env_key key = Some s →
  get self key default required σ = (Ok (_convert_type s), σ).
Proof.
  intros Henv. unfold get, getenv. unfold_M. by rewrite Henv.
Qed.

Lemma get_document σ self key default required config :
  st_environ σ !! env_key key = None →
  read_attr _config self σ = Some config →
  get self key default required σ =
    (get_loop (st_heap σ) key default required config (str_split "." key), σ).
Proof.
  intros Henv Hcfg. unfold get, getenv, attr. unfold_M.
  rewrite Henv, Hcfg. by destruct (get_loop _ _ _ _ _ _).
Qed.

Lemma get_loop_located h key default required v ks v' :
  located h v ks v' → get_loop h key default required v ks = Ok v'.
Proof.
  induction 1 as [|l d k v ks v' Hl Hk _ IH]; [done|].
  simpl. unfold dict_item. by rewrite Hl, Hk.
Qed.

Lemma get_loop_unlocatable h key default required v ks :
  unlocatable h v ks →
  get_loop h key default required v ks =
    if required then Raise (MissingConfigError (msg_key_not_found key))
    else Ok default.
Proof.
  induction 1 as [v k ks Hv|l d k ks Hl Hk|l d k v ks Hl Hk _ IH];
    simpl; unfold dict_item.
  - destruct v as [| | | | |l]; try done.
    destruct (h !! l) as [[d|xs]|] eqn:Hl; try done.
    by destruct (Hv l d).
  - by rewrite Hl, Hk.
  - by rewrite Hl, Hk.
Qed.

(** Navigation either succeeds or fails, never both. *)
Lemma located_or_unlocatable h v ks :
  (∃ v', located h v ks v') ∨ unlocatable h v ks.
Proof.
  revert v. induction ks as [|k ks IH]; intros v.
  - left. eexists. constructor.
  - destruct v as [| | | | |l];
      try (right; apply not_a_mapping; intros ??; discriminate).
    destruct (h !! l) as [[d|xs]|] eqn:Hl.
    + destruct (d !! k) as [v|] eqn:Hk.
      * destruct (IH v) as [[v' Hv']|Hv].
        -- left. exists v'. by eapply located_step.
        -- right. by eapply unlocatable_below.
      * right. by eapply segment_absent.
    + right. apply not_a_mapping. intros l' d' [= <-]. congruence.
    + right. apply not_a_mapping. intros l' d' [= <-]. congruence.
Qed.

Lemma located_not_unlocatable h v ks v' :
  located h v ks v' → ¬ unlocatable h v ks.
Proof.
  intros Hloc Hun.
  pose proof (get_loop_located h "" VNone true _ _ _ Hloc) as E1.
  pose proof (get_loop_unlocatable h "" VNone true _ _ Hun) as E2.
  congruence.
Qed.

Lemma located_functional h v ks v1 v2 :
  located h v ks v1 → located h v ks v2 → v1 = v2.
Proof.
  intros H1 H2.
  pose proof (get_loop_located h "" VNone true _ _ _ H1).
  pose proof (get_loop_located h "" VNone true _ _ _ H2).
  congruence.
Qed.
End GetProperties.

Section GetClaims.
Context `{PyBuiltins}.
Implicit Types (σ : state) (v default : val).

(** C1. When the variable named by the upper-cased key with every ['.']
    replaced by ['_'] is set, [get] returns its text coerced in the fixed
    order (true words, false words, integer, float, the text itself),
    and that is the only value the order allows; the state, and so the
    document, plays no part, whatever the key resolves to there. *)
Theorem get_override_coerced σ self key default required s :
  st_environ σ !! str_replace "." "_" (str_upper key) = Some s →
  ∃ v, get self key default required σ = (Ok v, σ)
       ∧ coerced s v ∧ ∀ v', coerced s v' → v' = v.
Proof.
  intros Henv. exists (_convert_type s). split; [by apply get_override|].
  split; [apply convert_type_coerced|].
  intros v' Hv'. eapply coerced_functional; [done|apply convert_type_coerced].
Qed.

(** C2. With the override variable unset, a key whose every segment is
    found in a mapping gets the very value located in the document, for
    any default and either setting of [required]. *)
Theorem get_document_value σ self key default required config v :
  st_environ σ !! str_replace "." "_" (str_upper key) = None →
  read_attr _config self σ = Some config →
  located (st_heap σ) config (str_split "." key) v →
  get self key default required σ = (Ok v, σ).
Proof.
  intros Henv Hcfg Hloc. rewrite (get_document _ _ _ _ _ config); [|done..].
  by erewrite get_loop_located.
Qed.

(** C6. With [required=True]: an unset override and a failed navigation
    raise [MissingConfigError]; an unset override and a successful
    navigation return the located value, whatever it is; a set override
    returns its coerced text, whatever the navigation finds; and so a
    successful navigation never raises, override or not. *)
Theorem get_required σ self key default config :
  read_attr _config self σ = Some config →
  (st_environ σ !! str_replace "." "_" (str_upper key) = None →
   unlocatable (st_heap σ) config (str_split "." key) →
   get self key default true σ
     = (Raise (MissingConfigError (msg_key_not_found key)), σ))
  ∧ (∀ v, st_environ σ !! str_replace "." "_" (str_upper key) = None →
          located (st_heap σ) config (str_split "." key) v →
          get self key default true σ = (Ok v, σ))
  ∧ (∀ s, st_environ σ !! str_replace "." "_" (str_upper key) = Some s →
          ∃ v', get self key default true σ = (Ok v', σ)
                ∧ coerced s v' ∧ ∀ v'', coerced s v'' → v'' = v')
  ∧ (∀ v, located (st_heap σ) config (str_split "." key) v →
          ∃ v', get self key default true σ = (Ok v', σ)).
Proof.
  intros Hcfg. split; [|split; [|split]].
  - intros Henv Hun. rewrite (get_document _ _ _ _ _ config); [|done..].
    by rewrite get_loop_unlocatable.
  - intros v Henv Hloc. rewrite (get_document _ _ _ _ _ config); [|done..].
    by erewrite get_loop_located.
  - intros s Henv. exists (_convert_type s).
    split; [by apply get_override|]. split; [apply convert_type_coerced|].
    intros v'' Hv''.
    eapply coerced_functional; [done|apply convert_type_coerced].
  - intros v Hloc.
    destruct (st_environ σ !! env_key key) as [s|] eqn:Henv.
    + eexists. by apply get_override.
    + exists v. rewrite (get_document _ _ _ _ _ config); [|done..].
      by erewrite get_loop_located.
Qed.

(** C7. With the override variable unset and a failed navigation,
    [get(key, default=D)] returns [D] itself. *)
Theorem get_default σ self key D config :
  st_environ σ !! str_replace "." "_" (str_upper key) = None →
  read_attr _config self σ = Some config →
  unlocatable (st_heap σ) config (str_split "." key) →
  get self key D false σ = (Ok D, σ).
Proof.
  intros Henv Hcfg Hun. rewrite (get_document _ _ _ _ _ config); [|done..].
  by rewrite get_loop_unlocatable.
Qed.

(** C9. For a missing key, [required=True] wins over any default:
    the call raises [MissingConfigError] and returns nothing. *)
Theorem get_required_ignores_default σ self key config :
  st_environ σ !! str_replace "." "_" (str_upper key) = None →
  read_attr _config self σ = Some config →
  unlocatable (st_heap σ) config (str_split "." key) →
  ∀ D, get self key D true σ
         = (Raise (MissingConfigError (msg_key_not_found key)), σ)
       ∧ ∀ v σ', get self key D true σ ≠ (Ok v, σ').
Proof.
  intros Henv Hcfg Hun D.
  assert (get self key D true σ
          = (Raise (MissingConfigError (msg_key_not_found key)), σ)) as E.
  { rewrite (get_document _ _ _ _ _ config); [|done..].
    by rewrite get_loop_unlocatable. }
  split; [done|]. intros v σ'. by rewrite E.
Qed.
End GetClaims.

(** ** The store under copies and caller mutations *)

Section StoreProperties.
Context `{PyBuiltins}.
Implicit Types (σ : state) (h : heap) (v : val) (ks : list string).

Lemma closed_heap_lookup h l o :
  closed_heap h → h !! l = Some o → closed_obj (length h) o.
Proof. intros Hc Hl. eapply Forall_lookup_1; [apply Hc|done]. Qed.

Lemma closed_dict_item h v k v' :
  closed_heap h → dict_item h v k = Some v' → closed_val (length h) v'.
Proof.
  intros Hc. unfold dict_item. destruct v as [| | | | |l]; try done.
  destruct (h !! l) as [[d|xs]|] eqn:Hl; try done.
  intros Hk. by apply (closed_heap_lookup _ _ _ Hc Hl k v').
Qed.

(** Objects outside the part of the store a value can reach do not
    matter to the navigation loop. *)
Lemma get_loop_frame h h' key default required v ks :
  closed_heap h → closed_val (length h) v →
  (∀ l, (l < length h)%nat → h' !! l = h !! l) →
  get_loop h' key default required v ks = get_loop h key default required v ks.
Proof.
  intros Hc Hv Hagree. revert v Hv.
  induction ks as [|k ks IH]; intros v Hv; [done|]. simpl.
  assert (dict_item h' v k = dict_item h v k) as ->.
  { unfold dict_item. destruct v as [| | | | |l]; try done.
    simpl in Hv. by rewrite Hagree. }
  destruct (dict_item h v k) as [v'|] eqn:Hk; [|done].
  apply IH. by eapply closed_dict_item.
Qed.

(** A run of mutations on one mapping rewrites that object and nothing
    else, whether it ends normally or in an exception. *)
Lemma mutate_all_target r ms σ d out σ' :
  st_heap σ !! r = Some (ODict d) →
  mutate_all (VRef r) ms σ = (out, σ') →
  ∃ d', σ' = with_heap (λ h, <[r := ODict d']> h) σ.
Proof.
  revert σ d. induction ms as [|m ms IH]; intros σ d Hr.
  - simpl. unfold_M. intros [= <- <-]. exists d.
    destruct σ. unfold with_heap. simpl in *. f_equal.
    by rewrite list_insert_id.
  - simpl. unfold mutate, mbind at 1, M_bind at 1.
    unfold mbind at 1, M_bind at 1. unfold gets at 1. rewrite Hr.
    assert (∀ d0,
      mutate_all (VRef r) ms (with_heap (λ h, <[r := ODict d0]> h) σ)
        = (out, σ') →
      ∃ d', σ' = with_heap (λ h, <[r := ODict d']> h) σ) as Hstep.
    { intros d0 Hrun.
      apply (IH _ d0) in Hrun as [d' ->].
      - exists d'. destruct σ. unfold with_heap. simpl. f_equal.
        by rewrite list_insert_insert_eq.
      - simpl. apply list_lookup_insert_eq. by eapply lookup_lt_Some. }
    destruct m as [k v|k|]; unfold_M.
    + intros Hrun. by eapply Hstep.
    + case_bool_decide.
      * unfold_M. intros Hrun. by eapply Hstep.
      * intros [= <- <-]. exists d. destruct σ. unfold with_heap.
        simpl in *. f_equal. by rewrite list_insert_id.
    + intros Hrun. by eapply Hstep.
Qed.
End StoreProperties.

(** ** Sections *)

Section SectionProperties.
Context `{PyBuiltins}.
Implicit Types (σ : state) (h : heap) (v : val).

Lemma copy_object σ s o :
  st_heap σ !! s = Some o →
  copy (VRef s) σ
    = (Ok (VRef (length (st_heap σ))), with_heap (λ h, h ++ [o]) σ).
Proof. intros Hs. unfold copy, alloc. unfold_M. by rewrite Hs. Qed.

Lemma copy_scalar σ v : is_scalar v → copy v σ = (Raise AttributeError, σ).
Proof. by destruct v. Qed.

(** [get_section] on a tree whose root is a mapping. *)
Lemma get_section_dict σ self name c top :
  read_attr _config self σ = Some (VRef c) →
  st_heap σ !! c = Some (ODict top) →
  get_section self name σ =
    match top !! name with
    | None => (Raise (MissingConfigError (msg_section_not_found name)), σ)
    | Some v => copy v σ
    end.
Proof.
  intros Hcfg Hc. unfold get_section, attr, contains, getitem. unfold_M.
  rewrite Hcfg, Hc. destruct (top !! name) as [v|] eqn:Hn.
  - rewrite bool_decide_eq_true_2 by eauto. simpl. by rewrite Hc, Hn.
  - rewrite bool_decide_eq_false_2; [done|]. by intros [??].
Qed.

Lemma returned_copy σ v :
  closed_heap (st_heap σ) → closed_val (length (st_heap σ)) v →
  returned_object (copy v σ)
    = match v with
      | VRef s => Ok (st_heap σ !! s)
      | _ => Raise AttributeError
      end.
Proof.
  intros _ Hv. destruct v as [| | | | |s]; try done.
  simpl in Hv. destruct (lookup_lt_is_Some_2 _ _ Hv) as [o Ho].
  rewrite (copy_object _ _ o Ho), Ho. unfold returned_object. simpl.
  f_equal. by rewrite lookup_app_r, Nat.sub_diag.
Qed.

(** C3, as the code has it.  A name that is not a top-level key raises
    [MissingConfigError].  For a top-level key whose value is a mapping,
    [get_section] returns a new mapping with the entries of that
    section, and whatever the caller then does to the returned mapping
    itself (setting, deleting or clearing its keys) leaves every object
    of the loader's tree as it was, and with it the results of every
    later [get] and [get_section]. *)
Theorem get_section_copy σ self name c top :
  read_attr _config self σ = Some (VRef c) →
  st_heap σ !! c = Some (ODict top) →
  closed_heap (st_heap σ) →
  (top !! name = None →
   get_section self name σ
     = (Raise (MissingConfigError (msg_section_not_found name)), σ))
  ∧ (∀ s d, top !! name = Some (VRef s) → st_heap σ !! s = Some (ODict d) →
      ∃ r σ1,
        get_section self name σ = (Ok (VRef r), σ1)
        ∧ st_heap σ !! r = None
        ∧ st_heap σ1 !! r = Some (ODict d)
        ∧ ∀ ms out σ2, mutate_all (VRef r) ms σ1 = (out, σ2) →
            (∀ l o, st_heap σ !! l = Some o → st_heap σ2 !! l = Some o)
            ∧ read_attr _config self σ2 = Some (VRef c)
            ∧ (∀ key default required,
                 (get self key default required σ2).1
                 = (get self key default required σ).1)
            ∧ (∀ name',
                 returned_object (get_section self name' σ2)
                 = returned_object (get_section self name' σ))).
Proof.
  intros Hcfg Hc Hclosed. split.
  { intros Hn. by rewrite (get_section_dict _ _ _ c top), Hn by done. }
  intros s d Hn Hs. set (h := st_heap σ) in *.
  exists (length h), (with_heap (λ h, h ++ [ODict d]) σ).
  split.
  { rewrite (get_section_dict _ _ _ c top), Hn by done. by apply copy_object. }
  split; [by apply lookup_ge_None_2|].
  split; [simpl; by rewrite lookup_app_r, Nat.sub_diag|].
  intros ms out σ2 Hrun.
  eapply mutate_all_target in Hrun as [d' ->];
    [|simpl; by rewrite lookup_app_r, Nat.sub_diag].
  assert (∀ l, (l < length h)%nat →
               <[length h := ODict d']> (h ++ [ODict d]) !! l = h !! l)
    as Hframe.
  { intros l Hl. rewrite list_lookup_insert_ne by lia.
    by apply lookup_app_l. }
  assert (∀ l o, h !! l = Some o →
                 <[length h := ODict d']> (h ++ [ODict d]) !! l = Some o)
    as Hframe'.
  { intros l o Hl. rewrite Hframe; [done|]. by eapply lookup_lt_Some. }
  split; [exact Hframe'|]. split; [exact Hcfg|]. split.
  - intros key default required. unfold get, getenv, attr. unfold_M.
    destruct (st_environ σ !! env_key key) as [e|]; [done|].
    change (read_attr _config self (with_heap _ (with_heap _ σ)))
      with (read_attr _config self σ).
    rewrite Hcfg.
    rewrite (get_loop_frame h); [by destruct (get_loop _ _ _ _ _ _)|done| |done].
    simpl. by eapply lookup_lt_Some.
  - intros name'.
    rewrite (get_section_dict _ _ name' c top); [|done|by apply Hframe'].
    rewrite (get_section_dict σ _ name' c top); [|done..].
    destruct (top !! name') as [v|] eqn:Hn'; [|done].
    assert (closed_val (length h) v) as Hv.
    { by apply (closed_heap_lookup _ _ _ Hclosed Hc name' v). }
    rewrite (returned_copy σ) by done.
    destruct v as [| | | | |s']; try done.
    simpl in Hv. destruct (lookup_lt_is_Some_2 _ _ Hv) as [o Ho].
    rewrite (copy_object _ _ o) by (by apply Hframe').
    unfold returned_object. simpl. fold h. rewrite Ho. f_equal.
    by rewrite lookup_app_r, Nat.sub_diag.
Qed.

(** C10, as the code has it.  When the name is a top-level key whose
    value is not a mapping, [get_section] never raises
    [MissingConfigError]: a scalar value raises [AttributeError] (it has
    no [copy] method), and a sequence is copied and returned. *)
Theorem get_section_non_mapping σ self name c top v :
  read_attr _config self σ = Some (VRef c) →
  st_heap σ !! c = Some (ODict top) →
  top !! name = Some v →
  (is_scalar v → get_section self name σ = (Raise AttributeError, σ))
  ∧ (∀ s xs, v = VRef s → st_heap σ !! s = Some (OList xs) →
       get_section self name σ
         = (Ok (VRef (length (st_heap σ))),
            with_heap (λ h, h ++ [OList xs]) σ))
  ∧ (∀ msg σ', get_section self name σ ≠ (Raise (MissingConfigError msg), σ')).
Proof.
  intros Hcfg Hc Hn. rewrite (get_section_dict _ _ _ c top), Hn by done.
  split; [apply copy_scalar|]. split.
  - intros s xs -> Hs. by apply copy_object.
  - intros msg σ'. unfold copy, alloc. unfold_M.
    destruct v as [| | | | |s]; try done.
    by destruct (st_heap σ !! s).
Qed.
End SectionProperties.

(** ** Documents laid out in the store *)

Section DocumentProperties.
Context `{PyBuiltins}.
Implicit Types (h : heap) (v : val) (t : yaml).

Lemma yaml_ind' (P : yaml → Prop) :
  P YNull → (∀ b, P (YBool b)) → (∀ n, P (YInt n)) → (∀ f, P (YFloat f)) →
  (∀ s, P (YStr s)) →
  (∀ items, Forall P items → P (YSeq items)) →
  (∀ es, Forall (λ e, P e.2) es → P (YMap es)) →
  ∀ t, P t.
Proof.
  intros Hnull Hbool Hint Hfloat Hstr Hseq Hmap. fix IH 1.
  intros [|b|n|f|s|items|es];
    [apply Hnull|apply Hbool|apply Hint|apply Hfloat|apply Hstr| |].
  - apply Hseq. induction items as [|t items IHitems]; constructor.
    + apply IH.
    + exact IHitems.
  - apply Hmap. induction es as [|[k t] es IHes]; constructor.
    + apply IH.
    + exact IHes.
Qed.

Lemma last_binding_elem k es t :
  last_binding k es = Some t → ∃ k', (k', t) ∈ es.
Proof.
  induction es as [|[k' t'] es IH]; [done|]. simpl.
  destruct (last_binding k es) as [t''|].
  - intros [= ->]. destruct IH as [k'' ?]; [done|].
    exists k''. by apply list_elem_of_further.
  - case_decide; [|done]. intros [= ->]. exists k'. apply list_elem_of_here.
Qed.

Lemma last_binding_nonempty k t es : ∃ k' t', last_binding k' ((k, t) :: es) = Some t'.
Proof.
  exists k. simpl. destruct (last_binding k es); [by eexists|].
  rewrite decide_True by done. by eexists.
Qed.

(** Objects are never freed or moved: a document represented in a store
    is still represented in any extension of it. *)
Lemma represents_mono h h' t v :
  represents h t v → h `prefix_of` h' → represents h' t v.
Proof.
  intros Hrep Hpre. revert v Hrep.
  assert (∀ items xs,
    Forall (λ t0, ∀ v0, represents h t0 v0 → represents h' t0 v0) items →
    Forall2 (represents h) items xs → Forall2 (represents h') items xs)
    as Hlift.
  { intros items xs HF HA.
    induction HA as [|t0 x items xs Hx _ IHA]; constructor;
      inversion HF; subst; auto. }
  induction t as [|b|n|f|s|items IH|es IH] using yaml_ind';
    intros v Hrep; inversion Hrep; subst; try (by constructor).
  - eapply rep_seq; [by eapply prefix_lookup_Some|]. by apply Hlift.
  - eapply rep_map; [by eapply prefix_lookup_Some|done|].
    intros k t Hk.
    match goal with Hsome : ∀ k t, last_binding k es = Some t → _ |- _ =>
      destruct (Hsome k t Hk) as (v & Hv & Hrv) end.
    exists v. split; [done|].
    destruct (last_binding_elem _ _ _ Hk) as [k' Hin].
    rewrite Forall_forall in IH. by apply (IH (k', t)).
Qed.

Lemma build_items_spec items h xs h1 :
  Forall (λ t, ∀ h v h', build t h = (v, h') →
               h `prefix_of` h' ∧ represents h' t v) items →
  build_items build items h = (xs, h1) →
  h `prefix_of` h1 ∧ Forall2 (represents h1) items xs.
Proof.
  intros IH. revert h xs h1.
  induction IH as [|t items Ht _ IHitems]; intros h xs h1; simpl.
  - intros [= <- <-]. by split.
  - destruct (build t h) as [v h'] eqn:Hb.
    destruct (build_items build items h') as [vs h''] eqn:Hbs.
    intros [= <- <-].
    destruct (Ht _ _ _ Hb) as [Hp1 Hr1].
    destruct (IHitems _ _ _ Hbs) as [Hp2 Hr2].
    split; [by etrans|]. constructor; [|done].
    by eapply represents_mono.
Qed.

Lemma build_entries_spec es d h d' h1 :
  Forall (λ e, ∀ h v h', build e.2 h = (v, h') →
               h `prefix_of` h' ∧ represents h' e.2 v) es →
  build_entries build es d h = (d', h1) →
  h `prefix_of` h1
  ∧ (∀ k, last_binding k es = None → d' !! k = d !! k)
  ∧ (∀ k t, last_binding k es = Some t →
            ∃ v, d' !! k = Some v ∧ represents h1 t v).
Proof.
  intros IH. revert d h d' h1.
  induction IH as [|[k0 t0] es Ht _ IHes]; intros d h d' h1; simpl.
  - intros [= <- <-]. by repeat split.
  - destruct (build t0 h) as [v0 h'] eqn:Hb. intros Hbs.
    destruct (Ht _ _ _ Hb) as [Hp1 Hr1].
    destruct (IHes _ _ _ _ Hbs) as (Hp2 & Hnone & Hsome).
    split; [by etrans|]. split.
    + intros k. destruct (last_binding k es) eqn:Hk; [done|].
      case_decide; [done|]. intros _.
      rewrite Hnone by done. by apply lookup_insert_ne.
    + intros k t. destruct (last_binding k es) as [t'|] eqn:Hk.
      * intros [= <-]. by apply Hsome.
      * case_decide as Hkk; [|done]. intros [= <-]. subst k0.
        exists v0. split; [|by eapply represents_mono].
        rewrite Hnone by done. by apply lookup_insert_eq.
Qed.

(** [yaml.safe_load] only adds objects, and what it returns represents
    the document. *)
Lemma build_spec t h v h' :
  build t h = (v, h') → h `prefix_of` h' ∧ represents h' t v.
Proof.
  revert h v h'.
  induction t as [|b|n|f|s|items IH|es IH] using yaml_ind';
    intros h v h'; simpl;
    try (intros [= <- <-]; split; [done|by constructor]).
  - destruct (build_items build items h) as [xs h1] eqn:Hbs.
    intros [= <- <-].
    destruct (build_items_spec _ _ _ _ IH Hbs) as [Hp Hall].
    split; [by apply prefix_app_r|].
    eapply rep_seq; [by rewrite lookup_app_r, Nat.sub_diag|].
    eapply Forall2_impl; [exact Hall|].
    intros t x Hx. eapply represents_mono; [done|]. by apply prefix_app_r.
  - destruct (build_entries build es ∅ h) as [d h1] eqn:Hbs.
    intros [= <- <-].
    destruct (build_entries_spec _ _ _ _ _ IH Hbs) as (Hp & Hnone & Hsome).
    split; [by apply prefix_app_r|].
    eapply rep_map; [by rewrite lookup_app_r, Nat.sub_diag| |].
    + intros k Hk. by rewrite Hnone.
    + intros k t Hk. destruct (Hsome k t Hk) as (v & Hv & Hr).
      exists v. split; [done|].
      eapply represents_mono; [done|]. by apply prefix_app_r.
Qed.

Lemma represents_truthy h t v :
  represents h t v → truthy h v = yaml_truthy t.
Proof.
  destruct 1 as [|b|n|f|s|items l xs Hl Hall|es l d Hl Hnone Hsome];
    simpl; try done.
  - rewrite Hl. f_equal. apply bool_decide_ext.
    split; intros ->; by inversion Hall.
  - rewrite Hl. f_equal. apply bool_decide_ext. split.
    + intros ->. destruct es as [|[k t] es]; [done|].
      destruct (last_binding_nonempty k t es) as (k' & t' & Hk).
      by destruct (Hsome _ _ Hk) as (v & Hv & _).
    + intros ->. apply map_empty. intros k. by apply Hnone.
Qed.

(** Navigating the store from a value that represents a document is
    following the same path in the document. *)
Lemma get_loop_represents h key default required t v ks :
  represents h t v →
  match yaml_locate t ks with
  | Some t' =>
      ∃ v', get_loop h key default required v ks = Ok v' ∧ represents h t' v'
  | None =>
      get_loop h key default required v ks
      = if required then Raise (MissingConfigError (msg_key_not_found key))
        else Ok default
  end.
Proof.
  revert t v. induction ks as [|k ks IH]; intros t v Hrep; simpl.
  - by exists v.
  - destruct Hrep as [|b|n|f|s|items l xs Hl Hall|es l d Hl Hnone Hsome];
      unfold dict_item; try done.
    + by rewrite Hl.
    + rewrite Hl. destruct (last_binding k es) as [t'|] eqn:Hk.
      * destruct (Hsome _ _ Hk) as (v' & -> & Hr). by apply IH.
      * by rewrite Hnone.
Qed.
End DocumentProperties.

(** ** Loading *)

Section LoadingProperties.
Context `{PyBuiltins}.
Implicit Types (σ : state) (w : world).

Lemma read_attr_alter {A} (field : loader → option A) g self σ :
  read_attr field self (with_loaders (alter g self) σ)
  = match st_loaders σ !! self with
    | Some o => field (g o)
    | None => None
    end.
Proof.
  unfold read_attr. simpl. rewrite list_lookup_alter_eq.
  by destruct (st_loaders σ !! self).
Qed.

Lemma load_env_eval w self root σ :
  read_attr _project_root self σ = Some root →
  _load_env w self σ = (Ok (), env_loaded w self root σ).
Proof.
  intros Hroot. unfold _load_env, attr. unfold_M. rewrite Hroot.
  unfold env_loaded, env_file, env_candidates, load_dotenv, emit,
    set_env_loaded. simpl.
  destruct (w_exists w (path_join (path_join root "configs") ".env"));
    [done|].
  destruct (w_exists w (path_join root ".env")); [done|].
  by destruct σ.
Qed.

Lemma load_config_eval w self p σ :
  read_attr _config_path self σ = Some p →
  _load_config w self σ =
    if w_exists w p then
      match w_yaml w p with
      | Loaded doc => (Ok (), config_loaded self p doc σ)
      | YAMLError e =>
          (Raise (ConfigurationError (msg_invalid_yaml p e)),
           (emit (EvSafeLoad p) σ).2)
      | OtherError e =>
          (Raise (ConfigurationError (msg_failed p e)),
           (emit (EvSafeLoad p) σ).2)
      end
    else (Raise (ConfigurationError (msg_not_found p)), σ).
Proof.
  intros Hp. unfold _load_config, attr. unfold_M. rewrite Hp.
  destruct (w_exists w p); [|done]. simpl.
  destruct (w_yaml w p) as [doc|e|e]; try done.
  unfold config_loaded, safe_load, emit, alloc, set_config. unfold_M.
  destruct (build doc (st_heap σ)) as [v h] eqn:Hb. simpl.
  by destruct (truthy h v).
Qed.

Lemma validate_required_eval w self σ :
  _validate_required w self σ = (Ok (), validated w σ).
Proof.
  unfold _validate_required, openai_api_key, getenv, validated,
    validation_events, warning_event. unfold_M.
  destruct (falsy_str _); simpl.
  - destruct (w_logger w); simpl; unfold emit; by unfold_M.
  - unfold_M. destruct σ. simpl. by rewrite app_nil_r.
Qed.

Lemma new_eval config_path σ :
  __new__ config_path σ = (Ok (instance_made σ).1, (instance_made σ).2).
Proof.
  unfold __new__, instance_made. unfold_M.
  destruct (_instance σ); [done|]. by unfold_M.
Qed.
End LoadingProperties.

(** ** Construction *)

Section ConstructionProperties.
Context `{PyBuiltins}.
Implicit Types (σ : state) (w : world).

(** The assignments that open [__init__], followed by anything. *)
Lemma attrs_assigned_eval {A} (k : M A) w self config_path σ :
  is_Some (st_loaders σ !! self) →
  (set_project_root self (w_project_root w);;
   root ← attr _project_root self;
   (match config_path with
    | Some p =>
        if bool_decide (p = "") then
          set_config_path self
            (path_join (path_join root "configs") "config.yaml")
        else set_config_path self p
    | None =>
        set_config_path self
          (path_join (path_join root "configs") "config.yaml")
    end);;
   empty ← alloc (ODict ∅);
   set_config self empty;;
   set_env_loaded self false;;
   k) σ
  = k (attrs_assigned w self config_path σ).
Proof.
  intros [o Ho]. unfold set_project_root, attr, alloc. unfold_M.
  rewrite read_attr_alter, Ho. simpl.
  assert (∀ q, document_path w config_path = q →
    attrs_assigned w self config_path σ
    = State (st_heap σ ++ [ODict ∅]) (st_environ σ)
         (alter (λ _, Loader (Some (w_project_root w)) (Some q)
                             (Some (VRef (length (st_heap σ)))) (Some false))
                self (st_loaders σ))
         (_instance σ) (_initialized σ) (st_trace σ)) as Hq.
  { by intros q <-. }
  unfold document_path, default_config_path in Hq.
  destruct config_path as [p|]; [case_bool_decide|];
    (erewrite Hq by reflexivity);
    unfold set_config_path, set_env_loaded; unfold_M;
    f_equal; unfold with_loaders, with_heap; simpl; f_equal;
    rewrite !list_alter_alter_eq; by apply list_alter_ext.
Qed.

Lemma read_attr_attrs_assigned w self config_path σ :
  is_Some (st_loaders σ !! self) →
  read_attr _project_root self (attrs_assigned w self config_path σ)
    = Some (w_project_root w)
  ∧ read_attr _config_path self (attrs_assigned w self config_path σ)
    = Some (document_path w config_path).
Proof.
  intros [o Ho]. unfold read_attr, attrs_assigned. simpl.
  by rewrite list_lookup_alter_eq, Ho.
Qed.

Lemma read_attr_env_loaded {A} (field : loader → option A) w self root σ :
  (∀ o, field (with_env_loaded true o) = field o) →
  read_attr field self (env_loaded w self root σ) = read_attr field self σ.
Proof.
  intros Hf. unfold env_loaded. destruct (env_file w root); [|done].
  unfold read_attr. simpl. rewrite list_lookup_alter_eq.
  destruct (st_loaders σ !! self); simpl; [apply Hf|done].
Qed.

(** [__init__] on an object that exists, in a process not yet
    initialized. *)
Lemma init_eval w self config_path σ :
  _initialized σ = false →
  is_Some (st_loaders σ !! self) →
  __init__ w self config_path σ =
    let d := document_path w config_path in
    let σ1 := env_loaded w self (w_project_root w)
                (attrs_assigned w self config_path σ) in
    if w_exists w d then
      match w_yaml w d with
      | Loaded doc =>
          (Ok (), set_initialized true
                    (validated w (config_loaded self d doc σ1)))
      | YAMLError e =>
          (Raise (ConfigurationError (msg_invalid_yaml d e)),
           (emit (EvSafeLoad d) σ1).2)
      | OtherError e =>
          (Raise (ConfigurationError (msg_failed d e)),
           (emit (EvSafeLoad d) σ1).2)
      end
    else (Raise (ConfigurationError (msg_not_found d)), σ1).
Proof.
  intros Hinit Hself. unfold __init__.
  unfold mbind at 1, M_bind at 1, gets at 1. rewrite Hinit.
  rewrite attrs_assigned_eval by done.
  destruct (read_attr_attrs_assigned w self config_path σ Hself)
    as [Hroot Hpath].
  unfold mbind at 1, M_bind at 1.
  rewrite (load_env_eval _ _ (w_project_root w)) by done.
  unfold mbind at 1, M_bind at 1.
  rewrite (load_config_eval _ _ (document_path w config_path))
    by (by rewrite read_attr_env_loaded).
  simpl. destruct (w_exists w (document_path w config_path)); [|done].
  destruct (w_yaml w (document_path w config_path)); try done.
  unfold mbind at 1, M_bind at 1. by rewrite validate_required_eval.
Qed.

(** The call [ConfigLoader(config_path)] in a process not yet
    initialized. *)
Lemma construct_eval w config_path σ :
  _initialized σ = false →
  instance_exists σ →
  ConfigLoader w config_path σ =
    match __init__ w (instance_made σ).1 config_path (instance_made σ).2 with
    | (Ok _, σ') => (Ok (instance_made σ).1, σ')
    | (Raise e, σ') => (Raise e, σ')
    end.
Proof.
  intros _ _. unfold ConfigLoader. unfold mbind at 1, M_bind at 1.
  rewrite new_eval. unfold mbind at 1, M_bind at 1.
  by destruct (__init__ _ _ _ _) as [[[]|e] σ'].
Qed.

Lemma instance_made_exists σ :
  instance_exists σ →
  is_Some (st_loaders (instance_made σ).2 !! (instance_made σ).1)
  ∧ _instance (instance_made σ).2 = Some (instance_made σ).1
  ∧ _initialized (instance_made σ).2 = _initialized σ
  ∧ st_trace (instance_made σ).2 = st_trace σ
  ∧ st_environ (instance_made σ).2 = st_environ σ
  ∧ st_heap (instance_made σ).2 = st_heap σ.
Proof.
  unfold instance_exists, instance_made.
  destruct (_instance σ) as [self|] eqn:Hi; simpl; intros Hex; [done|].
  split; [|done]. rewrite lookup_app_r, Nat.sub_diag by done. by eexists.
Qed.

(** Once the process is initialized, a construction call returns the
    instance and changes nothing. *)
Lemma construct_initialized w config_path σ self :
  _initialized σ = true → _instance σ = Some self →
  ConfigLoader w config_path σ = (Ok self, σ).
Proof.
  intros Hinit Hinst. unfold ConfigLoader, __new__, __init__. unfold_M.
  by rewrite Hinst, Hinit.
Qed.

Lemma config_loaded_frame self p doc σ :
  st_environ (config_loaded self p doc σ) = st_environ σ
  ∧ _instance (config_loaded self p doc σ) = _instance σ
  ∧ _initialized (config_loaded self p doc σ) = _initialized σ
  ∧ st_trace (config_loaded self p doc σ) = st_trace σ ++ [EvSafeLoad p].
Proof.
  unfold config_loaded. destruct (build doc (st_heap σ)) as [v h].
  by destruct (truthy h v).
Qed.

Lemma env_loaded_frame w self root σ :
  st_heap (env_loaded w self root σ) = st_heap σ
  ∧ st_environ (env_loaded w self root σ)
    = environ_after_dotenv w root (st_environ σ)
  ∧ _instance (env_loaded w self root σ) = _instance σ
  ∧ _initialized (env_loaded w self root σ) = _initialized σ
  ∧ st_trace (env_loaded w self root σ) = st_trace σ ++ dotenv_events w root.
Proof.
  unfold env_loaded, environ_after_dotenv, dotenv_events.
  destruct (env_file w root); simpl; [done|]. by rewrite app_nil_r.
Qed.

(** C5. In a process not yet initialized, construction raises
    [ConfigurationError] when the resolved document path does not exist,
    and [ConfigurationError] carrying the parser's message when the
    document does not parse.  When the document parses, construction
    succeeds whether or not the API key is set; when it is not set, the
    one thing added to what the process did is a warning, through the
    logger if it can be imported and printed otherwise. *)
Theorem construction_outcomes w config_path σ :
  _initialized σ = false →
  instance_exists σ →
  let d := document_path w config_path in
  (w_exists w d = false →
     ∃ σ', ConfigLoader w config_path σ
             = (Raise (ConfigurationError (msg_not_found d)), σ')
           ∧ _initialized σ' = false)
  ∧ (∀ e, w_exists w d = true → w_yaml w d = YAMLError e →
     ∃ σ', ConfigLoader w config_path σ
             = (Raise (ConfigurationError
                  ("Invalid YAML in configuration file: " +:+ d +:+ newline
                   +:+ "Error: " +:+ e)), σ')
           ∧ _initialized σ' = false)
  ∧ (∀ doc, w_exists w d = true → w_yaml w d = Loaded doc →
     ∃ self σ', ConfigLoader w config_path σ = (Ok self, σ')
           ∧ _initialized σ' = true
           ∧ _instance σ' = Some self
           ∧ st_environ σ'
             = environ_after_dotenv w (w_project_root w) (st_environ σ)
           ∧ st_trace σ'
             = st_trace σ ++ dotenv_events w (w_project_root w)
               ++ [EvSafeLoad d]
               ++ (if falsy_str (st_environ σ' !! "OPENAI_API_KEY")
                   then [if w_logger w then EvLoggerWarning msg_no_api_key
                         else EvPrint ("WARNING: " +:+ msg_no_api_key)]
                   else [])).
Proof.
  intros Hinit Hex d. subst d.
  destruct (instance_made_exists σ Hex) as (Hself & Hinst & Hini & Htr & Henv & _).
  rewrite construct_eval by done.
  rewrite init_eval by (done || congruence). cbv zeta.
  set (σ0 := (instance_made σ).2) in *. set (self := (instance_made σ).1) in *.
  destruct (env_loaded_frame w self (w_project_root w)
              (attrs_assigned w self config_path σ0))
    as (_ & Henv1 & Hinst1 & Hini1 & Htr1).
  simpl in Henv1, Hinst1, Hini1, Htr1.
  split; [|split].
  - intros ->. eexists. split; [done|]. congruence.
  - intros e -> ->. eexists. split; [done|]. simpl. congruence.
  - intros doc -> ->. eexists _, _. split; [done|].
    destruct (config_loaded_frame self (document_path w config_path) doc
                (env_loaded w self (w_project_root w)
                   (attrs_assigned w self config_path σ0)))
      as (Henv2 & Hinst2 & Hini2 & Htr2).
    simpl. split; [done|]. split; [congruence|]. split; [congruence|].
    rewrite Htr2, Htr1, Htr, Henv2. unfold validation_events, warning_event.
    by rewrite <- !app_assoc.
Qed.
End ConstructionProperties.

(** ** What the methods leave alone *)

Section Preservation.
Context `{PyBuiltins}.
Variable R : state → state → Prop.
Hypothesis R_refl : ∀ σ, R σ σ.
Hypothesis R_trans : ∀ σ1 σ2 σ3, R σ1 σ2 → R σ2 σ3 → R σ1 σ3.
Hypothesis R_heap : ∀ f σ, R σ (with_heap f σ).
Hypothesis R_environ : ∀ f σ, R σ (with_environ f σ).
Hypothesis R_loaders : ∀ f σ, R σ (with_loaders f σ).
Hypothesis R_emit : ∀ e σ, R σ (emit e σ).2.

Lemma keeps_ret {A} (a : A) : keeps R (mret a).
Proof. intros σ. apply R_refl. Qed.

Lemma keeps_raise {A} e : keeps R (raise e : M A).
Proof. intros σ. apply R_refl. Qed.

Lemma keeps_gets {A} (f : state → A) : keeps R (gets f).
Proof. intros σ. apply R_refl. Qed.

Lemma keeps_bind {A B} (m : M A) (f : A → M B) :
  keeps R m → (∀ a, keeps R (f a)) → keeps R (m ≫= f).
Proof.
  intros Hm Hf σ. unfold mbind, M_bind. specialize (Hm σ).
  destruct (m σ) as [[a|e] σ']; simpl in *; [|done].
  eapply R_trans; [done|apply Hf].
Qed.

Lemma keeps_modify f : (∀ σ, R σ (f σ)) → keeps R (modify f).
Proof. intros Hf σ. apply Hf. Qed.

Lemma keeps_emit e : keeps R (emit e).
Proof. intros σ. apply R_emit. Qed.

Lemma keeps_attr {A} (field : loader → option A) self :
  keeps R (attr field self).
Proof. intros σ. unfold attr. destruct (read_attr _ _ _); apply R_refl. Qed.

Lemma keeps_alloc o : keeps R (alloc o).
Proof. intros σ. apply R_heap. Qed.

Lemma keeps_safe_load t : keeps R (safe_load t).
Proof.
  intros σ. unfold safe_load. destruct (build t (st_heap σ)). apply R_heap.
Qed.

Lemma keeps_getenv name : keeps R (getenv name).
Proof. apply keeps_gets. Qed.

Ltac keeps_step :=
  first
    [ apply keeps_ret | apply keeps_raise | apply keeps_gets
    | apply keeps_getenv | apply keeps_emit | apply keeps_attr
    | apply keeps_alloc | apply keeps_safe_load
    | apply keeps_modify; intros; first [apply R_heap | apply R_environ | apply R_loaders]
    | apply keeps_bind; [|intros ?]
    | match goal with
      | |- keeps _ (match ?x with _ => _ end) => destruct x
      | |- keeps _ (if ?b then _ else _) => destruct b
      end ].

Lemma keeps_get self key default required :
  keeps R (get self key default required).
Proof. unfold get. repeat keeps_step. Qed.

Lemma keeps_copy v : keeps R (copy v).
Proof. unfold copy. repeat keeps_step. Qed.

Lemma keeps_get_section self section : keeps R (get_section self section).
Proof.
  unfold get_section, contains, getitem. repeat keeps_step.
  all: apply keeps_copy.
Qed.

Lemma keeps_get_all self : keeps R (get_all self).
Proof. unfold get_all. repeat keeps_step. apply keeps_copy. Qed.

Lemma keeps_mutate target m : keeps R (mutate target m).
Proof. unfold mutate. repeat keeps_step. Qed.

Lemma keeps_load_env_loop w self env_paths :
  keeps R (_load_env_loop w self env_paths).
Proof.
  induction env_paths as [|p ps IH]; simpl; [apply keeps_ret|].
  destruct (w_exists w p); [|done].
  unfold load_dotenv, set_env_loaded. repeat keeps_step.
Qed.

Lemma keeps_load_env w self : keeps R (_load_env w self).
Proof.
  unfold _load_env. keeps_step; [keeps_step|]. apply keeps_load_env_loop.
Qed.

Lemma keeps_load_config w self : keeps R (_load_config w self).
Proof. unfold _load_config, set_config. repeat keeps_step. Qed.

Lemma keeps_reload w self : keeps R (reload w self).
Proof.
  unfold reload. apply keeps_bind; [apply keeps_load_env|].
  intros _. apply keeps_load_config.
Qed.

Lemma keeps_emit_all es : keeps R (emit_all es).
Proof. induction es; simpl; repeat keeps_step. done. Qed.

Lemma keeps_validate_required w self : keeps R (_validate_required w self).
Proof.
  unfold _validate_required, openai_api_key. keeps_step; [keeps_step|].
  destruct (falsy_str a); simpl; [|apply keeps_ret].
  destruct (w_logger w); repeat keeps_step.
Qed.

Lemma keeps_init w self config_path :
  (∀ b σ, R σ (set_initialized b σ)) →
  keeps R (__init__ w self config_path).
Proof.
  intros Hset. unfold __init__, set_project_root, set_config_path,
    set_config, set_env_loaded.
  repeat first
    [ apply keeps_load_env | apply keeps_load_config
    | apply keeps_validate_required
    | apply keeps_modify; intros; apply Hset
    | keeps_step ].
Qed.
End Preservation.

(** ** The singleton *)

Section SingletonProperties.
Context `{PyBuiltins}.
Implicit Types (σ : state) (w : world).

Lemma bind_Ok {A B} (m : M A) (f : A → M B) σ b σ' :
  (m ≫= f) σ = (Ok b, σ') →
  ∃ a σ1, m σ = (Ok a, σ1) ∧ f a σ1 = (Ok b, σ').
Proof.
  unfold mbind, M_bind. destruct (m σ) as [[a|e] σ1]; [|done].
  intros Hf. by exists a, σ1.
Qed.

Lemma instance_made_instance σ :
  _instance (instance_made σ).2 = Some (instance_made σ).1
  ∧ _initialized (instance_made σ).2 = _initialized σ
  ∧ ∀ i, _instance σ = Some i → instance_made σ = (i, σ).
Proof.
  unfold instance_made. destruct (_instance σ) as [i|] eqn:Hi; simpl.
  - split; [done|]. split; [done|]. by intros j [= <-].
  - split; [done|]. split; [done|]. by intros j.
Qed.

Lemma init_same_instance w self config_path :
  keeps same_instance (__init__ w self config_path).
Proof.
  apply keeps_init; unfold same_instance; intros; simpl; congruence.
Qed.

(** An [__init__] that returns leaves the process initialized. *)
Lemma init_Ok_initialized w self config_path σ u σ' :
  __init__ w self config_path σ = (Ok u, σ') → _initialized σ' = true.
Proof.
  unfold __init__. intros Hrun.
  apply bind_Ok in Hrun as (initialized & σ0 & [= <- <-] & Hrun).
  destruct (_initialized σ) eqn:Hinit; [inversion Hrun; by subst|].
  repeat (apply bind_Ok in Hrun as (? & ? & _ & Hrun)).
  inversion Hrun. by subst.
Qed.

(** A construction call that returns leaves the class pointing at what
    it returned, in an initialized process. *)
Lemma construct_Ok w config_path σ a σ' :
  ConfigLoader w config_path σ = (Ok a, σ') →
  _initialized σ' = true ∧ _instance σ' = Some a.
Proof.
  unfold ConfigLoader. intros Hrun.
  apply bind_Ok in Hrun as (self & σ0 & Hnew & Hrun).
  apply bind_Ok in Hrun as (u & σ1 & Hinit & [= <- <-]).
  rewrite new_eval in Hnew. injection Hnew as <- <-.
  split; [by eapply init_Ok_initialized|].
  pose proof (init_same_instance w (instance_made σ).1 config_path
                (instance_made σ).2) as Hkeep.
  rewrite Hinit in Hkeep. unfold same_instance in Hkeep. simpl in Hkeep.
  rewrite Hkeep. apply instance_made_instance.
Qed.

Ltac same_class_tac :=
  unfold same_class; intros; simpl; intuition congruence.

(** No call un-initializes the process or moves the singleton. *)
Lemma exec_initialized c σ a :
  _initialized σ = true → _instance σ = Some a →
  _initialized (exec c σ).2 = true ∧ _instance (exec c σ).2 = Some a.
Proof.
  intros Hinit Hinst.
  assert (∀ A (m : M A), keeps same_class m →
            _initialized (m σ).2 = true ∧ _instance (m σ).2 = Some a) as Hk.
  { intros A m Hm. destruct (Hm σ) as [-> ->]. done. }
  destruct c as [w p|self key default required|self section|self|w self|target m];
    simpl.
  - unfold discard. simpl. by rewrite (construct_initialized _ _ _ a).
  - apply Hk, keeps_get; same_class_tac.
  - apply Hk, keeps_get_section; same_class_tac.
  - apply Hk, keeps_get_all; same_class_tac.
  - apply Hk, keeps_reload; same_class_tac.
  - apply Hk, keeps_mutate; same_class_tac.
Qed.

Lemma steps_initialized σ σ' a :
  steps σ σ' → _initialized σ = true → _instance σ = Some a →
  _initialized σ' = true ∧ _instance σ' = Some a.
Proof.
  induction 1 as [|σ' c _ IH]; [done|]. intros Hinit Hinst.
  destruct (IH Hinit Hinst). by apply exec_initialized.
Qed.

(** C4. Once a construction call has returned an instance, every later
    construction call in the process, whatever came in between and
    whatever path it is given, returns that same instance and leaves
    the state of the process exactly as it found it: nothing is loaded,
    parsed or validated again. *)
Theorem construction_singleton σ w1 p1 a σ1 σ2 w2 p2 :
  ConfigLoader w1 p1 σ = (Ok a, σ1) →
  steps σ1 σ2 →
  ConfigLoader w2 p2 σ2 = (Ok a, σ2).
Proof.
  intros Hfirst Hsteps.
  destruct (construct_Ok _ _ _ _ _ Hfirst) as [Hinit Hinst].
  destruct (steps_initialized _ _ _ Hsteps Hinit Hinst).
  by apply construct_initialized.
Qed.
End SingletonProperties.

(** ** Reload *)

Section ReloadProperties.
Context `{PyBuiltins}.
Implicit Types (σ : state) (w : world).

Lemma read_attr_is_Some {A} (field : loader → option A) self σ a :
  read_attr field self σ = Some a → is_Some (st_loaders σ !! self).
Proof. unfold read_attr. destruct (st_loaders σ !! self); by eauto. Qed.

(** What [_load_config] leaves when the document parses: the old objects
    where they were, and [_config] bound to new objects that represent
    the document served. *)
Lemma config_loaded_spec self p doc σ :
  is_Some (st_loaders σ !! self) →
  ∃ cfg,
    read_attr _config self (config_loaded self p doc σ) = Some cfg
    ∧ represents (st_heap (config_loaded self p doc σ)) (served_document doc) cfg
    ∧ st_heap σ `prefix_of` st_heap (config_loaded self p doc σ).
Proof.
  intros [o Ho]. unfold config_loaded.
  destruct (build doc (st_heap σ)) as [v h] eqn:Hb.
  destruct (build_spec _ _ _ _ Hb) as [Hpre Hrep].
  pose proof (represents_truthy _ _ _ Hrep) as Ht.
  unfold served_document. rewrite <- Ht.
  destruct (truthy h v); simpl.
  - exists v. unfold read_attr. simpl. rewrite list_lookup_alter_eq, Ho.
    done.
  - exists (VRef (length h)). unfold read_attr. simpl.
    rewrite list_lookup_alter_eq, Ho. split; [done|]. split.
    + eapply rep_map; [by rewrite lookup_app_r, Nat.sub_diag|done|done].
    + etrans; [done|]. by apply prefix_app_r.
Qed.

(** C8. On a loader whose document exists and parses, [reload] loads
    the override file and parses the document again and nothing more:
    no warning is emitted and the class attributes are as before.  It
    rebinds [_config], on the same loader, to a tree that represents the
    document just parsed, so that every later [get] of a key with no
    override answers from that document; and every object that was in
    the store before is still there, unchanged. *)
Theorem reload_replaces_tree w self σ root p doc :
  read_attr _project_root self σ = Some root →
  read_attr _config_path self σ = Some p →
  w_exists w p = true →
  w_yaml w p = Loaded doc →
  ∃ σ' cfg,
    reload w self σ = (Ok (), σ')
    ∧ st_trace σ' = st_trace σ ++ dotenv_events w root ++ [EvSafeLoad p]
    ∧ Forall (λ e, is_warning e = false) (dotenv_events w root ++ [EvSafeLoad p])
    ∧ same_class σ σ'
    ∧ st_environ σ' = environ_after_dotenv w root (st_environ σ)
    ∧ read_attr _config self σ' = Some cfg
    ∧ represents (st_heap σ') (served_document doc) cfg
    ∧ (∀ l o, st_heap σ !! l = Some o → st_heap σ' !! l = Some o)
    ∧ (∀ key default required,
         st_environ σ' !! str_replace "." "_" (str_upper key) = None →
         match yaml_locate (served_document doc) (str_split "." key) with
         | Some t =>
             ∃ v, get self key default required σ' = (Ok v, σ')
                  ∧ represents (st_heap σ') t v
         | None =>
             get self key default required σ'
             = (if required
                then Raise (MissingConfigError (msg_key_not_found key))
                else Ok default, σ')
         end).
Proof.
  intros Hroot Hpath Hex Hdoc.
  set (σ1 := env_loaded w self root σ).
  assert (read_attr _config_path self σ1 = Some p) as Hpath1.
  { unfold σ1. by rewrite read_attr_env_loaded. }
  destruct (env_loaded_frame w self root σ)
    as (Hheap1 & Henv1 & Hinst1 & Hini1 & Htr1). fold σ1 in Hheap1, Henv1, Hinst1, Hini1, Htr1.
  destruct (config_loaded_frame self p doc σ1)
    as (Henv2 & Hinst2 & Hini2 & Htr2).
  destruct (config_loaded_spec self p doc σ1) as (cfg & Hcfg & Hrep & Hpre).
  { by eapply read_attr_is_Some. }
  exists (config_loaded self p doc σ1), cfg. split.
  { unfold reload. unfold mbind at 1, M_bind at 1.
    rewrite (load_env_eval _ _ root) by done. fold σ1.
    rewrite (load_config_eval _ _ p) by done. by rewrite Hex, Hdoc. }
  split; [by rewrite Htr2, Htr1, <- app_assoc|].
  split.
  { apply Forall_app. split; [|by constructor].
    unfold dotenv_events. destruct (env_file w root); by repeat constructor. }
  split; [unfold same_class; split; congruence|].
  split; [congruence|]. split; [done|]. split; [done|]. split.
  { intros l o Hl. eapply prefix_lookup_Some; [|exact Hpre]. by rewrite Hheap1. }
  intros key default required Hnone.
  rewrite (get_document _ _ _ _ _ cfg) by done.
  pose proof (get_loop_represents _ key default required _ _
                (str_split "." key) Hrep) as Hloop.
  destruct (yaml_locate _ _) as [t|].
  - destruct Hloop as (v & -> & Hv). by exists v.
  - by rewrite Hloop.
Qed.
End ReloadProperties.

(** ** The loader on a demo deployment *)

Section Reflection.
Context `{PyBuiltins}.

(** Navigation can be decided by running the loop. *)
Lemma located_by_loop h v ks v' :
  get_loop h "" VNone true v ks = Ok v' → located h v ks v'.
Proof.
  intros Hrun. destruct (located_or_unlocatable h v ks) as [[v'' Hloc]|Hun].
  - rewrite (get_loop_located _ _ _ _ _ _ _ Hloc) in Hrun. congruence.
  - by rewrite (get_loop_unlocatable _ _ _ _ _ _ Hun) in Hrun.
Qed.

Lemma unlocatable_by_loop h v ks e :
  get_loop h "" VNone true v ks = Raise e → unlocatable h v ks.
Proof.
  intros Hrun.
  destruct (located_or_unlocatable h v ks) as [[v'' Hloc]|Hun]; [|done].
  rewrite (get_loop_located _ _ _ _ _ _ _ Hloc) in Hrun. congruence.
Qed.
End Reflection.

#[local] Existing Instance AsciiText.builtins.

Example demo_override_is_int :
  get 0 "document_processing.chunk_size" VNone false Demo.overridden
  = (Ok (VInt 800), Demo.overridden).
Proof. vm_compute. reflexivity. Qed.

Example demo_document_value :
  get 0 "document_processing.chunk_size" VNone false Demo.plain
  = (Ok (VInt 500), Demo.plain).
Proof. vm_compute. reflexivity. Qed.

Lemma get_override_coerced_witness :
  st_environ Demo.overridden
    !! str_replace "." "_" (str_upper "document_processing.chunk_size")
  = Some "800"
  ∧ ∃ v, get 0 "document_processing.chunk_size" VNone false Demo.overridden
         = (Ok v, Demo.overridden)
         ∧ coerced "800" v ∧ ∀ v', coerced "800" v' → v' = v.
Proof.
  assert (st_environ Demo.overridden
            !! str_replace "." "_" (str_upper "document_processing.chunk_size")
          = Some "800") as Henv by (vm_compute; reflexivity).
  split; [exact Henv|].
  exact (get_override_coerced Demo.overridden 0
           "document_processing.chunk_size" VNone false "800" Henv).
Defined.

Lemma get_document_value_witness :
  st_environ Demo.plain
    !! str_replace "." "_" (str_upper "document_processing.chunk_size") = None
  ∧ read_attr _config 0%nat Demo.plain = Some (VRef 5)
  ∧ located (st_heap Demo.plain) (VRef 5)
            (str_split "." "document_processing.chunk_size") (VInt 500)
  ∧ get 0 "document_processing.chunk_size" (VInt 1) true Demo.plain
    = (Ok (VInt 500), Demo.plain).
Proof.
  assert (st_environ Demo.plain
            !! str_replace "." "_" (str_upper "document_processing.chunk_size")
          = None) as Henv by (vm_compute; reflexivity).
  assert (read_attr _config 0%nat Demo.plain = Some (VRef 5)) as Hcfg
    by (vm_compute; reflexivity).
  assert (located (st_heap Demo.plain) (VRef 5)
            (str_split "." "document_processing.chunk_size") (VInt 500)) as Hloc
    by (apply located_by_loop; vm_compute; reflexivity).
  split; [exact Henv|]. split; [exact Hcfg|]. split; [exact Hloc|].
  exact (get_document_value Demo.plain 0 "document_processing.chunk_size"
           (VInt 1) true (VRef 5) (VInt 500) Henv Hcfg Hloc).
Defined.

(** With the override variable set to ["800"] the navigation still reaches
    [500] in the document, and [get(key, required=True)] returns [800]:
    not the located value. *)
Lemma get_required_override_returned :
  st_environ Demo.overridden
    !! str_replace "." "_" (str_upper "document_processing.chunk_size")
  = Some "800"
  ∧ read_attr _config 0%nat Demo.overridden = Some (VRef 5)
  ∧ located (st_heap Demo.overridden) (VRef 5)
            (str_split "." "document_processing.chunk_size") (VInt 500)
  ∧ get 0 "document_processing.chunk_size" VNone true Demo.overridden
    = (Ok (VInt 800), Demo.overridden)
  ∧ ∀ v, located (st_heap Demo.overridden) (VRef 5)
                 (str_split "." "document_processing.chunk_size") v →
         get 0 "document_processing.chunk_size" VNone true Demo.overridden
         ≠ (Ok v, Demo.overridden).
Proof.
  assert (located (st_heap Demo.overridden) (VRef 5)
            (str_split "." "document_processing.chunk_size") (VInt 500))
    as Hloc by (apply located_by_loop; vm_compute; reflexivity).
  assert (get 0 "document_processing.chunk_size" VNone true Demo.overridden
          = (Ok (VInt 800), Demo.overridden)) as Hget
    by (vm_compute; reflexivity).
  split; [vm_compute; reflexivity|]. split; [vm_compute; reflexivity|].
  split; [exact Hloc|]. split; [exact Hget|].
  intros v Hv. rewrite Hget.
  rewrite (located_functional _ _ _ _ _ Hv Hloc). discriminate.
Qed.

Lemma get_required_witness :
  read_attr _config 0%nat Demo.plain = Some (VRef 5)
  ∧ unlocatable (st_heap Demo.plain) (VRef 5) (str_split "." "llm.model")
  ∧ get 0 "llm.model" (VStr "gpt-3.5-turbo") true Demo.plain
    = (Raise (MissingConfigError
               "Required configuration key not found: 'llm.model'"), Demo.plain)
  ∧ located (st_heap Demo.plain) (VRef 5) (str_split "." "app.owner") VNone
  ∧ get 0 "app.owner" (VStr "nobody") true Demo.plain = (Ok VNone, Demo.plain)
  ∧ st_environ Demo.overridden
      !! str_replace "." "_" (str_upper "document_processing.chunk_size")
    = Some "800"
  ∧ (∃ v', get 0 "document_processing.chunk_size" VNone true Demo.overridden
           = (Ok v', Demo.overridden)
           ∧ coerced "800" v' ∧ ∀ v'', coerced "800" v'' → v'' = v')
  ∧ ∃ v', get 0 "document_processing.chunk_size" VNone true Demo.overridden
          = (Ok v', Demo.overridden).
Proof.
  assert (read_attr _config 0%nat Demo.plain = Some (VRef 5)) as Hcfg
    by (vm_compute; reflexivity).
  assert (read_attr _config 0%nat Demo.overridden = Some (VRef 5)) as Hcfg'
    by (vm_compute; reflexivity).
  assert (unlocatable (st_heap Demo.plain) (VRef 5) (str_split "." "llm.model"))
    as Hun by (eapply unlocatable_by_loop; vm_compute; reflexivity).
  assert (located (st_heap Demo.plain) (VRef 5) (str_split "." "app.owner") VNone)
    as Hloc by (apply located_by_loop; vm_compute; reflexivity).
  assert (located (st_heap Demo.overridden) (VRef 5)
            (str_split "." "document_processing.chunk_size") (VInt 500))
    as Hloc' by (apply located_by_loop; vm_compute; reflexivity).
  assert (st_environ Demo.overridden
            !! str_replace "." "_" (str_upper "document_processing.chunk_size")
          = Some "800") as Henv' by (vm_compute; reflexivity).
  destruct (get_required Demo.plain 0 "llm.model" (VStr "gpt-3.5-turbo")
              (VRef 5) Hcfg) as (Hmiss & _ & _ & _).
  destruct (get_required Demo.plain 0 "app.owner" (VStr "nobody")
              (VRef 5) Hcfg) as (_ & Hfound & _ & _).
  destruct (get_required Demo.overridden 0 "document_processing.chunk_size"
              VNone (VRef 5) Hcfg') as (_ & _ & Hset & Hnever).
  split; [exact Hcfg|]. split; [exact Hun|].
  split; [apply Hmiss; [vm_compute; reflexivity|exact Hun]|].
  split; [exact Hloc|].
  split; [apply Hfound; [vm_compute; reflexivity|exact Hloc]|].
  split; [exact Henv'|].
  split; [exact (Hset _ Henv')|].
  exact (Hnever _ Hloc').
Defined.

Lemma get_default_witness :
  st_environ Demo.plain !! str_replace "." "_" (str_upper "llm.model") = None
  ∧ read_attr _config 0%nat Demo.plain = Some (VRef 5)
  ∧ unlocatable (st_heap Demo.plain) (VRef 5) (str_split "." "llm.model")
  ∧ get 0 "llm.model" (VStr "1500") false Demo.plain
    = (Ok (VStr "1500"), Demo.plain).
Proof.
  assert (st_environ Demo.plain !! str_replace "." "_" (str_upper "llm.model")
          = None) as Henv by (vm_compute; reflexivity).
  assert (read_attr _config 0%nat Demo.plain = Some (VRef 5)) as Hcfg
    by (vm_compute; reflexivity).
  assert (unlocatable (st_heap Demo.plain) (VRef 5) (str_split "." "llm.model"))
    as Hun by (eapply unlocatable_by_loop; vm_compute; reflexivity).
  split; [exact Henv|]. split; [exact Hcfg|]. split; [exact Hun|].
  exact (get_default Demo.plain 0 "llm.model" (VStr "1500") (VRef 5)
           Henv Hcfg Hun).
Defined.

Lemma get_required_ignores_default_witness :
  st_environ Demo.plain
    !! str_replace "." "_" (str_upper "app.debug.verbose") = None
  ∧ read_attr _config 0%nat Demo.plain = Some (VRef 5)
  ∧ unlocatable (st_heap Demo.plain) (VRef 5) (str_split "." "app.debug.verbose")
  ∧ ∀ D, get 0 "app.debug.verbose" D true Demo.plain
         = (Raise (MissingConfigError (msg_key_not_found "app.debug.verbose")),
            Demo.plain)
       ∧ ∀ v σ', get 0 "app.debug.verbose" D true Demo.plain ≠ (Ok v, σ').
Proof.
  assert (st_environ Demo.plain
            !! str_replace "." "_" (str_upper "app.debug.verbose") = None)
    as Henv by (vm_compute; reflexivity).
  assert (read_attr _config 0%nat Demo.plain = Some (VRef 5)) as Hcfg
    by (vm_compute; reflexivity).
  assert (unlocatable (st_heap Demo.plain) (VRef 5)
            (str_split "." "app.debug.verbose"))
    as Hun by (eapply unlocatable_by_loop; vm_compute; reflexivity).
  split; [exact Henv|]. split; [exact Hcfg|]. split; [exact Hun|].
  exact (get_required_ignores_default Demo.plain 0 "app.debug.verbose"
           (VRef 5) Henv Hcfg Hun).
Defined.

(** A caller that writes through a nested mapping of the section it was
    given changes what the loader answers afterwards: the copy is one
    level deep. *)
Lemma get_section_nested_mutation_leaks :
  ∃ r σ1 d inner σ2,
    get_section 0 "document_processing" Demo.plain = (Ok (VRef r), σ1)
    ∧ st_heap σ1 !! r = Some (ODict d)
    ∧ d !! "limits" = Some inner
    ∧ mutate inner (SetItem "max_pages" (VInt 1)) σ1 = (Ok (), σ2)
    ∧ (get 0 "document_processing.limits.max_pages" VNone false Demo.plain).1
      = Ok (VInt 40)
    ∧ (get 0 "document_processing.limits.max_pages" VNone false σ2).1
      = Ok (VInt 1).
Proof.
  eexists _, _, _, _, _.
  split; [vm_compute; reflexivity|].
  split; [vm_compute; reflexivity|].
  split; [vm_compute; reflexivity|].
  split; [vm_compute; reflexivity|].
  split; vm_compute; reflexivity.
Qed.

Lemma get_section_copy_witness :
  read_attr _config 0%nat Demo.plain = Some (VRef 5)
  ∧ st_heap Demo.plain !! 5%nat = Some (ODict (Demo.root_of Demo.plain))
  ∧ closed_heap (st_heap Demo.plain)
  ∧ Demo.root_of Demo.plain !! "llm" = None
  ∧ get_section 0 "llm" Demo.plain
    = (Raise (MissingConfigError "Configuration section not found: 'llm'"),
       Demo.plain)
  ∧ Demo.root_of Demo.plain !! "app" = Some (VRef 1)
  ∧ st_heap Demo.plain !! 1%nat
    = Some (ODict {["debug" := VBool false; "owner" := VNone]})
  ∧ ∃ r σ1,
      get_section 0 "app" Demo.plain = (Ok (VRef r), σ1)
      ∧ st_heap Demo.plain !! r = None
      ∧ st_heap σ1 !! r
        = Some (ODict {["debug" := VBool false; "owner" := VNone]})
      ∧ ∀ ms out σ2, mutate_all (VRef r) ms σ1 = (out, σ2) →
          (∀ l o, st_heap Demo.plain !! l = Some o → st_heap σ2 !! l = Some o)
          ∧ read_attr _config 0%nat σ2 = Some (VRef 5)
          ∧ (∀ key default required,
               (get 0 key default required σ2).1
               = (get 0 key default required Demo.plain).1)
          ∧ (∀ name',
               returned_object (get_section 0 name' σ2)
               = returned_object (get_section 0 name' Demo.plain)).
Proof.
  assert (read_attr _config 0%nat Demo.plain = Some (VRef 5)) as Hcfg
    by (vm_compute; reflexivity).
  assert (st_heap Demo.plain !! 5%nat = Some (ODict (Demo.root_of Demo.plain)))
    as Hroot by (vm_compute; reflexivity).
  assert (closed_heap (st_heap Demo.plain)) as Hclosed
    by (refine (bool_decide_unpack _ _); vm_compute; exact I).
  assert (Demo.root_of Demo.plain !! "llm" = None) as Hllm
    by (vm_compute; reflexivity).
  assert (Demo.root_of Demo.plain !! "app" = Some (VRef 1)) as Happ
    by (vm_compute; reflexivity).
  assert (st_heap Demo.plain !! 1%nat
          = Some (ODict {["debug" := VBool false; "owner" := VNone]})) as Hsec
    by (vm_compute; reflexivity).
  destruct (get_section_copy Demo.plain 0 "llm" 5 (Demo.root_of Demo.plain)
              Hcfg Hroot Hclosed) as [Hmissing _].
  destruct (get_section_copy Demo.plain 0 "app" 5 (Demo.root_of Demo.plain)
              Hcfg Hroot Hclosed) as [_ Hcopy].
  split; [exact Hcfg|]. split; [exact Hroot|]. split; [exact Hclosed|].
  split; [exact Hllm|]. split; [exact (Hmissing Hllm)|].
  split; [exact Happ|]. split; [exact Hsec|].
  exact (Hcopy 1%nat _ Happ Hsec).
Defined.

(** A top-level key whose value is a sequence: [get_section] returns a
    copy of the list. *)
Lemma get_section_sequence_returns :
  Demo.root_of Demo.plain !! "allowed_extensions" = Some (VRef 4)
  ∧ st_heap Demo.plain !! 4%nat = Some (OList [VStr ".pdf"; VStr ".md"])
  ∧ ∃ r σ1,
      get_section 0 "allowed_extensions" Demo.plain = (Ok (VRef r), σ1)
      ∧ st_heap σ1 !! r = Some (OList [VStr ".pdf"; VStr ".md"]).
Proof.
  split; [vm_compute; reflexivity|]. split; [vm_compute; reflexivity|].
  eexists _, _. split; vm_compute; reflexivity.
Qed.

Lemma get_section_non_mapping_witness :
  read_attr _config 0%nat Demo.plain = Some (VRef 5)
  ∧ st_heap Demo.plain !! 5%nat = Some (ODict (Demo.root_of Demo.plain))
  ∧ Demo.root_of Demo.plain !! "version" = Some (VInt 2)
  ∧ get_section 0 "version" Demo.plain = (Raise AttributeError, Demo.plain)
  ∧ Demo.root_of Demo.plain !! "allowed_extensions" = Some (VRef 4)
  ∧ get_section 0 "allowed_extensions" Demo.plain
    = (Ok (VRef (length (st_heap Demo.plain))),
       with_heap (λ h, h ++ [OList [VStr ".pdf"; VStr ".md"]]) Demo.plain)
  ∧ ∀ msg σ',
      get_section 0 "version" Demo.plain ≠ (Raise (MissingConfigError msg), σ').
Proof.
  assert (read_attr _config 0%nat Demo.plain = Some (VRef 5)) as Hcfg
    by (vm_compute; reflexivity).
  assert (st_heap Demo.plain !! 5%nat = Some (ODict (Demo.root_of Demo.plain)))
    as Hroot by (vm_compute; reflexivity).
  assert (Demo.root_of Demo.plain !! "version" = Some (VInt 2)) as Hversion
    by (vm_compute; reflexivity).
  assert (Demo.root_of Demo.plain !! "allowed_extensions" = Some (VRef 4))
    as Hexts by (vm_compute; reflexivity).
  assert (st_heap Demo.plain !! 4%nat = Some (OList [VStr ".pdf"; VStr ".md"]))
    as Hlist by (vm_compute; reflexivity).
  destruct (get_section_non_mapping Demo.plain 0 "version" 5
              (Demo.root_of Demo.plain) (VInt 2) Hcfg Hroot Hversion)
    as (Hscalar & _ & Hnever).
  destruct (get_section_non_mapping Demo.plain 0 "allowed_extensions" 5
              (Demo.root_of Demo.plain) (VRef 4) Hcfg Hroot Hexts)
    as (_ & Hseq & _).
  split; [exact Hcfg|]. split; [exact Hroot|]. split; [exact Hversion|].
  split; [exact (Hscalar I)|]. split; [exact Hexts|].
  split; [exact (Hseq 4%nat _ eq_refl Hlist)|].
  exact Hnever.
Defined.

(** The process after the document was edited and reloaded. *)
Example demo_reload_then_get :
  (get 0 "document_processing.chunk_size" VNone false
     (reload (Demo.files Demo.edited) 0 Demo.plain).2).1 = Ok (VInt 800)
  ∧ (get 0 "app.debug" (VBool true) false
       (reload (Demo.files Demo.edited) 0 Demo.plain).2).1 = Ok (VBool true).
Proof. split; vm_compute; reflexivity. Qed.

Lemma construction_singleton_witness :
  ConfigLoader (Demo.files Demo.document) None (fresh_process ∅)
  = (Ok 0%nat, Demo.plain)
  ∧ steps Demo.plain
      (exec (CallGet 0 "app.debug" VNone false)
         (exec (CallReload (Demo.files Demo.edited) 0) Demo.plain).2).2
  ∧ ConfigLoader Demo.no_document (Some "/tmp/other.yaml")
      (exec (CallGet 0 "app.debug" VNone false)
         (exec (CallReload (Demo.files Demo.edited) 0) Demo.plain).2).2
    = (Ok 0%nat,
       (exec (CallGet 0 "app.debug" VNone false)
          (exec (CallReload (Demo.files Demo.edited) 0) Demo.plain).2).2).
Proof.
  assert (ConfigLoader (Demo.files Demo.document) None (fresh_process ∅)
          = (Ok 0%nat, Demo.plain)) as Hfirst by (vm_compute; reflexivity).
  assert (steps Demo.plain
            (exec (CallGet 0 "app.debug" VNone false)
               (exec (CallReload (Demo.files Demo.edited) 0) Demo.plain).2).2)
    as Hsteps by (do 2 apply steps_call; apply steps_refl).
  split; [exact Hfirst|]. split; [exact Hsteps|].
  exact (construction_singleton (fresh_process ∅) (Demo.files Demo.document)
           None 0%nat Demo.plain _ Demo.no_document (Some "/tmp/other.yaml")
           Hfirst Hsteps).
Defined.

Lemma construction_outcomes_witness :
  _initialized (fresh_process ∅) = false
  ∧ instance_exists (fresh_process ∅)
  ∧ (∃ σ', ConfigLoader Demo.no_document None (fresh_process ∅)
           = (Raise (ConfigurationError
                (msg_not_found "/srv/safes/configs/config.yaml")), σ')
           ∧ _initialized σ' = false)
  ∧ (∃ σ', ConfigLoader Demo.bad_document (Some "") (fresh_process ∅)
           = (Raise (ConfigurationError
                ("Invalid YAML in configuration file: "
                 +:+ "/srv/safes/configs/config.yaml" +:+ newline
                 +:+ "Error: " +:+ "mapping values are not allowed here")), σ')
           ∧ _initialized σ' = false)
  ∧ (∃ self σ', ConfigLoader Demo.no_logger None (fresh_process ∅) = (Ok self, σ')
           ∧ _initialized σ' = true
           ∧ _instance σ' = Some self
           ∧ st_environ σ' = environ_after_dotenv Demo.no_logger "/srv/safes" ∅
           ∧ st_trace σ'
             = [] ++ dotenv_events Demo.no_logger "/srv/safes"
               ++ [EvSafeLoad "/srv/safes/configs/config.yaml"]
               ++ (if falsy_str (st_environ σ' !! "OPENAI_API_KEY")
                   then [if w_logger Demo.no_logger
                         then EvLoggerWarning msg_no_api_key
                         else EvPrint ("WARNING: " +:+ msg_no_api_key)]
                   else [])).
Proof.
  assert (_initialized (fresh_process ∅) = false) as Hinit by reflexivity.
  assert (instance_exists (fresh_process ∅)) as Hex by exact I.
  destruct (construction_outcomes Demo.no_document None (fresh_process ∅)
              Hinit Hex) as (Hmissing & _ & _).
  destruct (construction_outcomes Demo.bad_document (Some "") (fresh_process ∅)
              Hinit Hex) as (_ & Hinvalid & _).
  destruct (construction_outcomes Demo.no_logger None (fresh_process ∅)
              Hinit Hex) as (_ & _ & Hloaded).
  split; [exact Hinit|]. split; [exact Hex|].
  split; [exact (Hmissing eq_refl)|].
  split; [exact (Hinvalid _ eq_refl eq_refl)|].
  exact (Hloaded Demo.document eq_refl eq_refl).
Defined.

Example demo_warning_printed :
  st_trace (ConfigLoader Demo.no_logger None (fresh_process ∅)).2
  = [EvSafeLoad "/srv/safes/configs/config.yaml";
     EvPrint ("WARNING: " +:+ msg_no_api_key)].
Proof. vm_compute. reflexivity. Qed.

Lemma reload_replaces_tree_witness :
  read_attr _project_root 0%nat Demo.plain = Some "/srv/safes"
  ∧ read_attr _config_path 0%nat Demo.plain = Some Demo.config_yaml
  ∧ w_exists (Demo.files Demo.edited) Demo.config_yaml = true
  ∧ w_yaml (Demo.files Demo.edited) Demo.config_yaml = Loaded Demo.edited
  ∧ ∃ σ' cfg,
      reload (Demo.files Demo.edited) 0 Demo.plain = (Ok (), σ')
      ∧ st_trace σ'
        = st_trace Demo.plain
          ++ dotenv_events (Demo.files Demo.edited) "/srv/safes"
          ++ [EvSafeLoad Demo.config_yaml]
      ∧ Forall (λ e, is_warning e = false)
          (dotenv_events (Demo.files Demo.edited) "/srv/safes"
           ++ [EvSafeLoad Demo.config_yaml])
      ∧ same_class Demo.plain σ'
      ∧ st_environ σ'
        = environ_after_dotenv (Demo.files Demo.edited) "/srv/safes"
            (st_environ Demo.plain)
      ∧ read_attr _config 0%nat σ' = Some cfg
      ∧ represents (st_heap σ') (served_document Demo.edited) cfg
      ∧ (∀ l o, st_heap Demo.plain !! l = Some o → st_heap σ' !! l = Some o)
      ∧ (∀ key default required,
           st_environ σ' !! str_replace "." "_" (str_upper key) = None →
           match yaml_locate (served_document Demo.edited) (str_split "." key) with
           | Some t =>
               ∃ v, get 0 key default required σ' = (Ok v, σ')
                    ∧ represents (st_heap σ') t v
           | None =>
               get 0 key default required σ'
               = (if required
                  then Raise (MissingConfigError (msg_key_not_found key))
                  else Ok default, σ')
           end).
Proof.
  assert (read_attr _project_root 0%nat Demo.plain = Some "/srv/safes")
    as Hroot by (vm_compute; reflexivity).
  assert (read_attr _config_path 0%nat Demo.plain = Some Demo.config_yaml)
    as Hpath by (vm_compute; reflexivity).
  assert (w_exists (Demo.files Demo.edited) Demo.config_yaml = true)
    as Hexists by (vm_compute; reflexivity).
  assert (w_yaml (Demo.files Demo.edited) Demo.config_yaml = Loaded Demo.edited)
    as Hdoc by reflexivity.
  split; [exact Hroot|]. split; [exact Hpath|]. split; [exact Hexists|].
  split; [exact Hdoc|].
  exact (reload_replaces_tree (Demo.files Demo.edited) 0 Demo.plain
           "/srv/safes" Demo.config_yaml Demo.edited Hroot Hpath Hexists Hdoc).
Defined.

(** * Further properties of the loader *)

Section MoreLookups.
Context `{PyBuiltins}.
Implicit Types (σ : state) (h : heap) (v default : val).

Lemma str_split_nonempty sep s : str_split sep s ≠ [].
Proof.
  destruct s as [|c s]; simpl; [done|].
  case_decide; [done|]. by destruct (str_split sep s).
Qed.

Lemma get_state σ self key default required :
  (get self key default required σ).2 = σ.
Proof.
  unfold get, getenv, attr. unfold_M.
  destruct (st_environ σ !! env_key key); [done|].
  destruct (read_attr _config self σ); [|done].
  by destruct (get_loop _ _ _ _ _ _).
Qed.

(** The three ways a [get] without [required] answers. *)
Lemma get_optional_cases σ self key default config :
  read_attr _config self σ = Some config →
  ∃ v, get self key default false σ = (Ok v, σ)
       ∧ ((∃ s, st_environ σ !! env_key key = Some s ∧ v = _convert_type s)
          ∨ (st_environ σ !! env_key key = None
             ∧ located (st_heap σ) config (str_split "." key) v)
          ∨ (st_environ σ !! env_key key = None
             ∧ unlocatable (st_heap σ) config (str_split "." key)
             ∧ v = default)).
Proof.
  intros Hcfg. destruct (st_environ σ !! env_key key) as [s|] eqn:Henv.
  - exists (_convert_type s). split; [by apply get_override|]. left. by exists s.
  - rewrite (get_document _ _ _ _ _ config) by done.
    destruct (located_or_unlocatable (st_heap σ) config (str_split "." key))
      as [[v Hloc]|Hun].
    + exists v. rewrite (get_loop_located _ _ _ _ _ _ _ Hloc). auto.
    + exists default. rewrite (get_loop_unlocatable _ _ _ _ _ _ Hun). auto 6.
Qed.

(** X1. [get] never writes: whatever the key, the default and the flag,
    and whether it returns or raises, the state of the process after the
    call is the state before it. *)
Theorem get_never_mutates σ self key default required :
  (get self key default required σ).2 = σ.
Proof. apply get_state. Qed.

(** X2. [key in config] never raises on a loader that has its tree and
    never changes the state; it is true exactly when the override
    variable of the key is set or the key can be navigated to in the
    tree, so a key present only as an environment override counts as
    contained. *)
Theorem contains_iff σ self key config :
  read_attr _config self σ = Some config →
  ∃ b, __contains__ self key σ = (Ok b, σ)
       ∧ (b = true ↔
          is_Some (st_environ σ !! str_replace "." "_" (str_upper key))
          ∨ ∃ v, located (st_heap σ) config (str_split "." key) v).
Proof.
  intros Hcfg. unfold __contains__.
  destruct (st_environ σ !! env_key key) as [s|] eqn:Henv.
  - rewrite (get_override _ _ _ _ _ s) by done. exists true.
    split; [done|]. split; [|done]. intros _. left. unfold env_key in Henv.
    by rewrite Henv.
  - rewrite (get_document _ _ _ _ _ config) by done.
    destruct (located_or_unlocatable (st_heap σ) config (str_split "." key))
      as [[v Hloc]|Hun].
    + rewrite (get_loop_located _ _ _ _ _ _ _ Hloc). exists true.
      split; [done|]. split; [|done]. intros _. right. by exists v.
    + rewrite (get_loop_unlocatable _ _ _ _ _ _ Hun). exists false.
      split; [done|]. split; [done|]. intros [[s Hs]|[v Hloc]].
      * unfold env_key in Henv. congruence.
      * exfalso. by eapply located_not_unlocatable.
Qed.

(** X3. On a loader that has its tree, a [get] with [required] left
    false always returns: the coerced override when the variable is set,
    else the value located in the tree, else the default.  The accessors
    [llm_model], [llm_temperature], [llm_max_tokens], [chunk_size],
    [chunk_overlap], [max_file_size_mb], [retrieval_top_k] and
    [similarity_threshold] therefore never raise and never change the
    state. *)
Theorem accessors_never_raise σ self config :
  read_attr _config self σ = Some config →
  (∀ key default,
     ∃ v, get self key default false σ = (Ok v, σ)
          ∧ ((∃ s, st_environ σ !! str_replace "." "_" (str_upper key) = Some s
                   ∧ coerced s v)
             ∨ (st_environ σ !! str_replace "." "_" (str_upper key) = None
                ∧ located (st_heap σ) config (str_split "." key) v)
             ∨ (st_environ σ !! str_replace "." "_" (str_upper key) = None
                ∧ unlocatable (st_heap σ) config (str_split "." key)
                ∧ v = default)))
  ∧ Forall (λ accessor, ∃ v, accessor self σ = (Ok v, σ)) scalar_accessors.
Proof.
  intros Hcfg. split.
  - intros key default.
    destruct (get_optional_cases σ self key default config Hcfg)
      as (v & Hget & Hcases).
    exists v. split; [done|].
    destruct Hcases as [(s & Hs & ->)|[?|?]]; [|by auto..].
    left. exists s. split; [done|]. apply convert_type_coerced.
  - assert (∀ k d, ∃ v, get self k d false σ = (Ok v, σ)) as Hget.
    { intros k d.
      destruct (get_optional_cases σ self k d config Hcfg) as (v & Hv & _).
      by exists v. }
    unfold scalar_accessors.
    repeat (apply Forall_cons_2; [apply Hget|]). apply Forall_nil_2.
Qed.

(** X4. Two keys whose override variable has the same name share the
    override: when that variable is set, [get] answers the same for
    both, whatever the tree holds for either and whatever defaults and
    flags are passed. *)
Theorem override_shared_by_keys σ self k1 k2 d1 d2 r1 r2 s :
  str_replace "." "_" (str_upper k1) = str_replace "." "_" (str_upper k2) →
  st_environ σ !! str_replace "." "_" (str_upper k1) = Some s →
  get self k1 d1 r1 σ = get self k2 d2 r2 σ.
Proof.
  intros Hsame Hset.
  rewrite (get_override _ _ k1 _ _ s) by done.
  rewrite (get_override _ _ k2 _ _ s); [done|].
  unfold env_key. by rewrite <- Hsame.
Qed.

(** X5. When the tree's root is not a mapping (the document's top level
    is a sequence or a scalar), every key without an override is
    missing: [get] gives the default, or [MissingConfigError] when
    [required] is set; [get_all] on a scalar root raises
    [AttributeError]; and [get_section] on a sequence root raises
    [MissingConfigError], or [TypeError] when the name is one of the
    items of the sequence. *)
Theorem non_mapping_root_misses σ self config :
  read_attr _config self σ = Some config →
  (∀ l d, config = VRef l → st_heap σ !! l ≠ Some (ODict d)) →
  (∀ key default required,
     st_environ σ !! str_replace "." "_" (str_upper key) = None →
     get self key default required σ
     = (if required then Raise (MissingConfigError (msg_key_not_found key))
        else Ok default, σ))
  ∧ (is_scalar config → get_all self σ = (Raise AttributeError, σ))
  ∧ (∀ c xs name, config = VRef c → st_heap σ !! c = Some (OList xs) →
       get_section self name σ
       = (if bool_decide (VStr name ∈ xs) then Raise TypeError
          else Raise (MissingConfigError (msg_section_not_found name)), σ)).
Proof.
  intros Hcfg Hroot. split; [|split].
  - intros key default required Henv.
    rewrite (get_document _ _ _ _ _ config) by done.
    rewrite get_loop_unlocatable; [done|].
    destruct (str_split "." key) as [|k ks] eqn:Hsplit;
      [by destruct (str_split_nonempty "." key)|].
    by apply not_a_mapping.
  - intros Hscalar. unfold get_all, attr. unfold_M. rewrite Hcfg.
    by apply copy_scalar.
  - intros c xs name -> Hc. unfold get_section, attr, contains, getitem.
    unfold_M. rewrite Hcfg, Hc. case_bool_decide; simpl; [|done].
    by rewrite Hc.
Qed.
End MoreLookups.

Section MoreAccessors.
Context `{PyBuiltins}.
Implicit Types (σ : state) (h : heap) (v default : val).

Lemma true_words_either_order (x : string) :
  x ∈ ["true"; "1"; "yes"; "on"] ↔ x ∈ ["true"; "yes"; "1"; "on"].
Proof. rewrite !elem_of_cons, !elem_of_nil. tauto. Qed.

Lemma convert_type_true s :
  _convert_type s = VBool true ↔ str_lower s ∈ ["true"; "1"; "yes"; "on"].
Proof.
  unfold _convert_type. case_bool_decide as Ht.
  - split; [|done]. intros _. by apply true_words_either_order.
  - split.
    + case_bool_decide; [done|].
      destruct (int_of_str s); [done|]. by destruct (float_of_str s).
    + intros Hin. by apply true_words_either_order in Hin.
Qed.

(** X6. A set [DEBUG] variable decides [is_debug] alone: the answer is a
    boolean, true exactly for the texts the coercion of overrides turns
    into [True], and neither the tree nor an [APP_DEBUG] override is
    looked at.  With [DEBUG] unset, an override of [app.debug] is
    returned coerced, which need not be a boolean. *)
Theorem is_debug_env_decides σ self :
  (∀ s, st_environ σ !! "DEBUG" = Some s →
     ∃ b, is_debug self σ = (Ok (VBool b), σ)
          ∧ (b = true ↔ _convert_type s = VBool true))
  ∧ (∀ s, st_environ σ !! "DEBUG" = None →
       st_environ σ !! str_replace "." "_" (str_upper "app.debug") = Some s →
       is_debug self σ = (Ok (_convert_type s), σ)).
Proof.
  split.
  - intros s Hs. unfold is_debug, getenv. unfold_M. rewrite Hs.
    eexists. split; [done|]. rewrite convert_type_true.
    by rewrite bool_decide_eq_true.
  - intros s Hnone Hs. unfold is_debug, getenv. unfold_M. rewrite Hnone.
    pose proof (get_override σ self "app.debug" (VBool false) false s Hs) as E.
    unfold get, getenv in E. unfold_M. exact E.
Qed.

Lemma log_level_eval σ self v :
  get self "logging.level" (VStr "INFO") false σ = (Ok v, σ) →
  log_level self σ
  = upper_method (match st_environ σ !! "LOG_LEVEL" with
                  | Some s => VStr s
                  | None => v
                  end) σ.
Proof.
  intros Hget. unfold log_level. unfold mbind at 1, M_bind at 1.
  rewrite Hget. unfold getenv_or, getenv. by unfold_M.
Qed.

(** X7. [log_level] on a loader that has its tree.  A set [LOG_LEVEL]
    is returned upper-cased.  With [LOG_LEVEL] and the [logging.level]
    override unset, a string found in the tree is returned upper-cased,
    any other value found there (a number, a boolean, null, a mapping)
    makes the property raise [AttributeError], and a missing key gives
    the upper-cased ["INFO"]. *)
Theorem log_level_cases σ self config :
  read_attr _config self σ = Some config →
  (∀ s, st_environ σ !! "LOG_LEVEL" = Some s →
        log_level self σ = (Ok (VStr (str_upper s)), σ))
  ∧ (st_environ σ !! "LOG_LEVEL" = None →
     st_environ σ !! str_replace "." "_" (str_upper "logging.level") = None →
     (∀ v, located (st_heap σ) config (str_split "." "logging.level") v →
           log_level self σ
           = match v with
             | VStr s => (Ok (VStr (str_upper s)), σ)
             | _ => (Raise AttributeError, σ)
             end)
     ∧ (unlocatable (st_heap σ) config (str_split "." "logging.level") →
        log_level self σ = (Ok (VStr (str_upper "INFO")), σ))).
Proof.
  intros Hcfg. split.
  - intros s Hs.
    destruct (get_optional_cases σ self "logging.level" (VStr "INFO") config
                Hcfg) as (v & Hget & _).
    by rewrite (log_level_eval _ _ v), Hs.
  - intros Hnone Henv. split.
    + intros v Hloc. rewrite (log_level_eval _ _ v), Hnone.
      * by destruct v.
      * rewrite (get_document _ _ _ _ _ config) by done.
        by rewrite (get_loop_located _ _ _ _ _ _ _ Hloc).
    + intros Hun. rewrite (log_level_eval _ _ (VStr "INFO")), Hnone; [done|].
      rewrite (get_document _ _ _ _ _ config) by done.
      by rewrite (get_loop_unlocatable _ _ _ _ _ _ Hun).
Qed.

(** X18. [api_host] returns the text of [API_HOST] as it is when the
    variable is set, uncoerced, although the variable that overrides the
    key [api.host] may have that very name and [get] would coerce it;
    with the variable unset it is [get("api.host")] with the default
    ["0.0.0.0"]. *)
Theorem api_host_raw σ self config :
  read_attr _config self σ = Some config →
  (∀ s, st_environ σ !! "API_HOST" = Some s →
        api_host self σ = (Ok (VStr s), σ))
  ∧ (st_environ σ !! "API_HOST" = None →
     api_host self σ = get self "api.host" (VStr "0.0.0.0") false σ).
Proof.
  intros Hcfg.
  destruct (get_optional_cases σ self "api.host" (VStr "0.0.0.0") config Hcfg)
    as (v & Hget & _).
  assert (api_host self σ
          = (Ok (match st_environ σ !! "API_HOST" with
                 | Some s => VStr s
                 | None => v
                 end), σ)) as ->.
  { unfold api_host. unfold mbind at 1, M_bind at 1. by rewrite Hget. }
  split.
  - by intros s ->.
  - intros ->. by rewrite Hget.
Qed.

Lemma located_prefix h h' v ks v' :
  located h v ks v' → h `prefix_of` h' → located h' v ks v'.
Proof.
  intros Hloc Hpre. induction Hloc as [|l d k v ks v' Hl Hk _ IH];
    [constructor|].
  eapply located_step; [by eapply prefix_lookup_Some|done|done].
Qed.

(** Rewriting a list object does not move any mapping. *)
Lemma located_list_update h l xs ys v ks v' :
  h !! l = Some (OList xs) →
  located h v ks v' → located (<[l := OList ys]> h) v ks v'.
Proof.
  intros Hl Hloc. induction Hloc as [|l' d k v ks v' Hl' Hk _ IH];
    [constructor|].
  eapply located_step; [|done|done].
  rewrite list_lookup_insert_ne; [done|]. intros <-. congruence.
Qed.

Lemma allowed_extensions_located σ self config v :
  st_environ σ
    !! str_replace "." "_" (str_upper "document_processing.allowed_extensions")
  = None →
  read_attr _config self σ = Some config →
  located (st_heap σ) config extensions_path v →
  allowed_extensions self σ
  = (Ok v, with_heap (λ h, h ++ [OList [VStr ".pdf"; VStr ".docx";
                                        VStr ".txt"; VStr ".md"]]) σ).
Proof.
  intros Henv Hcfg Hloc. unfold allowed_extensions, alloc.
  unfold mbind, M_bind.
  rewrite (get_document _ _ _ _ _ config) by done.
  erewrite get_loop_located; [done|].
  eapply located_prefix; [exact Hloc|]. simpl. by apply prefix_app_r.
Qed.

(** X8. [allowed_extensions] hands out the tree's own list, not a copy:
    when the key is found in the tree and is a sequence, the accessor
    returns the very object the tree holds, so a caller that appends to
    what it was given changes what every later call returns. *)
Theorem allowed_extensions_shares_list σ self config l xs :
  st_environ σ
    !! str_replace "." "_" (str_upper "document_processing.allowed_extensions")
  = None →
  read_attr _config self σ = Some config →
  located (st_heap σ) config extensions_path (VRef l) →
  st_heap σ !! l = Some (OList xs) →
  ∃ σ1, allowed_extensions self σ = (Ok (VRef l), σ1)
    ∧ ∀ x, ∃ σ2 σ3,
        list_append (VRef l) x σ1 = (Ok (), σ2)
        ∧ allowed_extensions self σ2 = (Ok (VRef l), σ3)
        ∧ st_heap σ3 !! l = Some (OList (xs ++ [x])).
Proof.
  intros Henv Hcfg Hloc Hl. eexists. split.
  { by apply (allowed_extensions_located _ _ config). }
  intros x. set (fresh := OList [VStr ".pdf"; VStr ".docx"; VStr ".txt"; VStr ".md"]).
  assert ((st_heap σ ++ [fresh]) !! l = Some (OList xs)) as Hl1.
  { by apply lookup_app_l_Some. }
  eexists _, _. split.
  { unfold list_append. unfold_M. fold fresh. by rewrite Hl1. }
  split.
  - apply (allowed_extensions_located _ _ config); [done|done|]. simpl.
    eapply located_list_update; [exact Hl1|].
    eapply located_prefix; [exact Hloc|]. by apply prefix_app_r.
  - simpl. apply lookup_app_l_Some. apply list_lookup_insert_eq.
    by eapply lookup_lt_Some.
Qed.
End MoreAccessors.

Section MoreStore.
Context `{PyBuiltins}.
Implicit Types (σ : state) (h : heap) (v default : val).

Lemma fresh_copy_mutations σ d ms out σ2 :
  mutate_all (VRef (length (st_heap σ))) ms
    (with_heap (λ h, h ++ [ODict d]) σ) = (out, σ2) →
  ∃ d', σ2 = with_heap (λ h, h ++ [ODict d']) σ.
Proof.
  intros Hrun. eapply mutate_all_target in Hrun as [d' ->];
    [|simpl; by rewrite lookup_app_r, Nat.sub_diag].
  exists d'. destruct σ as [h env os inst init tr]. unfold with_heap. simpl.
  f_equal. rewrite insert_app_r_alt by done. by rewrite Nat.sub_diag.
Qed.

(** Objects added at the end of a closed store do not change what [get]
    answers. *)
Lemma get_frame σ self key default required config ext :
  closed_heap (st_heap σ) →
  read_attr _config self σ = Some config →
  closed_val (length (st_heap σ)) config →
  (get self key default required (with_heap (λ h, h ++ ext) σ)).1
  = (get self key default required σ).1.
Proof.
  intros Hclosed Hcfg Hv. unfold get, getenv, attr. unfold_M.
  destruct (st_environ σ !! env_key key); [done|].
  change (read_attr _config self (with_heap _ σ))
    with (read_attr _config self σ). rewrite Hcfg.
  rewrite (get_loop_frame (st_heap σ)); [by destruct (get_loop _ _ _ _ _ _)|done..|].
  intros l Hl. by apply lookup_app_l.
Qed.

(** X9. [get_all] on a tree whose root is a mapping returns a new
    mapping with the entries of the root, and whatever the caller then
    sets, deletes or clears in the returned mapping itself leaves every
    object of the tree as it was and every later [get] answering as
    before. *)
Theorem get_all_copy σ self c top :
  read_attr _config self σ = Some (VRef c) →
  st_heap σ !! c = Some (ODict top) →
  closed_heap (st_heap σ) →
  ∃ r σ1,
    get_all self σ = (Ok (VRef r), σ1)
    ∧ st_heap σ !! r = None
    ∧ st_heap σ1 !! r = Some (ODict top)
    ∧ ∀ ms out σ2, mutate_all (VRef r) ms σ1 = (out, σ2) →
        (∀ l o, st_heap σ !! l = Some o → st_heap σ2 !! l = Some o)
        ∧ read_attr _config self σ2 = Some (VRef c)
        ∧ ∀ key default required,
            (get self key default required σ2).1
            = (get self key default required σ).1.
Proof.
  intros Hcfg Hc Hclosed.
  exists (length (st_heap σ)), (with_heap (λ h, h ++ [ODict top]) σ).
  split.
  { unfold get_all, attr. unfold_M. rewrite Hcfg. by apply copy_object. }
  split; [by apply lookup_ge_None_2|].
  split; [simpl; by rewrite lookup_app_r, Nat.sub_diag|].
  intros ms out σ2 Hrun. apply fresh_copy_mutations in Hrun as [d' ->].
  split; [intros l o Hl; simpl; by apply lookup_app_l_Some|].
  split; [done|]. intros key default required.
  apply (get_frame _ _ _ _ _ (VRef c)); [done..|].
  simpl. by eapply lookup_lt_Some.
Qed.
End MoreStore.

Section MoreLoading.
Context `{PyBuiltins}.
Implicit Types (σ : state) (w : world).

(** X10. [_load_env] on a loader that knows its project root never
    raises and loads at most one file: [configs/.env] when it exists,
    whatever else exists; else [.env] in the project root when that
    exists; else nothing, and then it changes nothing at all.  A
    variable that was already set keeps its value. *)
Theorem load_env_first_found w self σ root :
  read_attr _project_root self σ = Some root →
  ∃ σ', _load_env w self σ = (Ok (), σ')
    ∧ st_heap σ' = st_heap σ
    ∧ (∀ name value, st_environ σ !! name = Some value →
                     st_environ σ' !! name = Some value)
    ∧ (w_exists w (path_join (path_join root "configs") ".env") = true →
       st_trace σ'
       = st_trace σ ++ [EvLoadDotenv (path_join (path_join root "configs") ".env")]
       ∧ read_attr _env_loaded self σ' = Some true)
    ∧ (w_exists w (path_join (path_join root "configs") ".env") = false →
       w_exists w (path_join root ".env") = true →
       st_trace σ' = st_trace σ ++ [EvLoadDotenv (path_join root ".env")]
       ∧ read_attr _env_loaded self σ' = Some true)
    ∧ (w_exists w (path_join (path_join root "configs") ".env") = false →
       w_exists w (path_join root ".env") = false →
       σ' = σ).
Proof.
  intros Hroot. exists (env_loaded w self root σ).
  split; [by apply load_env_eval|].
  assert (is_Some (st_loaders σ !! self)) as [o Ho].
  { unfold read_attr in Hroot. destruct (st_loaders σ !! self); by eauto. }
  unfold env_loaded, env_file, env_candidates. simpl.
  destruct (w_exists w (path_join (path_join root "configs") ".env"));
    [|destruct (w_exists w (path_join root ".env"))]; simpl.
  - split; [done|]. split.
    { intros name value Hset. by apply lookup_union_Some_l. }
    split; [|by split]. intros _. split; [done|].
    unfold read_attr. simpl. by rewrite list_lookup_alter_eq, Ho.
  - split; [done|]. split.
    { intros name value Hset. by apply lookup_union_Some_l. }
    split; [done|]. split; [|done]. intros _ _. split; [done|].
    unfold read_attr. simpl. by rewrite list_lookup_alter_eq, Ho.
  - split; [done|]. split; [done|]. by repeat split.
Qed.
End MoreLoading.

Section ClosedStore.
Context `{PyBuiltins}.
Implicit Types (h : heap) (v : val) (t : yaml).

Lemma closed_val_mono n m v : (n ≤ m)%nat → closed_val n v → closed_val m v.
Proof. destruct v; simpl; auto with lia. Qed.

Lemma closed_obj_mono n m o : (n ≤ m)%nat → closed_obj n o → closed_obj m o.
Proof.
  intros Hnm. destruct o as [d|xs]; simpl.
  - intros Hd. eapply map_Forall_impl; [exact Hd|].
    intros k v. by apply closed_val_mono.
  - intros Hxs. eapply Forall_impl; [exact Hxs|].
    intros v. by apply closed_val_mono.
Qed.

Lemma closed_heap_app h o :
  closed_heap h → closed_obj (S (length h)) o → closed_heap (h ++ [o]).
Proof.
  unfold closed_heap. intros Hh Ho. rewrite length_app. simpl.
  replace (length h + 1)%nat with (S (length h)) by lia.
  apply Forall_app. split; [|by constructor].
  eapply Forall_impl; [exact Hh|]. intros o'. apply closed_obj_mono. lia.
Qed.

Lemma build_length t h v h' : build t h = (v, h') → (length h ≤ length h')%nat.
Proof. intros Hb. apply build_spec in Hb as [Hp _]. by apply prefix_length. Qed.

Lemma build_items_closed items h xs h1 :
  Forall (λ t, ∀ h v h', closed_heap h → build t h = (v, h') →
               closed_heap h' ∧ closed_val (length h') v) items →
  closed_heap h →
  build_items build items h = (xs, h1) →
  closed_heap h1 ∧ Forall (closed_val (length h1)) xs
  ∧ (length h ≤ length h1)%nat.
Proof.
  intros IH. revert h xs h1.
  induction IH as [|t items Ht _ IHitems]; intros h xs h1 Hh; simpl.
  - intros [= <- <-]. by repeat split.
  - destruct (build t h) as [v h'] eqn:Hb.
    destruct (build_items build items h') as [vs h''] eqn:Hbs.
    intros [= <- <-].
    destruct (Ht _ _ _ Hh Hb) as [Hh' Hv].
    destruct (IHitems _ _ _ Hh' Hbs) as (Hh'' & Hvs & Hlen).
    pose proof (build_length _ _ _ _ Hb).
    split; [done|]. split; [|lia]. constructor; [|done].
    by eapply closed_val_mono.
Qed.

Lemma build_entries_closed es d h d' h1 :
  Forall (λ e, ∀ h v h', closed_heap h → build e.2 h = (v, h') →
               closed_heap h' ∧ closed_val (length h') v) es →
  closed_heap h →
  map_Forall (λ _ v, closed_val (length h) v) d →
  build_entries build es d h = (d', h1) →
  closed_heap h1 ∧ map_Forall (λ _ v, closed_val (length h1) v) d'.
Proof.
  intros IH. revert d h d' h1.
  induction IH as [|[k0 t0] es Ht _ IHes]; intros d h d' h1 Hh Hd; simpl.
  - intros [= <- <-]. by split.
  - destruct (build t0 h) as [v0 h'] eqn:Hb. intros Hbs.
    destruct (Ht _ _ _ Hh Hb) as [Hh' Hv0].
    pose proof (build_length _ _ _ _ Hb).
    eapply IHes; [exact Hh'| |exact Hbs].
    apply map_Forall_insert_2; [done|].
    eapply map_Forall_impl; [exact Hd|].
    intros k v. by apply closed_val_mono.
Qed.

(** [yaml.safe_load] leaves no dangling reference. *)
Lemma build_closed t h v h' :
  closed_heap h → build t h = (v, h') →
  closed_heap h' ∧ closed_val (length h') v.
Proof.
  revert h v h'.
  induction t as [|b|n|f|s|items IH|es IH] using yaml_ind';
    intros h v h' Hh; simpl;
    try (intros [= <- <-]; by split).
  - destruct (build_items build items h) as [xs h1] eqn:Hbs.
    intros [= <- <-].
    destruct (build_items_closed _ _ _ _ IH Hh Hbs) as (Hh1 & Hxs & _).
    rewrite length_app. simpl. split; [|lia].
    replace (length h1 + 1)%nat with (length (h1 ++ [OList xs]))
      by (rewrite length_app; simpl; lia).
    apply closed_heap_app; [done|]. simpl.
    eapply Forall_impl; [exact Hxs|]. intros x. apply closed_val_mono. lia.
  - destruct (build_entries build es ∅ h) as [d h1] eqn:Hbs.
    intros [= <- <-].
    destruct (build_entries_closed _ _ _ _ _ IH Hh (map_Forall_empty _) Hbs)
      as (Hh1 & Hd).
    rewrite length_app. simpl. split; [|lia].
    replace (length h1 + 1)%nat with (length (h1 ++ [ODict d]))
      by (rewrite length_app; simpl; lia).
    apply closed_heap_app; [done|]. simpl.
    eapply map_Forall_impl; [exact Hd|].
    intros k x. apply closed_val_mono. lia.
Qed.

Lemma config_loaded_closed self p doc σ :
  is_Some (st_loaders σ !! self) →
  closed_heap (st_heap σ) →
  closed_heap (st_heap (config_loaded self p doc σ))
  ∧ ∀ cfg, read_attr _config self (config_loaded self p doc σ) = Some cfg →
           closed_val (length (st_heap (config_loaded self p doc σ))) cfg.
Proof.
  intros [o Ho] Hclosed. unfold config_loaded.
  destruct (build doc (st_heap σ)) as [v h] eqn:Hb.
  destruct (build_closed _ _ _ _ Hclosed Hb) as [Hh Hv].
  destruct (truthy h v); unfold read_attr; simpl;
    rewrite list_lookup_alter_eq, Ho; simpl.
  - split; [done|]. by intros cfg [= <-].
  - split; [by apply closed_heap_app|].
    intros cfg [= <-]. simpl. rewrite length_app. simpl. lia.
Qed.
End ClosedStore.

Section MoreConstruction.
Context `{PyBuiltins}.
Implicit Types (σ : state) (w : world).

Lemma read_attr_config_loaded {A} (field : loader → option A) self p doc σ :
  (∀ cfg o, field (with_config cfg o) = field o) →
  read_attr field self (config_loaded self p doc σ) = read_attr field self σ.
Proof.
  intros Hf. unfold config_loaded.
  destruct (build doc (st_heap σ)) as [v h].
  destruct (truthy h v); unfold read_attr; simpl;
    rewrite list_lookup_alter_eq;
    (destruct (st_loaders σ !! self); simpl; [apply Hf|done]).
Qed.

Lemma length_loaders_config_loaded self p doc σ :
  length (st_loaders (config_loaded self p doc σ)) = length (st_loaders σ).
Proof.
  unfold config_loaded. destruct (build doc (st_heap σ)) as [v h].
  destruct (truthy h v); simpl; by rewrite length_alter.
Qed.

Lemma length_loaders_env_loaded w self root σ :
  length (st_loaders (env_loaded w self root σ)) = length (st_loaders σ).
Proof.
  unfold env_loaded. destruct (env_file w root); simpl; [|done].
  by rewrite length_alter.
Qed.

(** The state a first construction builds towards, before the document
    is looked at. *)
Lemma prepared_facts w self config_path σ :
  is_Some (st_loaders σ !! self) →
  let σ1 := env_loaded w self (w_project_root w)
              (attrs_assigned w self config_path σ) in
  is_Some (st_loaders σ1 !! self)
  ∧ read_attr _config_path self σ1 = Some (document_path w config_path)
  ∧ st_heap σ1 = st_heap σ ++ [ODict ∅]
  ∧ _instance σ1 = _instance σ
  ∧ _initialized σ1 = _initialized σ
  ∧ length (st_loaders σ1) = length (st_loaders σ).
Proof.
  intros Hself σ1.
  destruct (read_attr_attrs_assigned w self config_path σ Hself) as [_ Hpath].
  destruct (env_loaded_frame w self (w_project_root w)
              (attrs_assigned w self config_path σ))
    as (Hheap & _ & Hinst & Hini & _).
  assert (read_attr _config_path self σ1 = Some (document_path w config_path))
    as Hpath1 by (unfold σ1; by rewrite read_attr_env_loaded).
  split; [by eapply read_attr_is_Some|]. split; [done|].
  split; [done|]. split; [done|]. split; [done|].
  unfold σ1. rewrite length_loaders_env_loaded. simpl. by rewrite length_alter.
Qed.

(** A first construction whose document parses. *)
Lemma construct_loaded w config_path σ doc :
  _initialized σ = false →
  instance_exists σ →
  w_exists w (document_path w config_path) = true →
  w_yaml w (document_path w config_path) = Loaded doc →
  ∃ σ' cfg,
    ConfigLoader w config_path σ = (Ok (instance_made σ).1, σ')
    ∧ _initialized σ' = true
    ∧ _instance σ' = Some (instance_made σ).1
    ∧ read_attr _config (instance_made σ).1 σ' = Some cfg
    ∧ read_attr _config_path (instance_made σ).1 σ'
      = Some (document_path w config_path)
    ∧ represents (st_heap σ') (served_document doc) cfg
    ∧ length (st_loaders σ') = length (st_loaders (instance_made σ).2)
    ∧ (closed_heap (st_heap σ) →
       closed_heap (st_heap σ') ∧ closed_val (length (st_heap σ')) cfg).
Proof.
  intros Hinit Hex Hexists Hdoc.
  destruct (instance_made_exists σ Hex) as (Hself & Hinst & Hini & _ & _ & Hheap).
  set (self := (instance_made σ).1) in *. set (σ0 := (instance_made σ).2) in *.
  destruct (prepared_facts w self config_path σ0 Hself)
    as (Hself1 & Hpath1 & Hheap1 & Hinst1 & Hini1 & Hlen1).
  set (σ1 := env_loaded w self (w_project_root w)
               (attrs_assigned w self config_path σ0)) in *.
  destruct (config_loaded_spec self (document_path w config_path) doc σ1 Hself1)
    as (cfg & Hcfg & Hrep & _).
  destruct (config_loaded_frame self (document_path w config_path) doc σ1)
    as (_ & Hinst2 & _ & _).
  eexists _, cfg. split.
  { rewrite construct_eval by done. fold self σ0.
    rewrite init_eval by (done || congruence). cbv zeta.
    fold σ1. by rewrite Hexists, Hdoc. }
  split; [done|]. split; [simpl; congruence|]. split; [exact Hcfg|].
  split.
  { transitivity (read_attr _config_path self
                    (config_loaded self (document_path w config_path) doc σ1));
      [reflexivity|]. by rewrite read_attr_config_loaded. }
  split; [exact Hrep|].
  split.
  { transitivity (length (st_loaders
                    (config_loaded self (document_path w config_path) doc σ1)));
      [reflexivity|]. by rewrite length_loaders_config_loaded. }
  intros Hclosed.
  assert (closed_heap (st_heap σ1)) as Hclosed1.
  { rewrite Hheap1, Hheap. apply closed_heap_app; [done|]. simpl.
    apply map_Forall_empty. }
  destruct (config_loaded_closed self (document_path w config_path) doc σ1
              Hself1 Hclosed1) as [Hc Hv].
  split; [done|]. by apply Hv.
Qed.

(** X11. A first construction whose document parses leaves a loader
    whose tree represents the document served (an empty mapping for an
    empty or falsy document) in a store without dangling references, and
    every [get] of a key with no override answers from that document:
    the value at the path when there is one, the default or
    [MissingConfigError] when there is none. *)
Theorem construction_serves_document w config_path σ doc :
  _initialized σ = false →
  instance_exists σ →
  closed_heap (st_heap σ) →
  w_exists w (document_path w config_path) = true →
  w_yaml w (document_path w config_path) = Loaded doc →
  ∃ self σ' cfg,
    ConfigLoader w config_path σ = (Ok self, σ')
    ∧ read_attr _config self σ' = Some cfg
    ∧ represents (st_heap σ') (served_document doc) cfg
    ∧ closed_heap (st_heap σ')
    ∧ (∀ key default required,
         st_environ σ' !! str_replace "." "_" (str_upper key) = None →
         match yaml_locate (served_document doc) (str_split "." key) with
         | Some t =>
             ∃ v, get self key default required σ' = (Ok v, σ')
                  ∧ represents (st_heap σ') t v
         | None =>
             get self key default required σ'
             = (if required
                then Raise (MissingConfigError (msg_key_not_found key))
                else Ok default, σ')
         end).
Proof.
  intros Hinit Hex Hclosed Hexists Hdoc.
  destruct (construct_loaded w config_path σ doc Hinit Hex Hexists Hdoc)
    as (σ' & cfg & Hrun & _ & _ & Hcfg & _ & Hrep & _ & Hcl).
  exists (instance_made σ).1, σ', cfg.
  split; [done|]. split; [done|]. split; [done|].
  split; [by apply Hcl|].
  intros key default required Hnone.
  rewrite (get_document _ _ _ _ _ cfg) by done.
  pose proof (get_loop_represents _ key default required _ _
                (str_split "." key) Hrep) as Hloop.
  destruct (yaml_locate _ _) as [t|].
  - destruct Hloop as (v & -> & Hv). by exists v.
  - by rewrite Hloop.
Qed.

(** X12. An empty document (or any falsy one: null, an empty mapping,
    an empty sequence, zero, the empty string, false) does not make the
    first construction fail; the loader then serves an empty mapping:
    every key without an override is missing. *)
Theorem empty_document_misses w config_path σ doc :
  _initialized σ = false →
  instance_exists σ →
  w_exists w (document_path w config_path) = true →
  w_yaml w (document_path w config_path) = Loaded doc →
  yaml_truthy doc = false →
  ∃ self σ',
    ConfigLoader w config_path σ = (Ok self, σ')
    ∧ ∀ key default required,
        st_environ σ' !! str_replace "." "_" (str_upper key) = None →
        get self key default required σ'
        = (if required then Raise (MissingConfigError (msg_key_not_found key))
           else Ok default, σ').
Proof.
  intros Hinit Hex Hexists Hdoc Hfalsy.
  destruct (construct_loaded w config_path σ doc Hinit Hex Hexists Hdoc)
    as (σ' & cfg & Hrun & _ & _ & Hcfg & _ & Hrep & _).
  exists (instance_made σ).1, σ'. split; [done|].
  intros key default required Hnone.
  rewrite (get_document _ _ _ _ _ cfg) by done.
  pose proof (get_loop_represents _ key default required _ _
                (str_split "." key) Hrep) as Hloop.
  unfold served_document in Hloop. rewrite Hfalsy in Hloop.
  destruct (str_split "." key) as [|k ks] eqn:Hsplit;
    [by destruct (str_split_nonempty "." key)|].
  change (yaml_locate (YMap []) (k :: ks)) with (@None yaml) in Hloop.
  by rewrite Hloop.
Qed.

(** A first construction that raises leaves the process uninitialized,
    with the object it created still registered as the instance. *)
Lemma construct_raise w config_path σ e σ1 :
  _initialized σ = false →
  instance_exists σ →
  ConfigLoader w config_path σ = (Raise e, σ1) →
  _initialized σ1 = false
  ∧ _instance σ1 = Some (instance_made σ).1
  ∧ is_Some (st_loaders σ1 !! (instance_made σ).1)
  ∧ length (st_loaders σ1) = length (st_loaders (instance_made σ).2)
  ∧ is_ConfigurationError e = true.
Proof.
  intros Hinit Hex.
  destruct (instance_made_exists σ Hex) as (Hself & Hinst & Hini & _).
  set (self := (instance_made σ).1) in *. set (σ0 := (instance_made σ).2) in *.
  destruct (prepared_facts w self config_path σ0 Hself)
    as (Hself1 & _ & _ & Hinst1 & Hini1 & Hlen1).
  rewrite construct_eval by done. fold self σ0.
  rewrite init_eval by (done || congruence). cbv zeta.
  destruct (w_exists w (document_path w config_path));
    [destruct (w_yaml w (document_path w config_path))|];
    intros [= <- <-]; simpl; repeat split; congruence || done.
Qed.

(** X13. A construction that failed can be retried.  What a first
    construction raises is a [ConfigurationError], and after it has
    raised, a construction call whose document exists
    and parses succeeds; it returns the object the failed call had
    created, without creating another, and this time the path it is
    given is the one that is loaded. *)
Theorem construction_retry w1 p1 w2 p2 σ e σ1 doc :
  _initialized σ = false →
  instance_exists σ →
  ConfigLoader w1 p1 σ = (Raise e, σ1) →
  w_exists w2 (document_path w2 p2) = true →
  w_yaml w2 (document_path w2 p2) = Loaded doc →
  is_ConfigurationError e = true
  ∧ ∃ self σ2,
    ConfigLoader w2 p2 σ1 = (Ok self, σ2)
    ∧ _instance σ1 = Some self
    ∧ _instance σ2 = Some self
    ∧ _initialized σ2 = true
    ∧ length (st_loaders σ2) = length (st_loaders σ1)
    ∧ read_attr _config_path self σ2 = Some (document_path w2 p2).
Proof.
  intros Hinit Hex Hfail Hexists Hdoc.
  destruct (construct_raise _ _ _ _ _ Hinit Hex Hfail)
    as (Hinit1 & Hinst1 & Hself1 & _ & Herr).
  split; [exact Herr|].
  assert (instance_exists σ1) as Hex1.
  { unfold instance_exists. by rewrite Hinst1. }
  assert (instance_made σ1 = ((instance_made σ).1, σ1)) as Hmade.
  { unfold instance_made at 1. by rewrite Hinst1. }
  destruct (construct_loaded w2 p2 σ1 doc Hinit1 Hex1 Hexists Hdoc)
    as (σ2 & cfg & Hrun & Hinit2 & Hinst2 & _ & Hpath & _ & Hlen & _).
  rewrite Hmade in Hrun, Hinst2, Hpath, Hlen. simpl in *.
  by exists (instance_made σ).1, σ2.
Qed.

(** X14. A [reload] that cannot load the document (the file is gone, or
    it no longer parses) raises [ConfigurationError] and keeps the tree:
    the store and [_config] are what they were, so every key whose
    override variable reads the same as before is answered as before. *)
Theorem reload_failure_keeps_tree w self σ root p :
  read_attr _project_root self σ = Some root →
  read_attr _config_path self σ = Some p →
  (∀ doc, ¬ (w_exists w p = true ∧ w_yaml w p = Loaded doc)) →
  ∃ msg σ',
    reload w self σ = (Raise (ConfigurationError msg), σ')
    ∧ st_heap σ' = st_heap σ
    ∧ read_attr _config self σ' = read_attr _config self σ
    ∧ same_class σ σ'
    ∧ ∀ key default required,
        st_environ σ' !! str_replace "." "_" (str_upper key)
        = st_environ σ !! str_replace "." "_" (str_upper key) →
        (get self key default required σ').1
        = (get self key default required σ).1.
Proof.
  intros Hroot Hpath Hbad.
  set (σ1 := env_loaded w self root σ).
  assert (read_attr _config_path self σ1 = Some p) as Hpath1.
  { unfold σ1. by rewrite read_attr_env_loaded. }
  assert (read_attr _config self σ1 = read_attr _config self σ) as Hcfg1.
  { unfold σ1. by rewrite read_attr_env_loaded. }
  destruct (env_loaded_frame w self root σ) as (Hheap1 & _ & Hinst1 & Hini1 & _).
  fold σ1 in Hheap1, Hinst1, Hini1.
  assert (∀ σ', st_heap σ' = st_heap σ →
            read_attr _config self σ' = read_attr _config self σ →
            ∀ key default required,
              st_environ σ' !! env_key key = st_environ σ !! env_key key →
              (get self key default required σ').1
              = (get self key default required σ).1) as Hget.
  { intros σ' Hh Hc key default required He. unfold get, getenv, attr.
    unfold_M. rewrite He.
    destruct (st_environ σ !! env_key key); [done|]. simpl. rewrite Hc.
    destruct (read_attr _config self σ); [|done]. simpl. rewrite Hh.
    by destruct (get_loop _ _ _ _ _ _). }
  assert (reload w self σ = _load_config w self σ1) as ->.
  { unfold reload. unfold mbind at 1, M_bind at 1.
    by rewrite (load_env_eval _ _ root). }
  rewrite (load_config_eval _ _ p) by done.
  destruct (w_exists w p) eqn:Hexists;
    [destruct (w_yaml w p) as [doc|e|e] eqn:Hyaml|].
  - by destruct (Hbad doc).
  - eexists _, _. split; [done|].
    split; [exact Hheap1|]. split; [exact Hcfg1|].
    split; [split; simpl; assumption|]. by apply Hget.
  - eexists _, _. split; [done|].
    split; [exact Hheap1|]. split; [exact Hcfg1|].
    split; [split; simpl; assumption|]. by apply Hget.
  - eexists _, _. split; [done|].
    split; [exact Hheap1|]. split; [exact Hcfg1|].
    split; [split; assumption|]. by apply Hget.
Qed.
End MoreConstruction.

Section PreservationAlongRuns.
Context `{PyBuiltins}.
Variable R : state → state → Prop.
Hypothesis R_refl : ∀ σ, R σ σ.
Hypothesis R_trans : ∀ σ1 σ2 σ3, R σ1 σ2 → R σ2 σ3 → R σ1 σ3.
Hypothesis R_heap : ∀ f σ, R σ (with_heap f σ).
Hypothesis R_environ : ∀ f σ, R σ (with_environ f σ).
Hypothesis R_loaders : ∀ f σ, R σ (with_loaders f σ).
Hypothesis R_emit : ∀ e σ, R σ (emit e σ).2.
Hypothesis R_initialized : ∀ σ, R σ (set_initialized true σ).
Hypothesis R_instance : ∀ σ, R σ (instance_made σ).2.

Ltac keeps_R lem := (apply lem; assumption).

Lemma keeps_init_true w self config_path :
  keeps R (__init__ w self config_path).
Proof.
  unfold __init__, set_project_root, set_config_path, set_config,
    set_env_loaded.
  repeat first
    [ keeps_R keeps_load_env | keeps_R keeps_load_config
    | keeps_R keeps_validate_required
    | apply keeps_modify; intros; first [apply R_initialized | apply R_loaders]
    | apply (keeps_bind R R_trans); [|intros ?]
    | apply (keeps_ret R R_refl) | apply (keeps_gets R R_refl)
    | apply (keeps_attr R R_refl) | apply (keeps_alloc R R_heap)
    | match goal with
      | |- keeps _ (match ?x with _ => _ end) => destruct x
      | |- keeps _ (if ?b then _ else _) => destruct b
      end ].
Qed.

Lemma keeps_construct w config_path : keeps R (ConfigLoader w config_path).
Proof.
  intros σ. unfold ConfigLoader. unfold mbind at 1, M_bind at 1.
  rewrite new_eval. unfold mbind at 1, M_bind at 1.
  pose proof (keeps_init_true w (instance_made σ).1 config_path
                (instance_made σ).2) as Hinit.
  destruct (__init__ _ _ _ _) as [[[]|e] σ']; simpl in *;
    (eapply R_trans; [apply R_instance|exact Hinit]).
Qed.

Lemma keeps_exec c σ : R σ (exec c σ).2.
Proof.
  destruct c as [w p|self key default required|self section|self|w self|target m];
    simpl.
  - apply keeps_construct.
  - by keeps_R keeps_get.
  - by keeps_R keeps_get_section.
  - by keeps_R keeps_get_all.
  - by keeps_R keeps_reload.
  - by keeps_R keeps_mutate.
Qed.

Lemma keeps_steps σ σ' : steps σ σ' → R σ σ'.
Proof.
  induction 1 as [|σ' c _ IH]; [apply R_refl|].
  eapply R_trans; [exact IH|apply keeps_exec].
Qed.
End PreservationAlongRuns.

(** X19. No call ever replaces the singleton or un-initializes the
    process: along any sequence of construction calls (failing ones
    included), lookups, section copies, reloads and caller mutations, an
    instance once registered stays the registered instance, and an
    initialized process stays initialized. *)
Theorem class_state_monotone `{PyBuiltins} σ σ' :
  steps σ σ' → class_monotone σ σ'.
Proof.
  apply keeps_steps; unfold class_monotone; simpl; try (intros; by split).
  - intros σ1 σ2 σ3 [Hi12 Hb12] [Hi23 Hb23]. split; auto.
  - intros σ0. split; [|unfold instance_made; by destruct (_instance σ0)].
    intros a Ha. unfold instance_made. by rewrite Ha.
Qed.

(** * The setup check *)

Section SetupCheck.
Import VerifySetup.
Implicit Types (σ : state) (w : world).

Lemma printing_nil σ : printing [] σ = σ.
Proof. destruct σ. unfold printing. simpl. by rewrite app_nil_r. Qed.

Lemma printing_app lines1 lines2 σ :
  printing lines2 (printing lines1 σ) = printing (lines1 ++ lines2) σ.
Proof.
  unfold printing. simpl. by rewrite fmap_app, app_assoc.
Qed.

Lemma print_eval line σ : print line σ = (Ok (), printing [line] σ).
Proof. done. Qed.

Lemma print_header_eval title σ :
  print_header title σ = (Ok (), printing (header_lines title) σ).
Proof.
  unfold print_header, header_lines, print, emit. unfold_M.
  unfold printing. simpl. by rewrite <- !app_assoc.
Qed.

Lemma check_directories_loop_eval w root dirs all_ok σ :
  check_directories_loop w root dirs all_ok σ
  = (Ok (all_ok && forallb (λ d, w_exists w (path_join root d)) dirs),
     printing (directory_line w root <$> dirs) σ).
Proof.
  revert all_ok σ. induction dirs as [|d dirs IH]; intros all_ok σ; simpl.
  - by rewrite printing_nil, andb_true_r.
  - unfold directory_line at 1.
    destruct (w_exists w (path_join root d)); unfold print_status;
      unfold mbind, M_bind; rewrite print_eval, IH, printing_app; simpl.
    + done.
    + by rewrite andb_false_r.
Qed.

(** X15. [check_directories] passes exactly when all thirteen
    directories exist under the project root, and a missing one does not
    end the check: after the header it prints one status line for each
    directory, in the order of the list, and touches nothing else. *)
Theorem check_directories_spec w root σ :
  ∃ ok σ',
    check_directories w root σ = (Ok ok, σ')
    ∧ (ok = true ↔
       Forall (λ d, w_exists w (path_join root d) = true) directories)
    ∧ σ' = printing (header_lines "DIRECTORY STRUCTURE"
                     ++ (directory_line w root <$> directories)) σ
    ∧ length (st_trace σ') = (length (st_trace σ) + 16)%nat.
Proof.
  eexists _, _. split.
  { unfold check_directories. unfold mbind, M_bind.
    rewrite print_header_eval, check_directories_loop_eval, printing_app.
    done. }
  split.
  { rewrite andb_true_l, forallb_forall, Forall_forall.
    by setoid_rewrite list_elem_of_In. }
  split; [done|]. unfold printing. simpl. by rewrite length_app.
Qed.

Lemma check_libraries_eval imports fallback libraries all_ok σ :
  check_libraries imports fallback libraries all_ok σ
  = (Ok (all_ok && forallb (importable imports) libraries),
     printing (library_line imports fallback <$> libraries) σ).
Proof.
  revert all_ok σ.
  induction libraries as [|[module name] libraries IH]; intros all_ok σ; simpl.
  - by rewrite printing_nil, andb_true_r.
  - unfold library_line at 1, importable at 1. simpl.
    destruct (imports module) as [version|e]; unfold print_status;
      unfold mbind, M_bind; rewrite print_eval, IH, printing_app; simpl.
    + done.
    + by rewrite andb_false_r.
Qed.

(** X16. [check_core_imports], [check_document_processing] and
    [check_utilities] each pass exactly when every library of their list
    can be imported; an [ImportError] does not end the check: after the
    header one status line is printed for each library, in order,
    whether it imported or not. *)
Theorem check_imports_spec imports σ :
  check_core_imports imports σ
  = (Ok (forallb (importable imports) core_libraries),
     printing (header_lines "CORE LIBRARY IMPORTS"
               ++ (library_line imports "unknown" <$> core_libraries)) σ)
  ∧ check_document_processing imports σ
    = (Ok (forallb (importable imports) document_libraries),
       printing (header_lines "DOCUMENT PROCESSING"
                 ++ (library_line imports "unknown" <$> document_libraries)) σ)
  ∧ check_utilities imports σ
    = (Ok (forallb (importable imports) utility_libraries),
       printing (header_lines "UTILITIES"
                 ++ (library_line imports "installed" <$> utility_libraries)) σ).
Proof.
  unfold check_core_imports, check_document_processing, check_utilities.
  unfold mbind, M_bind.
  rewrite !print_header_eval, !check_libraries_eval, !printing_app.
  done.
Qed.

Lemma length_substring_le n m s : (String.length (substring n m s) ≤ m)%nat.
Proof.
  revert n m. induction s as [|c s IH]; intros n m.
  - destruct n, m; simpl; lia.
  - destruct n as [|n]; simpl.
    + destruct m as [|m]; simpl; [lia|]. specialize (IH 0%nat m). lia.
    + apply IH.
Qed.

Lemma length_append s1 s2 :
  String.length (s1 +:+ s2) = (String.length s1 + String.length s2)%nat.
Proof. induction s1 as [|c s1 IH]; simpl; [done|]. by rewrite IH. Qed.

(** X17. [check_openai_api_key] never raises and returns true exactly
    when the variable is set to a non-empty text.  Of a key it prints at
    most its first eight and last four characters, fifteen characters in
    all with the dots, and of a key of twelve characters or fewer
    nothing at all. *)
Theorem check_openai_api_key_spec σ :
  ∃ ok σ',
    check_openai_api_key σ = (Ok ok, σ')
    ∧ (ok = true ↔
       ∃ k, st_environ σ !! "OPENAI_API_KEY" = Some k ∧ k ≠ "")
    ∧ (∀ k, st_environ σ !! "OPENAI_API_KEY" = Some k → k ≠ "" →
         σ' = printing (header_lines "API KEY CHECK"
                        ++ [status_line ("OPENAI_API_KEY is set ("
                                         +:+ masked k +:+ ")") true ""]) σ
         ∧ (String.length (masked k) ≤ 15)%nat
         ∧ ((String.length k ≤ 12)%nat → masked k = "***")).
Proof.
  unfold check_openai_api_key, getenv. unfold mbind at 1, M_bind at 1.
  rewrite print_header_eval. unfold mbind at 1, M_bind at 1, gets at 1.
  change (st_environ (printing _ σ)) with (st_environ σ).
  destruct (st_environ σ !! "OPENAI_API_KEY") as [k|] eqn:Hk; simpl.
  - case_bool_decide as Hempty.
    + eexists _, _. split; [done|]. split.
      * split; [done|]. intros (k' & [= <-] & Hne). done.
      * intros k' [= <-] Hne. done.
    + eexists _, _. split.
      { unfold print_status. unfold mbind, M_bind.
        rewrite print_eval, printing_app. done. }
      split; [split; [by eauto|done]|].
      intros k' [= <-] _. split; [done|]. unfold masked. split.
      * destruct (12 <? String.length k)%nat; [|simpl; lia].
        rewrite !length_append. simpl.
        pose proof (length_substring_le 0 8 k).
        pose proof (length_substring_le (String.length k - 4) 4 k). lia.
      * intros Hshort. by rewrite (proj2 (Nat.ltb_ge _ _) Hshort).
  - eexists _, _. split; [done|]. split.
    + split; [done|]. by intros (k & ? & _).
    + by intros k.
Qed.
End SetupCheck.

(** * The further properties on the demo deployments *)


Lemma contains_iff_witness :
  read_attr _config 0%nat Demo.overridden = Some (VRef 5)
  ∧ ∃ b, __contains__ 0 "document_processing.chunk_size" Demo.overridden
         = (Ok b, Demo.overridden)
    ∧ (b = true ↔
       is_Some (st_environ Demo.overridden
                  !! str_replace "." "_"
                       (str_upper "document_processing.chunk_size"))
       ∨ ∃ v, located (st_heap Demo.overridden) (VRef 5)
                (str_split "." "document_processing.chunk_size") v).
Proof.
  assert (read_attr _config 0%nat Demo.overridden = Some (VRef 5)) as Hcfg
    by (vm_compute; reflexivity).
  split; [exact Hcfg|].
  exact (contains_iff Demo.overridden 0 "document_processing.chunk_size"
           (VRef 5) Hcfg).
Defined.

Example contains_examples :
  (__contains__ 0 "app.owner" Demo.plain).1 = Ok true
  ∧ (__contains__ 0 "llm.model" Demo.plain).1 = Ok false
  ∧ (__contains__ 0 "document_processing_chunk.size" Demo.overridden).1
    = Ok true.
Proof. repeat split; vm_compute; reflexivity. Qed.

Lemma accessors_never_raise_witness :
  read_attr _config 0%nat Demo.plain = Some (VRef 5)
  ∧ (∀ key default,
       ∃ v, get 0 key default false Demo.plain = (Ok v, Demo.plain)
            ∧ ((∃ s, st_environ Demo.plain
                       !! str_replace "." "_" (str_upper key) = Some s
                     ∧ coerced s v)
               ∨ (st_environ Demo.plain
                    !! str_replace "." "_" (str_upper key) = None
                  ∧ located (st_heap Demo.plain) (VRef 5) (str_split "." key) v)
               ∨ (st_environ Demo.plain
                    !! str_replace "." "_" (str_upper key) = None
                  ∧ unlocatable (st_heap Demo.plain) (VRef 5) (str_split "." key)
                  ∧ v = default)))
  ∧ Forall (λ accessor, ∃ v, accessor 0%nat Demo.plain = (Ok v, Demo.plain))
      scalar_accessors.
Proof.
  assert (read_attr _config 0%nat Demo.plain = Some (VRef 5)) as Hcfg
    by (vm_compute; reflexivity).
  split; [exact Hcfg|].
  exact (accessors_never_raise Demo.plain 0 (VRef 5) Hcfg).
Defined.

Example accessor_examples :
  (chunk_size 0 Demo.plain).1 = Ok (VInt 500)
  ∧ (chunk_size 0 Demo.overridden).1 = Ok (VInt 800)
  ∧ (llm_max_tokens 0 Demo.plain).1 = Ok (VInt 1500)
  ∧ (llm_temperature 0 Demo.plain).1 = Ok (VFloat float_0_3).
Proof. repeat split; vm_compute; reflexivity. Qed.

Lemma override_shared_by_keys_witness :
  str_replace "." "_" (str_upper "document_processing.chunk_size")
  = str_replace "." "_" (str_upper "document.processing_chunk.size")
  ∧ st_environ Demo.overridden
      !! str_replace "." "_" (str_upper "document_processing.chunk_size")
    = Some "800"
  ∧ get 0 "document_processing.chunk_size" VNone true Demo.overridden
    = get 0 "document.processing_chunk.size" (VInt 1) false Demo.overridden.
Proof.
  assert (str_replace "." "_" (str_upper "document_processing.chunk_size")
          = str_replace "." "_" (str_upper "document.processing_chunk.size"))
    as Hsame by (vm_compute; reflexivity).
  assert (st_environ Demo.overridden
            !! str_replace "." "_" (str_upper "document_processing.chunk_size")
          = Some "800") as Hset by (vm_compute; reflexivity).
  split; [exact Hsame|]. split; [exact Hset|].
  exact (override_shared_by_keys Demo.overridden 0
           "document_processing.chunk_size" "document.processing_chunk.size"
           VNone (VInt 1) true false "800" Hsame Hset).
Defined.

Lemma is_debug_env_decides_witness :
  st_environ (Sample.started {["DEBUG" := "Off"]}) !! "DEBUG" = Some "Off"
  ∧ ∃ b, is_debug 0 (Sample.started {["DEBUG" := "Off"]})
         = (Ok (VBool b), Sample.started {["DEBUG" := "Off"]})
    ∧ (b = true ↔ _convert_type "Off" = VBool true).
Proof.
  assert (st_environ (Sample.started {["DEBUG" := "Off"]}) !! "DEBUG"
          = Some "Off") as Hset by (vm_compute; reflexivity).
  split; [exact Hset|].
  exact (proj1 (is_debug_env_decides (Sample.started {["DEBUG" := "Off"]}) 0)
           "Off" Hset).
Defined.

Example is_debug_examples :
  (is_debug 0 (Demo.started {["DEBUG" := "YES"]})).1 = Ok (VBool true)
  ∧ (is_debug 0 (Demo.started {["DEBUG" := "2"]})).1 = Ok (VBool false)
  ∧ (is_debug 0 (Demo.started {["APP_DEBUG" := "2"]})).1 = Ok (VInt 2)
  ∧ (is_debug 0 Demo.plain).1 = Ok (VBool false).
Proof. repeat split; vm_compute; reflexivity. Qed.

Lemma log_level_cases_witness :
  read_attr _config 0%nat Sample.plain = Some (VRef 4)
  ∧ read_attr _config 0%nat Sample.leveled = Some (VRef 4)
  ∧ log_level 0 Sample.leveled = (Ok (VStr "WARNING"), Sample.leveled)
  ∧ located (st_heap Sample.plain) (VRef 4) (str_split "." "logging.level")
      (VStr "debug")
  ∧ log_level 0 Sample.plain = (Ok (VStr "DEBUG"), Sample.plain)
  ∧ unlocatable (st_heap Demo.plain) (VRef 5) (str_split "." "logging.level")
  ∧ log_level 0 Demo.plain = (Ok (VStr "INFO"), Demo.plain).
Proof.
  assert (read_attr _config 0%nat Sample.plain = Some (VRef 4)) as Hcfg
    by (vm_compute; reflexivity).
  assert (read_attr _config 0%nat Sample.leveled = Some (VRef 4)) as Hcfg'
    by (vm_compute; reflexivity).
  assert (read_attr _config 0%nat Demo.plain = Some (VRef 5)) as Hcfg''
    by (vm_compute; reflexivity).
  assert (located (st_heap Sample.plain) (VRef 4)
            (str_split "." "logging.level") (VStr "debug")) as Hloc
    by (apply located_by_loop; vm_compute; reflexivity).
  assert (unlocatable (st_heap Demo.plain) (VRef 5)
            (str_split "." "logging.level")) as Hun
    by (eapply unlocatable_by_loop; vm_compute; reflexivity).
  destruct (log_level_cases Sample.leveled 0 (VRef 4) Hcfg') as [Hset _].
  destruct (log_level_cases Sample.plain 0 (VRef 4) Hcfg) as [_ Hunset].
  destruct (log_level_cases Demo.plain 0 (VRef 5) Hcfg'') as [_ Hunset'].
  split; [exact Hcfg|]. split; [exact Hcfg'|].
  split; [exact (Hset "warning" eq_refl)|]. split; [exact Hloc|].
  split; [exact (proj1 (Hunset eq_refl eq_refl) (VStr "debug") Hloc)|].
  split; [exact Hun|].
  exact (proj2 (Hunset' eq_refl eq_refl) Hun).
Defined.

Example log_level_of_a_number :
  (log_level 0
     (get_config (Demo.files (YMap [("logging", YMap [("level", YInt 10)])]))
        None (fresh_process ∅)).2).1
  = Raise AttributeError.
Proof. vm_compute. reflexivity. Qed.

Lemma allowed_extensions_shares_list_witness :
  st_environ Sample.plain
    !! str_replace "." "_" (str_upper "document_processing.allowed_extensions")
  = None
  ∧ read_attr _config 0%nat Sample.plain = Some (VRef 4)
  ∧ located (st_heap Sample.plain) (VRef 4) extensions_path (VRef 2)
  ∧ st_heap Sample.plain !! 2%nat = Some (OList [VStr ".pdf"; VStr ".txt"])
  ∧ ∃ σ1, allowed_extensions 0 Sample.plain = (Ok (VRef 2), σ1)
      ∧ ∀ x, ∃ σ2 σ3,
          list_append (VRef 2) x σ1 = (Ok (), σ2)
          ∧ allowed_extensions 0 σ2 = (Ok (VRef 2), σ3)
          ∧ st_heap σ3 !! 2%nat
            = Some (OList ([VStr ".pdf"; VStr ".txt"] ++ [x])).
Proof.
  assert (st_environ Sample.plain
            !! str_replace "." "_"
                 (str_upper "document_processing.allowed_extensions")
          = None) as Henv by (vm_compute; reflexivity).
  assert (read_attr _config 0%nat Sample.plain = Some (VRef 4)) as Hcfg
    by (vm_compute; reflexivity).
  assert (located (st_heap Sample.plain) (VRef 4) extensions_path (VRef 2))
    as Hloc by (apply located_by_loop; vm_compute; reflexivity).
  assert (st_heap Sample.plain !! 2%nat
          = Some (OList [VStr ".pdf"; VStr ".txt"])) as Hlist
    by (vm_compute; reflexivity).
  split; [exact Henv|]. split; [exact Hcfg|]. split; [exact Hloc|].
  split; [exact Hlist|].
  exact (allowed_extensions_shares_list Sample.plain 0 (VRef 4) 2 _
           Henv Hcfg Hloc Hlist).
Defined.

Lemma get_all_copy_witness :
  read_attr _config 0%nat Demo.plain = Some (VRef 5)
  ∧ st_heap Demo.plain !! 5%nat = Some (ODict (Demo.root_of Demo.plain))
  ∧ closed_heap (st_heap Demo.plain)
  ∧ ∃ r σ1,
      get_all 0 Demo.plain = (Ok (VRef r), σ1)
      ∧ st_heap Demo.plain !! r = None
      ∧ st_heap σ1 !! r = Some (ODict (Demo.root_of Demo.plain))
      ∧ ∀ ms out σ2, mutate_all (VRef r) ms σ1 = (out, σ2) →
          (∀ l o, st_heap Demo.plain !! l = Some o → st_heap σ2 !! l = Some o)
          ∧ read_attr _config 0%nat σ2 = Some (VRef 5)
          ∧ ∀ key default required,
              (get 0 key default required σ2).1
              = (get 0 key default required Demo.plain).1.
Proof.
  assert (read_attr _config 0%nat Demo.plain = Some (VRef 5)) as Hcfg
    by (vm_compute; reflexivity).
  assert (st_heap Demo.plain !! 5%nat = Some (ODict (Demo.root_of Demo.plain)))
    as Hroot by (vm_compute; reflexivity).
  assert (closed_heap (st_heap Demo.plain)) as Hclosed
    by (refine (bool_decide_unpack _ _); vm_compute; exact I).
  split; [exact Hcfg|]. split; [exact Hroot|]. split; [exact Hclosed|].
  exact (get_all_copy Demo.plain 0 5 (Demo.root_of Demo.plain)
           Hcfg Hroot Hclosed).
Defined.

Lemma load_env_first_found_witness :
  read_attr _project_root 0%nat Demo.plain = Some "/srv/safes"
  ∧ w_exists Sample.two_env_files "/srv/safes/configs/.env" = true
  ∧ w_exists Sample.two_env_files "/srv/safes/.env" = true
  ∧ ∃ σ', _load_env Sample.two_env_files 0 Demo.plain = (Ok (), σ')
      ∧ st_trace σ'
        = st_trace Demo.plain ++ [EvLoadDotenv "/srv/safes/configs/.env"]
      ∧ read_attr _env_loaded 0%nat σ' = Some true.
Proof.
  assert (read_attr _project_root 0%nat Demo.plain = Some "/srv/safes")
    as Hroot by (vm_compute; reflexivity).
  assert (w_exists Sample.two_env_files "/srv/safes/configs/.env" = true)
    as Hfirst by (vm_compute; reflexivity).
  assert (w_exists Sample.two_env_files "/srv/safes/.env" = true)
    as Hsecond by (vm_compute; reflexivity).
  split; [exact Hroot|]. split; [exact Hfirst|]. split; [exact Hsecond|].
  destruct (load_env_first_found Sample.two_env_files 0 Demo.plain
              "/srv/safes" Hroot) as (σ' & Hrun & _ & _ & Hone & _).
  exists σ'. split; [exact Hrun|]. exact (Hone Hfirst).
Defined.

Example load_env_keeps_what_is_set :
  st_environ (_load_env Sample.two_env_files 0
                (Demo.started {["DEBUG" := "off"]})).2
  = {["DEBUG" := "off"; "LOG_LEVEL" := "warning"]}.
Proof. vm_compute. reflexivity. Qed.

Lemma construction_serves_document_witness :
  _initialized (fresh_process ∅) = false
  ∧ instance_exists (fresh_process ∅)
  ∧ closed_heap (st_heap (fresh_process ∅))
  ∧ ∃ self σ' cfg,
      ConfigLoader (Demo.files Demo.document) None (fresh_process ∅)
      = (Ok self, σ')
      ∧ read_attr _config self σ' = Some cfg
      ∧ represents (st_heap σ') (served_document Demo.document) cfg
      ∧ closed_heap (st_heap σ')
      ∧ (∀ key default required,
           st_environ σ' !! str_replace "." "_" (str_upper key) = None →
           match yaml_locate (served_document Demo.document)
                   (str_split "." key) with
           | Some t =>
               ∃ v, get self key default required σ' = (Ok v, σ')
                    ∧ represents (st_heap σ') t v
           | None =>
               get self key default required σ'
               = (if required
                  then Raise (MissingConfigError (msg_key_not_found key))
                  else Ok default, σ')
           end).
Proof.
  assert (_initialized (fresh_process ∅) = false) as Hinit by reflexivity.
  assert (instance_exists (fresh_process ∅)) as Hex by exact I.
  assert (closed_heap (st_heap (fresh_process ∅))) as Hclosed
    by (refine (bool_decide_unpack _ _); vm_compute; exact I).
  split; [exact Hinit|]. split; [exact Hex|]. split; [exact Hclosed|].
  exact (construction_serves_document (Demo.files Demo.document) None
           (fresh_process ∅) Demo.document Hinit Hex Hclosed eq_refl eq_refl).
Defined.

Lemma empty_document_misses_witness :
  _initialized (fresh_process ∅) = false
  ∧ instance_exists (fresh_process ∅)
  ∧ yaml_truthy YNull = false
  ∧ ∃ self σ',
      ConfigLoader (Demo.files YNull) None (fresh_process ∅) = (Ok self, σ')
      ∧ ∀ key default required,
          st_environ σ' !! str_replace "." "_" (str_upper key) = None →
          get self key default required σ'
          = (if required
             then Raise (MissingConfigError (msg_key_not_found key))
             else Ok default, σ').
Proof.
  assert (_initialized (fresh_process ∅) = false) as Hinit by reflexivity.
  assert (instance_exists (fresh_process ∅)) as Hex by exact I.
  split; [exact Hinit|]. split; [exact Hex|]. split; [reflexivity|].
  exact (empty_document_misses (Demo.files YNull) None (fresh_process ∅)
           YNull Hinit Hex eq_refl eq_refl eq_refl).
Defined.

Lemma construction_retry_witness :
  _initialized (fresh_process ∅) = false
  ∧ instance_exists (fresh_process ∅)
  ∧ ConfigLoader Demo.no_document None (fresh_process ∅)
    = (Raise (ConfigurationError
               (msg_not_found "/srv/safes/configs/config.yaml")),
       Sample.failed)
  ∧ is_ConfigurationError
      (ConfigurationError (msg_not_found "/srv/safes/configs/config.yaml"))
    = true
  ∧ ∃ self σ2,
      ConfigLoader Sample.relocated (Some "/etc/safes.yaml") Sample.failed
      = (Ok self, σ2)
      ∧ _instance Sample.failed = Some self
      ∧ _instance σ2 = Some self
      ∧ _initialized σ2 = true
      ∧ length (st_loaders σ2) = length (st_loaders Sample.failed)
      ∧ read_attr _config_path self σ2
        = Some (document_path Sample.relocated (Some "/etc/safes.yaml")).
Proof.
  assert (_initialized (fresh_process ∅) = false) as Hinit by reflexivity.
  assert (instance_exists (fresh_process ∅)) as Hex by exact I.
  assert (ConfigLoader Demo.no_document None (fresh_process ∅)
          = (Raise (ConfigurationError
                      (msg_not_found "/srv/safes/configs/config.yaml")),
             Sample.failed)) as Hfail by (vm_compute; reflexivity).
  split; [exact Hinit|]. split; [exact Hex|]. split; [exact Hfail|].
  exact (construction_retry Demo.no_document None
           Sample.relocated (Some "/etc/safes.yaml")
           (fresh_process ∅) _ Sample.failed Demo.document
           Hinit Hex Hfail eq_refl eq_refl).
Defined.

Lemma reload_failure_keeps_tree_witness :
  read_attr _project_root 0%nat Demo.plain = Some "/srv/safes"
  ∧ read_attr _config_path 0%nat Demo.plain = Some Demo.config_yaml
  ∧ (∀ doc, ¬ (w_exists Demo.bad_document Demo.config_yaml = true
               ∧ w_yaml Demo.bad_document Demo.config_yaml = Loaded doc))
  ∧ ∃ msg σ',
      reload Demo.bad_document 0 Demo.plain
      = (Raise (ConfigurationError msg), σ')
      ∧ st_heap σ' = st_heap Demo.plain
      ∧ read_attr _config 0%nat σ' = read_attr _config 0%nat Demo.plain
      ∧ same_class Demo.plain σ'
      ∧ ∀ key default required,
          st_environ σ' !! str_replace "." "_" (str_upper key)
          = st_environ Demo.plain !! str_replace "." "_" (str_upper key) →
          (get 0 key default required σ').1
          = (get 0 key default required Demo.plain).1.
Proof.
  assert (read_attr _project_root 0%nat Demo.plain = Some "/srv/safes")
    as Hroot by (vm_compute; reflexivity).
  assert (read_attr _config_path 0%nat Demo.plain = Some Demo.config_yaml)
    as Hpath by (vm_compute; reflexivity).
  assert (∀ doc, ¬ (w_exists Demo.bad_document Demo.config_yaml = true
                    ∧ w_yaml Demo.bad_document Demo.config_yaml = Loaded doc))
    as Hbad by (intros doc [_ Hdoc]; discriminate Hdoc).
  split; [exact Hroot|]. split; [exact Hpath|]. split; [exact Hbad|].
  exact (reload_failure_keeps_tree Demo.bad_document 0 Demo.plain
           "/srv/safes" Demo.config_yaml Hroot Hpath Hbad).
Defined.

Example reload_failure_example :
  (get 0 "document_processing.chunk_size" VNone false
     (reload Demo.no_document 0 Demo.plain).2).1 = Ok (VInt 500)
  ∧ (is_debug 0 (reload Demo.bad_document 0 Demo.plain).2).1 = Ok (VBool true).
Proof. split; vm_compute; reflexivity. Qed.

Example setup_check_examples :
  (VerifySetup.check_directories (Demo.files Demo.document) "/srv/safes"
     (fresh_process ∅)).1 = Ok false
  ∧ (VerifySetup.check_utilities
       (λ m, if bool_decide (m = "httpx")
             then VerifySetup.ImportError "No module named 'httpx'"
             else VerifySetup.Imported None)
       (fresh_process ∅)).1 = Ok false
  ∧ VerifySetup.masked "sk-proj-0123456789abcdef" = "sk-proj-...cdef"
  ∧ VerifySetup.masked "sk-123456789" = "***".
Proof. repeat split; vm_compute; reflexivity. Qed.

Lemma non_mapping_root_misses_witness :
  read_attr _config 0%nat Sample.listed = Some (VRef 1)
  ∧ (∀ l d, VRef 1 = VRef l → st_heap Sample.listed !! l ≠ Some (ODict d))
  ∧ (∀ key default required,
       st_environ Sample.listed !! str_replace "." "_" (str_upper key) = None →
       get 0 key default required Sample.listed
       = (if required then Raise (MissingConfigError (msg_key_not_found key))
          else Ok default, Sample.listed))
  ∧ (is_scalar (VRef 1) → get_all 0 Sample.listed
                          = (Raise AttributeError, Sample.listed))
  ∧ (∀ c xs name, VRef 1 = VRef c → st_heap Sample.listed !! c = Some (OList xs) →
       get_section 0 name Sample.listed
       = (if bool_decide (VStr name ∈ xs) then Raise TypeError
          else Raise (MissingConfigError (msg_section_not_found name)),
          Sample.listed)).
Proof.
  assert (read_attr _config 0%nat Sample.listed = Some (VRef 1)) as Hcfg
    by (vm_compute; reflexivity).
  assert (∀ l d, VRef 1 = VRef l → st_heap Sample.listed !! l ≠ Some (ODict d))
    as Hroot by (intros l d [= <-]; vm_compute; discriminate).
  split; [exact Hcfg|]. split; [exact Hroot|].
  exact (non_mapping_root_misses Sample.listed 0 (VRef 1) Hcfg Hroot).
Defined.

Example sequence_root_examples :
  (get_section 0 "llm" Sample.listed).1 = Raise TypeError
  ∧ (get_section 0 "app" Sample.listed).1
    = Raise (MissingConfigError "Configuration section not found: 'app'")
  ∧ (get 0 "llm" (VInt 7) false Sample.listed).1 = Ok (VInt 7).
Proof. repeat split; vm_compute; reflexivity. Qed.

Lemma api_host_raw_witness :
  read_attr _config 0%nat (Sample.started {["API_HOST" := "1"]})
  = Some (VRef 4)
  ∧ st_environ (Sample.started {["API_HOST" := "1"]}) !! "API_HOST" = Some "1"
  ∧ api_host 0 (Sample.started {["API_HOST" := "1"]})
    = (Ok (VStr "1"), Sample.started {["API_HOST" := "1"]}).
Proof.
  assert (read_attr _config 0%nat (Sample.started {["API_HOST" := "1"]})
          = Some (VRef 4)) as Hcfg by (vm_compute; reflexivity).
  assert (st_environ (Sample.started {["API_HOST" := "1"]}) !! "API_HOST"
          = Some "1") as Hset by (vm_compute; reflexivity).
  split; [exact Hcfg|]. split; [exact Hset|].
  exact (proj1 (api_host_raw (Sample.started {["API_HOST" := "1"]}) 0
                  (VRef 4) Hcfg) "1" Hset).
Defined.

Example api_host_examples :
  (get 0 "api.host" (VStr "0.0.0.0") false
     (Sample.started {["API_HOST" := "1"]})).1 = Ok (VBool true)
  ∧ (api_host 0 Sample.plain).1 = Ok (VStr "0.0.0.0").
Proof. split; vm_compute; reflexivity. Qed.

Lemma class_state_monotone_witness :
  steps Sample.failed
    (exec (CallConfigLoader Demo.bad_document (Some "/tmp/x.yaml"))
       (exec (CallReload Demo.no_document 0) Sample.failed).2).2
  ∧ _instance Sample.failed = Some 0%nat
  ∧ class_monotone Sample.failed
      (exec (CallConfigLoader Demo.bad_document (Some "/tmp/x.yaml"))
         (exec (CallReload Demo.no_document 0) Sample.failed).2).2.
Proof.
  assert (steps Sample.failed
            (exec (CallConfigLoader Demo.bad_document (Some "/tmp/x.yaml"))
               (exec (CallReload Demo.no_document 0) Sample.failed).2).2)
    as Hsteps by (do 2 apply steps_call; apply steps_refl).
  split; [exact Hsteps|]. split; [reflexivity|].
  exact (class_state_monotone Sample.failed _ Hsteps).
Defined.
